(** * KubeVirt: the OfflineVirtualMachine controller and the network-binding
      sidecar resolver

    A shallow embedding of
    - [pkg/virt-controller/watch/ovm.go]: the reconciler [execute], the
      start/stop executor [startStop] and the status synthesizer
      [updateStatus] of the OfflineVirtualMachine controller;
    - the [services] helper [NetBindingPluginSidecarList].

    Go maps are [gmap]s, slices are lists, a nilable pointer is an [option],
    the [error] interface is an optional message.  Calls that leave the
    process (API requests, expectation bookkeeping, recorded events, queue
    operations) are emitted, in program order, into a log of [Effect]s. *)

From stdpp Require Import base option list gmap fin_maps strings.

Local Open Scope string_scope.
Local Open Scope list_scope.

(** ** Go preliminaries *)

(** A Go [error] value: the text that [Error()] yields. *)
Definition error := string.

(** The pair [(value, err)] that fallible Go calls return. *)
Inductive Result (A : Type) : Type :=
| Ok (a : A)
| Err (e : error).
Arguments Ok {A} a.
Arguments Err {A} e.

(** [strings.Contains(msg, s)]. *)
Definition mentions (s msg : string) : bool :=
  match String.index 0 s msg with Some _ => true | None => false end.

(** ** The network-binding sidecar resolver *)
Module Services.

(** [v1.PluginBinding]: the binding an interface declares. *)
Record PluginBinding := { Name : string }.

(** [v1.Interface], reduced to the fields the resolver reads. *)
Record Interface := {
  IfaceName : string;
  Binding : option PluginBinding
}.

(** [v1.InterfaceBindingPlugin]: one entry of the binding catalog. *)
Record InterfaceBindingPlugin := {
  SidecarImage : string;
  NetworkAttachmentDefinition : string
}.

(** The zero value a failed Go map read yields. *)
Definition zeroPlugin : InterfaceBindingPlugin :=
  {| SidecarImage := ""; NetworkAttachmentDefinition := "" |}.

(** [v1.NetworkConfiguration]; [Catalog] is its field [Binding], a nilable
    map from binding name to plugin. *)
Record NetworkConfiguration := {
  Catalog : option (gmap string InterfaceBindingPlugin)
}.

(** [v1.KubeVirtConfiguration]; [NetworkConfig] is its field
    [NetworkConfiguration], a nilable pointer. *)
Record KubeVirtConfiguration := {
  NetworkConfig : option NetworkConfiguration
}.

(** [v1.VirtualMachineInstance], reduced to
    [Spec.Domain.Devices.Interfaces]. *)
Record VirtualMachineInstance := {
  Interfaces : list Interface
}.

(** [hooks.HookSidecar]. *)
Record HookSidecar := { Image : string }.

Definition HookSidecarList := list HookSidecar.

(** [config.NetworkConfiguration.Binding] when both the pointer and the map
    are non-nil, as the guard of the first loop tests it. *)
Definition bindingCatalog (config : KubeVirtConfiguration)
  : option (gmap string InterfaceBindingPlugin) :=
  match NetworkConfig config with
  | Some nc => Catalog nc
  | None => None
  end.

Definition notFound (name : string) : error :=
  "couldn't find configuration for network bindining: " +:+ name.

(** The first loop of [NetBindingPluginSidecarList]: every interface with a
    binding is looked up in the catalog and stored in [bindingByName]; the
    first name that is not found ends the function with an error.
    [exist'] is the source's [exist], false unless the guarded read sets
    it. *)
Fixpoint collectBindings (config : KubeVirtConfiguration)
    (ifaces : list Interface)
    (bindingByName : gmap string InterfaceBindingPlugin)
  : Result (gmap string InterfaceBindingPlugin) :=
  match ifaces with
  | [] => Ok bindingByName
  | iface :: rest =>
    match Binding iface with
    | None => collectBindings config rest bindingByName
    | Some b =>
      let '(exist', bindingByName') :=
        match bindingCatalog config with
        | Some catalog =>
          let pluginInfo := default zeroPlugin (catalog !! Name b) in
          let exist' := bool_decide (is_Some (catalog !! Name b)) in
          (exist', <[Name b := pluginInfo]> bindingByName)
        | None => (false, bindingByName)
        end in
      if negb exist' then Err (notFound (Name b))
      else collectBindings config rest bindingByName'
    end
  end.

(** The body of the second loop. *)
Definition appendSidecar (pluginSidecars : HookSidecarList)
    (entry : string * InterfaceBindingPlugin) : HookSidecarList :=
  if bool_decide (SidecarImage entry.2 ≠ "")
  then pluginSidecars ++ [ {| Image := SidecarImage entry.2 |} ]
  else pluginSidecars.

Section Resolver.

(** Go leaves the order in which [range] visits a map unspecified.  The
    order is a parameter: any enumeration of the map's entries. *)
Variable rangeMap :
  gmap string InterfaceBindingPlugin → list (string * InterfaceBindingPlugin).

Definition NetBindingPluginSidecarList
    (vmi : VirtualMachineInstance) (config : KubeVirtConfiguration)
  : Result HookSidecarList :=
  match collectBindings config (Interfaces vmi) ∅ with
  | Err e => Err e
  | Ok bindingByName =>
    Ok (foldl appendSidecar [] (rangeMap bindingByName))
  end.

End Resolver.

(** A legal iteration order. *)
Definition RangeOrder
    (rangeMap : gmap string InterfaceBindingPlugin →
                list (string * InterfaceBindingPlugin)) : Prop :=
  ∀ m, rangeMap m ≡ₚ map_to_list m.

End Services.

(** ** The OfflineVirtualMachine controller *)
Module Watch.

(** *** API objects *)

(** [metav1.Time], in seconds. *)
Definition Time := nat.

(** [metav1.OwnerReference]; [Controller] and [BlockOwnerDeletion] are
    nilable [*bool]. *)
Record OwnerReference := {
  RefAPIVersion : string;
  RefKind : string;
  RefName : string;
  RefUID : string;
  RefController : option bool;
  RefBlockOwnerDeletion : option bool
}.

(** [metav1.ObjectMeta], reduced to the fields the controller touches. *)
Record ObjectMeta := {
  Name : string;
  GenerateName : string;
  Namespace : string;
  UID : string;
  ResourceVersion : string;
  Labels : gmap string string;
  OwnerReferences : list OwnerReference;
  DeletionTimestamp : option Time;
  Finalizers : list string
}.

Definition zeroObjectMeta : ObjectMeta :=
  {| Name := ""; GenerateName := ""; Namespace := ""; UID := "";
     ResourceVersion := ""; Labels := ∅; OwnerReferences := [];
     DeletionTimestamp := None; Finalizers := [] |}.

(** [schema.GroupVersionKind]. *)
Record GroupVersionKind := {
  Group : string;
  Version : string;
  Kind : string
}.

(** [gvk.GroupVersion().String()]. *)
Definition GroupVersionString (gvk : GroupVersionKind) : string :=
  if bool_decide (Group gvk = "") then Version gvk
  else Group gvk +:+ "/" +:+ Version gvk.

(** [metav1.LabelSelectorRequirement] and [metav1.LabelSelector]. *)
Record LabelSelectorRequirement := {
  ReqKey : string;
  ReqOperator : string;
  ReqValues : list string
}.

Record LabelSelector := {
  MatchLabels : gmap string string;
  MatchExpressions : list LabelSelectorRequirement
}.

(** [labels.Selector]: an interface whose one method used here is
    [Matches]. *)
Definition labels_Selector := gmap string string → bool.

Definition Matches (selector : labels_Selector) (set : gmap string string) : bool :=
  selector set.

(** The VM's domain specification.  The controller copies it from the
    template into the child and never reads it. *)
Record VirtualMachineSpec := { Domain : string }.

Record VirtualMachineStatus := { Phase : string }.

(** [virtv1.VirtualMachine], the child. *)
Record VirtualMachine := {
  VM_ObjectMeta : ObjectMeta;
  VM_Spec : VirtualMachineSpec;
  VM_Status : VirtualMachineStatus
}.

(** [virtv1.VMTemplateSpec]. *)
Record VMTemplateSpec := {
  Tpl_ObjectMeta : ObjectMeta;
  Tpl_Spec : VirtualMachineSpec
}.

(** [virtv1.OfflineVirtualMachineSpec]; [Template] and [Selector] are
    nilable pointers. *)
Record OfflineVirtualMachineSpec := {
  Running : bool;
  Template : option VMTemplateSpec;
  Selector : option LabelSelector
}.

(** [virtv1.OfflineVirtualMachineCondition]; [CondType] is the field
    [Type]. *)
Record OfflineVirtualMachineCondition := {
  CondType : string;
  CondStatus : string;
  LastProbeTime : Time;
  LastTransitionTime : Time;
  Reason : string;
  Message : string
}.

Record OfflineVirtualMachineStatus := {
  Conditions : list OfflineVirtualMachineCondition
}.

(** [virtv1.OfflineVirtualMachine], the parent. *)
Record OfflineVirtualMachine := {
  OVM_ObjectMeta : ObjectMeta;
  OVM_Spec : OfflineVirtualMachineSpec;
  OVM_Status : OfflineVirtualMachineStatus
}.

(** *** Constants the file refers to *)

(** Modelled from the spec: the two condition types the status synthesizer
    manages, [Running] and [Failure] (section 4.8); their declarations are
    in the API package. *)
Definition OfflineVirtualMachineRunning : string := "Running".
Definition OfflineVirtualMachineFailure : string := "Failure".

(** Modelled from the spec: the event reasons (section 6), declared beside
    the replica-set controller of the same package. *)
Definition SuccessfulCreateVirtualMachineReason : string := "SuccessfulCreate".
Definition FailedCreateVirtualMachineReason : string := "FailedCreate".
Definition SuccessfulDeleteVirtualMachineReason : string := "SuccessfulDelete".
Definition FailedDeleteVirtualMachineReason : string := "FailedDelete".
Definition SuccessfulPausedReplicaSetReason : string := "SuccessfulPausedReplicaSet".
Definition SuccessfulResumedReplicaSetReason : string := "SuccessfulResumedReplicaSet".

(** [k8score.EventTypeNormal], [k8score.EventTypeWarning],
    [k8score.ConditionTrue], [metav1.FinalizerOrphanDependents]. *)
Definition EventTypeNormal : string := "Normal".
Definition EventTypeWarning : string := "Warning".
Definition ConditionTrue : string := "True".
Definition FinalizerOrphanDependents : string := "orphan".

(** *** Effects *)

(** What one reconcile does to its collaborators, in program order: the
    expectations store, the event recorder, the API client, the adoption
    manager and the work queue. *)
Inductive Effect :=
| DeleteExpectations (key : string)
| ExpectCreations (key : string) (adds : nat)
| ExpectDeletions (key : string) (vmKeys : list string)
| CreationObserved (key : string)
| DeletionObserved (key : string) (vmKey : string)
| Eventf (object : OfflineVirtualMachine) (eventtype reason message : string)
| VMCreate (namespace : string) (vm : VirtualMachine)
| VMDelete (namespace name : string)
| OVMUpdate (namespace : string) (ovm : OfflineVirtualMachine)
| ClaimVirtualMachines (ovm : OfflineVirtualMachine) (vms : list VirtualMachine)
| ReleaseVirtualMachine (ovm : OfflineVirtualMachine) (vm : VirtualMachine)
| QueueAddRateLimited (key : string)
| QueueForget (key : string)
| QueueDone (key : string).

(** How a Go call ends: it returns, or it panics (a nil dereference). *)
Inductive Outcome (A : Type) : Type :=
| Returns (a : A)
| Panics.
Arguments Returns {A} a.
Arguments Panics {A}.

(** A computation: its outcome and the effects it issued on the way. *)
Definition Go (A : Type) : Type := Outcome A * list Effect.

Definition ret {A} (a : A) : Go A := (Returns a, []).

Definition panic {A} : Go A := (Panics, []).

Definition emit (e : Effect) : Go unit := (Returns tt, [e]).

Definition bind {A B} (m : Go A) (f : A → Go B) : Go B :=
  match m with
  | (Returns a, effs) => let '(out, effs') := f a in (out, effs ++ effs')
  | (Panics, effs) => (Panics, effs)
  end.

(** [defer]: the effect runs when the body is left, also by a panic. *)
Definition defer {A} (e : Effect) (body : Go A) : Go A :=
  let '(out, effs) := body in (out, effs ++ [e]).

(** Dereferencing a pointer. *)
Definition deref {A} (p : option A) : Go A :=
  match p with
  | Some a => ret a
  | None => panic
  end.

Definition outcome {A} (m : Go A) : Outcome A := m.1.
Definition effects {A} (m : Go A) : list Effect := m.2.

Declare Scope go_scope.
Delimit Scope go_scope with go.
Notation "'let*' x ':=' m 'in' k" := (bind m (λ x, k))
  (at level 10, x name, m at level 100, k at level 200) : go_scope.
Notation "m ;; k" := (bind m (λ _, k))
  (at level 100, k at level 200, right associativity) : go_scope.
Local Open Scope go_scope.

(** *** Collaborators *)

(** What the controller reads from its collaborators during one reconcile:
    the informer caches, the expectations store, the replies of the API
    server, and the helpers of the [controller] package and of the
    apimachinery library whose code is outside this file. *)
Record Cluster := {
  (** [c.Queue.Get()] *)
  Queue_Get : string * bool;
  (** [c.vmOVMInformer.GetStore().GetByKey(key)]: [(obj, exists, err)] *)
  GetByKey : string → Result (option OfflineVirtualMachine);
  (** [c.vmInformer.GetIndexer().ByIndex(cache.NamespaceIndex, namespace)] *)
  ByIndex : string → Result (list VirtualMachine);
  (** [c.expectations.SatisfiedExpectations(key)] *)
  SatisfiedExpectations : string → bool;
  (** [c.clientset.VM(namespace).Create(vm)] *)
  Create : string → VirtualMachine → Result VirtualMachine;
  (** [c.clientset.VM(namespace).Delete(name, options)] *)
  Delete : string → string → option error;
  (** [c.clientset.OfflineVirtualMachine(namespace).Update(ovm)] *)
  Update : string → OfflineVirtualMachine → Result OfflineVirtualMachine;
  (** [cm.ClaimVirtualMachines(vms)] of the manager built for the parent
      and its selector *)
  Claim : OfflineVirtualMachine → labels_Selector → list VirtualMachine →
          Result (list VirtualMachine);
  (** [cm.ReleaseVirtualMachine(vm)] *)
  Release : OfflineVirtualMachine → VirtualMachine → option error;
  (** [controller.KeyFunc] *)
  KeyFunc : OfflineVirtualMachine → Result string;
  (** [vm.IsFinal()] *)
  IsFinal : VirtualMachine → bool;
  (** [metav1.LabelSelectorAsSelector] *)
  LabelSelectorAsSelector : LabelSelector → Result labels_Selector;
  (** [virtv1.OfflineVirtualMachineGroupVersionKind] *)
  OfflineVirtualMachineGroupVersionKind : GroupVersionKind;
  (** [metav1.Now()] *)
  Now : Time
}.

(** Modelled from the spec: [controller.VirtualMachineKey], the child's
    [namespace/name] (section 4.5); its code is in the [controller]
    package. *)
Definition VirtualMachineKey (vm : VirtualMachine) : string :=
  Namespace (VM_ObjectMeta vm) +:+ "/" +:+ Name (VM_ObjectMeta vm).

(** [controller.HasFinalizer]: membership in [metadata.finalizers]. *)
Definition HasFinalizer (ovm : OfflineVirtualMachine) (finalizer : string) : bool :=
  bool_decide (finalizer ∈ Finalizers (OVM_ObjectMeta ovm)).

(** [virtv1.NewVMReferenceFromNameWithNS]: a VM that carries only its
    namespace and name. *)
Definition NewVMReferenceFromNameWithNS (namespace name : string) : VirtualMachine :=
  {| VM_ObjectMeta :=
       {| Name := name; GenerateName := ""; Namespace := namespace; UID := "";
          ResourceVersion := ""; Labels := ∅; OwnerReferences := [];
          DeletionTimestamp := None; Finalizers := [] |};
     VM_Spec := {| Domain := "" |};
     VM_Status := {| Phase := "" |} |}.

(** Field assignments. *)
Definition setName (meta : ObjectMeta) (v : string) : ObjectMeta :=
  {| Name := v; GenerateName := GenerateName meta; Namespace := Namespace meta;
     UID := UID meta; ResourceVersion := ResourceVersion meta;
     Labels := Labels meta; OwnerReferences := OwnerReferences meta;
     DeletionTimestamp := DeletionTimestamp meta; Finalizers := Finalizers meta |}.

Definition setGenerateName (meta : ObjectMeta) (v : string) : ObjectMeta :=
  {| Name := Name meta; GenerateName := v; Namespace := Namespace meta;
     UID := UID meta; ResourceVersion := ResourceVersion meta;
     Labels := Labels meta; OwnerReferences := OwnerReferences meta;
     DeletionTimestamp := DeletionTimestamp meta; Finalizers := Finalizers meta |}.

Definition setLabels (meta : ObjectMeta) (v : gmap string string) : ObjectMeta :=
  {| Name := Name meta; GenerateName := GenerateName meta;
     Namespace := Namespace meta; UID := UID meta;
     ResourceVersion := ResourceVersion meta;
     Labels := v; OwnerReferences := OwnerReferences meta;
     DeletionTimestamp := DeletionTimestamp meta; Finalizers := Finalizers meta |}.

Definition setOwnerReferences (meta : ObjectMeta) (v : list OwnerReference)
  : ObjectMeta :=
  {| Name := Name meta; GenerateName := GenerateName meta;
     Namespace := Namespace meta; UID := UID meta;
     ResourceVersion := ResourceVersion meta;
     Labels := Labels meta; OwnerReferences := v;
     DeletionTimestamp := DeletionTimestamp meta; Finalizers := Finalizers meta |}.

Definition setConditions (ovm : OfflineVirtualMachine)
    (conds : list OfflineVirtualMachineCondition) : OfflineVirtualMachine :=
  {| OVM_ObjectMeta := OVM_ObjectMeta ovm; OVM_Spec := OVM_Spec ovm;
     OVM_Status := {| Conditions := conds |} |}.

(** [ovm.DeepCopy()]: values have no identity here. *)
Definition DeepCopy (ovm : OfflineVirtualMachine) : OfflineVirtualMachine := ovm.

Definition isNil {A} (e : option A) : bool :=
  match e with None => true | Some _ => false end.

(** *** Status conditions *)

(** [hasCondition]: the loop returns at the first condition of the type. *)
Fixpoint hasConditionIn (conds : list OfflineVirtualMachineCondition)
    (cond : string) : bool :=
  match conds with
  | [] => false
  | c :: rest =>
    if bool_decide (CondType c = cond) then true else hasConditionIn rest cond
  end.

Definition hasCondition (ovm : OfflineVirtualMachine) (cond : string) : bool :=
  hasConditionIn (Conditions (OVM_Status ovm)) cond.

(** [removeCondition]: the loop appends to [conds] every condition of
    another type; [ovm.Status.Conditions = conds] follows it. *)
Fixpoint removeConditionLoop (todo conds : list OfflineVirtualMachineCondition)
    (cond : string) : list OfflineVirtualMachineCondition :=
  match todo with
  | [] => conds
  | c :: rest =>
    if bool_decide (CondType c = cond) then removeConditionLoop rest conds cond
    else removeConditionLoop rest (conds ++ [c]) cond
  end.

Definition removeCondition (ovm : OfflineVirtualMachine) (cond : string)
  : OfflineVirtualMachine :=
  setConditions ovm (removeConditionLoop (Conditions (OVM_Status ovm)) [] cond).

(** [getVirtualMachineBaseName]; it dereferences [ovm.Spec.Template]. *)
Definition getVirtualMachineBaseName (ovm : OfflineVirtualMachine) : Go string :=
  let* template := deref (Template (OVM_Spec ovm)) in
  if (0 <? String.length (Name (Tpl_ObjectMeta template)))%nat
  then ret (Name (Tpl_ObjectMeta template))
  else if (0 <? String.length (GenerateName (Tpl_ObjectMeta template)))%nat
  then ret (GenerateName (Tpl_ObjectMeta template))
  else ret (Name (OVM_ObjectMeta ovm)).

Section Controller.

Variable c : Cluster.

(** [processRunning] *)
Definition processRunning (ovm : OfflineVirtualMachine)
    (vm : option VirtualMachine) (createErr : option error)
  : OfflineVirtualMachine :=
  if Running (OVM_Spec ovm) && isNil createErr
     && negb (hasCondition ovm OfflineVirtualMachineRunning)
  then
    setConditions ovm
      (Conditions (OVM_Status ovm) ++
       [ {| CondType := OfflineVirtualMachineRunning;
            CondStatus := ConditionTrue;
            LastProbeTime := 0%nat;
            LastTransitionTime := Now c;
            Reason := "Created by OVM " +:+ Name (OVM_ObjectMeta ovm);
            Message := "Created by OVM " +:+ Name (OVM_ObjectMeta ovm) |} ])
  else removeCondition ovm OfflineVirtualMachineRunning.

(** [processFailure] *)
Definition processFailure (ovm : OfflineVirtualMachine)
    (createErr : option error) : OfflineVirtualMachine :=
  match createErr with
  | Some err =>
    if negb (hasCondition ovm OfflineVirtualMachineFailure) then
      let reason :=
        if Running (OVM_Spec ovm) then "FailedCreate" else "FailedDelete" in
      setConditions ovm
        (Conditions (OVM_Status ovm) ++
         [ {| CondType := OfflineVirtualMachineFailure;
              CondStatus := ConditionTrue;
              LastProbeTime := 0%nat;
              LastTransitionTime := Now c;
              Reason := reason;
              Message := err |} ])
    else ovm
  | None =>
    if hasCondition ovm OfflineVirtualMachineFailure
    then removeCondition ovm OfflineVirtualMachineFailure
    else ovm
  end.

(** [updateStatus] *)
Definition updateStatus (ovm : OfflineVirtualMachine)
    (vm : option VirtualMachine) (createErr : option error)
  : Go (option error) :=
  let errorsMatch :=
    Bool.eqb (negb (isNil createErr)) (hasCondition ovm OfflineVirtualMachineFailure) in
  let stoppedMatch :=
    Bool.eqb (Running (OVM_Spec ovm)) (hasCondition ovm OfflineVirtualMachineRunning) in
  if errorsMatch && stoppedMatch then ret None
  else
    let ovm := processFailure ovm createErr in
    let ovm := processRunning ovm vm createErr in
    emit (OVMUpdate (Namespace (OVM_ObjectMeta ovm)) ovm);;
    match Update c (Namespace (OVM_ObjectMeta ovm)) ovm with
    | Err err => ret (Some err)
    | Ok _ =>
      (if negb stoppedMatch then
         if Running (OVM_Spec ovm)
         then emit (Eventf ovm EventTypeNormal SuccessfulPausedReplicaSetReason "Running")
         else emit (Eventf ovm EventTypeNormal SuccessfulResumedReplicaSetReason "Stopped")
       else ret tt);;
      ret None
    end.

(** [OvmOwnerRef], which [startStop] writes inline. *)
Definition OvmOwnerRef (ovm : OfflineVirtualMachine) : OwnerReference :=
  let t := true in
  let gvk := OfflineVirtualMachineGroupVersionKind c in
  {| RefAPIVersion := GroupVersionString gvk;
     RefKind := Kind gvk;
     RefName := Name (OVM_ObjectMeta ovm);
     RefUID := UID (OVM_ObjectMeta ovm);
     RefController := Some t;
     RefBlockOwnerDeletion := Some t |}.

(** The [ovm.Spec.Running == true] block of [startStop].  [Some r] is
    [return r]; [None] is falling through to the next block. *)
Definition startBlock (ovm : OfflineVirtualMachine)
    (vm : option VirtualMachine) (ovmKey : string)
  : Go (option (option error)) :=
  match vm with
  | Some _ => ret (Some None)
  | None =>
    emit (ExpectCreations ovmKey 1);;
    let* basename := getVirtualMachineBaseName ovm in
    let* template := deref (Template (OVM_Spec ovm)) in
    let vm := NewVMReferenceFromNameWithNS (Namespace (OVM_ObjectMeta ovm)) "" in
    let meta := Tpl_ObjectMeta template in
    let meta := setName meta basename in
    let meta := setGenerateName meta basename in
    let meta := setLabels meta (Labels (Tpl_ObjectMeta template)) in
    let meta := setOwnerReferences meta [OvmOwnerRef ovm] in
    let vm := {| VM_ObjectMeta := meta;
                 VM_Spec := Tpl_Spec template;
                 VM_Status := VM_Status vm |} in
    emit (VMCreate (Namespace (OVM_ObjectMeta ovm)) vm);;
    match Create c (Namespace (OVM_ObjectMeta ovm)) vm with
    | Err err =>
      emit (CreationObserved ovmKey);;
      emit (Eventf ovm EventTypeWarning FailedCreateVirtualMachineReason
              ("Error creating virtual machine: " +:+ err));;
      ret (Some (Some err))
    | Ok vm =>
      emit (Eventf ovm EventTypeNormal SuccessfulCreateVirtualMachineReason
              ("Created virtual machine: " +:+ Name (VM_ObjectMeta vm)));;
      ret None
    end
  end.

(** The [ovm.Spec.Running == false] block of [startStop]. *)
Definition stopBlock (ovm : OfflineVirtualMachine)
    (vm : option VirtualMachine) (ovmKey : string)
  : Go (option (option error)) :=
  match vm with
  | None => ret (Some None)
  | Some vm =>
    emit (ExpectDeletions ovmKey [VirtualMachineKey vm]);;
    emit (VMDelete (Namespace (OVM_ObjectMeta ovm)) (Name (VM_ObjectMeta vm)));;
    match Delete c (Namespace (OVM_ObjectMeta ovm)) (Name (VM_ObjectMeta vm)) with
    | Some err =>
      emit (DeletionObserved ovmKey (VirtualMachineKey vm));;
      emit (Eventf ovm EventTypeWarning FailedDeleteVirtualMachineReason
              ("Error deleting virtual machine " +:+ Name (VM_ObjectMeta vm)
               +:+ ": " +:+ err));;
      ret (Some (Some err))
    | None =>
      emit (Eventf ovm EventTypeNormal SuccessfulDeleteVirtualMachineReason
              ("Deleted virtual machine: " +:+ UID (VM_ObjectMeta vm)));;
      ret None
    end
  end.

(** [startStop] *)
Definition startStop (ovm : OfflineVirtualMachine)
    (vm : option VirtualMachine) : Go (option error) :=
  match KeyFunc c ovm with
  | Err _ => ret None
  | Ok ovmKey =>
    let* started :=
      (if Running (OVM_Spec ovm) then startBlock ovm vm ovmKey else ret None) in
    match started with
    | Some r => ret r
    | None =>
      let* stopped :=
        (if negb (Running (OVM_Spec ovm)) then stopBlock ovm vm ovmKey
         else ret None) in
      match stopped with
      | Some r => ret r
      | None => ret None
      end
    end
  end.

(** [filter], [filterActiveVMs] *)
Definition filterActiveVMs (vms : list VirtualMachine) : list VirtualMachine :=
  List.filter (λ vm, negb (IsFinal c vm)) vms.

(** [listVMsFromNamespace] *)
Definition listVMsFromNamespace (namespace : string)
  : Result (list VirtualMachine) :=
  match ByIndex c namespace with
  | Err err => Err err
  | Ok objs => Ok (foldl (λ vms obj, vms ++ [obj]) [] objs)
  end.

(** [orphan].  The releases run in goroutines and the first error to
    reach the channel is returned; here they run in list order. *)
Fixpoint releaseAll (ovm : OfflineVirtualMachine) (vms : list VirtualMachine)
  : Go (list error) :=
  match vms with
  | [] => ret []
  | vm :: rest =>
    emit (ReleaseVirtualMachine ovm vm);;
    let* errs := releaseAll ovm rest in
    match Release c ovm vm with
    | Some err => ret (err :: errs)
    | None => ret errs
    end
  end.

Definition orphan (ovm : OfflineVirtualMachine) (vms : list VirtualMachine)
  : Go (option error) :=
  let* errChan := releaseAll ovm vms in
  ret (head errChan).

(** The validity test that opens [execute]; [||] evaluates left to
    right and stops at the first true operand. *)
Definition invalidSpec (OVM : OfflineVirtualMachine) : bool :=
  match Template (OVM_Spec OVM) with
  | None => true
  | Some template =>
    match Selector (OVM_Spec OVM) with
    | None => true
    | Some _ => (size (Labels (Tpl_ObjectMeta template)) =? 0)%nat
    end
  end.

(** [execute] *)
Definition execute (key : string) : Go (option error) :=
  match GetByKey c key with
  | Err err => ret None
  | Ok None => emit (DeleteExpectations key);; ret None
  | Ok (Some OVM) =>
    if invalidSpec OVM then ret None
    else
      let* specSelector := deref (Selector (OVM_Spec OVM)) in
      match LabelSelectorAsSelector c specSelector with
      | Err err => ret None
      | Ok selector =>
        let* template := deref (Template (OVM_Spec OVM)) in
        if negb (Matches selector (Labels (Tpl_ObjectMeta template)))
        then ret None
        else
          let needsSync := SatisfiedExpectations c key in
          match listVMsFromNamespace (Namespace (OVM_ObjectMeta OVM)) with
          | Err err => ret (Some err)
          | Ok vms =>
            let vms := filterActiveVMs vms in
            emit (ClaimVirtualMachines OVM vms);;
            match Claim c OVM selector vms with
            | Err err => ret (Some err)
            | Ok vms =>
              (* [err] is nil past the check above *)
              let err : option error := None in
              if (1 <? length vms)%nat then ret err
              else
                let vm := if (length vms =? 1)%nat then head vms else None in
                let* createErr :=
                  (if needsSync && isNil (DeletionTimestamp (OVM_ObjectMeta OVM))
                   then startStop OVM vm
                   else ret None) in
                if negb (isNil (DeletionTimestamp (OVM_ObjectMeta OVM)))
                   && HasFinalizer OVM FinalizerOrphanDependents
                then orphan OVM vms
                else updateStatus (DeepCopy OVM) vm createErr
            end
          end
      end
  end.

(** [Execute] *)
Definition Execute : Go bool :=
  let '(key, quit) := Queue_Get c in
  if quit then ret false
  else
    defer (QueueDone key)
      (let* err := execute key in
       match err with
       | Some _ => emit (QueueAddRateLimited key);; ret true
       | None => emit (QueueForget key);; ret true
       end).

End Controller.

End Watch.

(** ** The specification's vocabulary *)

(** *** For the sidecar resolver *)
Module ServicesSpec.
Import Services.

(** The binding names a VMI declares, in interface order. *)
Definition declaredNames (ifaces : list Interface) : list string :=
  omap (λ iface, Name <$> Binding iface) ifaces.

(** The catalog read [config.NetworkConfiguration.Binding[name]]. *)
Definition catalogLookup (config : KubeVirtConfiguration) (name : string)
  : option InterfaceBindingPlugin :=
  bindingCatalog config ≫= (λ catalog, catalog !! name).

Definition resolves (config : KubeVirtConfiguration) (name : string) : Prop :=
  is_Some (catalogLookup config name).

Definition pluginOf (config : KubeVirtConfiguration) (name : string)
  : InterfaceBindingPlugin :=
  default zeroPlugin (catalogLookup config name).

(** The first declared name, in interface order, with no catalog entry. *)
Definition firstUnknown (config : KubeVirtConfiguration)
    (ifaces : list Interface) : option string :=
  snd <$> list_find (λ name, ¬ resolves config name) (declaredNames ifaces).

(** The sidecar list as the specification words it: one sidecar for each
    distinct declared binding name whose catalog entry carries an image. *)
Definition specSidecars (vmi : VirtualMachineInstance)
    (config : KubeVirtConfiguration) : HookSidecarList :=
  (λ name, {| Image := SidecarImage (pluginOf config name) |}) <$>
  filter (λ name, SidecarImage (pluginOf config name) ≠ "")
         (remove_dups (declaredNames (Interfaces vmi))).

(** The reading of the unknown-binding rule that holds every absent name to
    be reported. *)
Definition reportsEveryUnknown
    (rangeMap : gmap string InterfaceBindingPlugin →
                list (string * InterfaceBindingPlugin))
    (vmi : VirtualMachineInstance) (config : KubeVirtConfiguration) : Prop :=
  ∀ iface b,
    iface ∈ Interfaces vmi → Binding iface = Some b →
    ¬ resolves config (Name b) →
    ∃ msg, NetBindingPluginSidecarList rangeMap vmi config = Err msg
           ∧ mentions (Name b) msg = true.

(** The map the first loop has built once every name resolved. *)
Definition insertAll (config : KubeVirtConfiguration) (names : list string)
    (m : gmap string InterfaceBindingPlugin) : gmap string InterfaceBindingPlugin :=
  foldl (λ acc name, <[name := pluginOf config name]> acc) m names.

End ServicesSpec.

(** *** For the controller *)
Module WatchSpec.
Import Watch.
Local Open Scope go_scope.

(** How many conditions of a type a parent carries. *)
Definition countCondition (ovm : OfflineVirtualMachine) (cond : string) : nat :=
  length (filter (λ cnd, CondType cnd = cond) (Conditions (OVM_Status ovm))).

(** "At most one instance of each condition type" (invariant I5). *)
Definition uniqueConditions (ovm : OfflineVirtualMachine) : Prop :=
  ∀ cond, (countCondition ovm cond ≤ 1)%nat.

(** The two mutations of [updateStatus], in its order. *)
Definition synthesize (c : Cluster) (ovm : OfflineVirtualMachine)
    (vm : option VirtualMachine) (createErr : option error)
  : OfflineVirtualMachine :=
  processRunning c (processFailure c ovm createErr) vm createErr.

(** The child [startStop] sends to the API server. *)
Definition newChild (c : Cluster) (ovm : OfflineVirtualMachine)
    (template : VMTemplateSpec) (basename : string) : VirtualMachine :=
  {| VM_ObjectMeta :=
       {| Name := basename; GenerateName := basename;
          Namespace := Namespace (Tpl_ObjectMeta template);
          UID := UID (Tpl_ObjectMeta template);
          ResourceVersion := ResourceVersion (Tpl_ObjectMeta template);
          Labels := Labels (Tpl_ObjectMeta template);
          OwnerReferences := [OvmOwnerRef c ovm];
          DeletionTimestamp := DeletionTimestamp (Tpl_ObjectMeta template);
          Finalizers := Finalizers (Tpl_ObjectMeta template) |};
     VM_Spec := Tpl_Spec template;
     VM_Status := {| Phase := "" |} |}.

(** The base name of section 4.7: template name, else template
    generateName, else the parent's name. *)
Definition baseName (ovm : OfflineVirtualMachine) (template : VMTemplateSpec)
  : string :=
  if bool_decide (Name (Tpl_ObjectMeta template) ≠ "")
  then Name (Tpl_ObjectMeta template)
  else if bool_decide (GenerateName (Tpl_ObjectMeta template) ≠ "")
  then GenerateName (Tpl_ObjectMeta template)
  else Name (OVM_ObjectMeta ovm).

(** A parent that passes validation (section 4.6, step 2). *)
Definition validParent (c : Cluster) (OVM : OfflineVirtualMachine)
    (template : VMTemplateSpec) (selector : labels_Selector) : Prop :=
  Template (OVM_Spec OVM) = Some template ∧
  Labels (Tpl_ObjectMeta template) ≠ ∅ ∧
  ∃ specSelector,
    Selector (OVM_Spec OVM) = Some specSelector ∧
    LabelSelectorAsSelector c specSelector = Ok selector ∧
    Matches selector (Labels (Tpl_ObjectMeta template)) = true.

(** A parent that validation rejects: the permanent user errors. *)
Inductive invalidParent (c : Cluster) (OVM : OfflineVirtualMachine) : Prop :=
| TemplateMissing :
    Template (OVM_Spec OVM) = None → invalidParent c OVM
| SelectorMissing :
    Selector (OVM_Spec OVM) = None → invalidParent c OVM
| SelectorUnparsable specSelector err :
    Selector (OVM_Spec OVM) = Some specSelector →
    LabelSelectorAsSelector c specSelector = Err err →
    invalidParent c OVM
| TemplateLabelsEmpty template :
    Template (OVM_Spec OVM) = Some template →
    Labels (Tpl_ObjectMeta template) = ∅ →
    invalidParent c OVM
| SelectorMismatch template specSelector selector :
    Template (OVM_Spec OVM) = Some template →
    Selector (OVM_Spec OVM) = Some specSelector →
    LabelSelectorAsSelector c specSelector = Ok selector →
    Matches selector (Labels (Tpl_ObjectMeta template)) = false →
    invalidParent c OVM.

(** Effects of the scaling step and of the status write. *)
Definition isScaling (e : Effect) : bool :=
  match e with
  | ExpectCreations _ _ | ExpectDeletions _ _
  | CreationObserved _ | DeletionObserved _ _
  | VMCreate _ _ | VMDelete _ _ => true
  | _ => false
  end.

Definition isStatusWrite (e : Effect) : bool :=
  match e with
  | OVMUpdate _ _ => true
  | _ => false
  end.

(** Section 4.6, step 5, as the specification words it: with more than
    one claimed child the scaling step is skipped and the status update
    still runs, with no error to report. *)
Definition skipsScalingButUpdatesStatus (c : Cluster) (key : string) : Prop :=
  ∀ OVM template selector listed claimed,
    GetByKey c key = Ok (Some OVM) →
    validParent c OVM template selector →
    ByIndex c (Namespace (OVM_ObjectMeta OVM)) = Ok listed →
    Claim c OVM selector (filterActiveVMs c listed) = Ok claimed →
    (1 < length claimed)%nat →
    ∃ vm,
      effects (execute c key) =
      ClaimVirtualMachines OVM (filterActiveVMs c listed) ::
      effects (updateStatus c (DeepCopy OVM) vm None).

End WatchSpec.

(** ** Concrete inputs *)
Module Scenarios.
Import Services Watch.

(** *** Sidecar resolution (section 8, scenario 7) *)

Definition catalogAB : gmap string InterfaceBindingPlugin :=
  <["passt" := {| SidecarImage := "img-a"; NetworkAttachmentDefinition := "" |}]>
  (<["macvtap" := zeroPlugin]> ∅).

Definition configAB : KubeVirtConfiguration :=
  {| NetworkConfig := Some {| Catalog := Some catalogAB |} |}.

(** The catalog holds [passt] alone. *)
Definition configA : KubeVirtConfiguration :=
  {| NetworkConfig := Some {| Catalog :=
       Some (<["passt" := {| SidecarImage := "img-a";
                             NetworkAttachmentDefinition := "" |}]> ∅) |} |}.

(** No network configuration at all. *)
Definition configNone : KubeVirtConfiguration := {| NetworkConfig := None |}.

(** Two plugins that ship the same image. *)
Definition configShared : KubeVirtConfiguration :=
  {| NetworkConfig := Some {| Catalog :=
       Some (<["passt" := {| SidecarImage := "img"; NetworkAttachmentDefinition := "" |}]>
             (<["macvtap" := {| SidecarImage := "img";
                                NetworkAttachmentDefinition := "" |}]> ∅)) |} |}.

Definition bound (iface binding : string) : Interface :=
  {| IfaceName := iface; Binding := Some {| Services.Name := binding |} |}.

Definition unbound (iface : string) : Interface :=
  {| IfaceName := iface; Binding := None |}.

Definition vmiAB : VirtualMachineInstance :=
  {| Interfaces := [bound "eth0" "passt"; bound "eth1" "macvtap"] |}.

(** The same binding declared on two interfaces. *)
Definition vmiAA : VirtualMachineInstance :=
  {| Interfaces := [bound "eth0" "passt"; bound "eth1" "passt"] |}.

Definition vmiPlain : VirtualMachineInstance :=
  {| Interfaces := [unbound "eth0"; unbound "eth1"] |}.

(** *** The controller *)

(** A selector library for the scenarios: [matchLabels] and the four
    operators of [matchExpressions]; any other operator is refused. *)
Definition requirementMatches (req : LabelSelectorRequirement)
    (set : gmap string string) : option bool :=
  if bool_decide (ReqOperator req = "In") then
    Some (match set !! ReqKey req with
          | Some v => bool_decide (v ∈ ReqValues req)
          | None => false
          end)
  else if bool_decide (ReqOperator req = "NotIn") then
    Some (match set !! ReqKey req with
          | Some v => negb (bool_decide (v ∈ ReqValues req))
          | None => true
          end)
  else if bool_decide (ReqOperator req = "Exists") then
    Some (bool_decide (is_Some (set !! ReqKey req)))
  else if bool_decide (ReqOperator req = "DoesNotExist") then
    Some (negb (bool_decide (is_Some (set !! ReqKey req))))
  else None.

Definition sampleSelector (ps : LabelSelector) : Result labels_Selector :=
  if forallb (λ req, bool_decide (is_Some (requirementMatches req ∅)))
             (MatchExpressions ps)
  then Ok (λ set,
    forallb (λ kv : string * string, bool_decide (set !! kv.1 = Some kv.2))
            (map_to_list (MatchLabels ps))
    && forallb (λ req, default false (requirementMatches req set))
               (MatchExpressions ps))
  else Err "not a valid pod selector operator".

Definition appP : gmap string string := <["app" := "p"]> ∅.

Definition metaOf (namespace name uid : string) (labels : gmap string string)
  : ObjectMeta :=
  {| Name := name; GenerateName := ""; Namespace := namespace; UID := uid;
     ResourceVersion := "1"; Labels := labels; OwnerReferences := [];
     DeletionTimestamp := None; Finalizers := [] |}.

Definition templateP : VMTemplateSpec :=
  {| Tpl_ObjectMeta := setLabels zeroObjectMeta appP;
     Tpl_Spec := {| Domain := "domain" |} |}.

Definition selectorP : LabelSelector :=
  {| MatchLabels := appP; MatchExpressions := [] |}.

(** The parent of scenarios 1 and 2. *)
Definition parentP (running : bool)
    (conds : list OfflineVirtualMachineCondition) : OfflineVirtualMachine :=
  {| OVM_ObjectMeta := metaOf "default" "p" "u1" ∅;
     OVM_Spec := {| Running := running; Template := Some templateP;
                    Selector := Some selectorP |};
     OVM_Status := {| Conditions := conds |} |}.

Definition gvkOVM : GroupVersionKind :=
  {| Group := "kubevirt.io"; Version := "v1alpha1";
     Kind := "OfflineVirtualMachine" |}.

Definition ownedBy (ovm : OfflineVirtualMachine) (name uid : string)
  : VirtualMachine :=
  {| VM_ObjectMeta :=
       {| Name := name; GenerateName := ""; Namespace := "default"; UID := uid;
          ResourceVersion := "1"; Labels := appP;
          OwnerReferences :=
            [ {| RefAPIVersion := "kubevirt.io/v1alpha1";
                 RefKind := "OfflineVirtualMachine";
                 RefName := Name (OVM_ObjectMeta ovm);
                 RefUID := UID (OVM_ObjectMeta ovm);
                 RefController := Some true;
                 RefBlockOwnerDeletion := Some true |} ];
          DeletionTimestamp := None; Finalizers := [] |};
     VM_Spec := {| Domain := "domain" |};
     VM_Status := {| Phase := "Running" |} |}.

(** A cluster: what the store holds under each key, the children the
    namespace index lists, and the replies of the API server to create and
    delete.  The adoption manager claims every listed child. *)
Definition cluster
    (store : string → Result (option OfflineVirtualMachine))
    (listed : list VirtualMachine)
    (createErr deleteErr : option error) : Cluster :=
  {| Queue_Get := ("default/p", false);
     GetByKey := store;
     ByIndex := λ _, Ok listed;
     SatisfiedExpectations := λ _, true;
     Create := λ _ vm, match createErr with Some err => Err err | None => Ok vm end;
     Delete := λ _ _, deleteErr;
     Update := λ _ ovm, Ok ovm;
     Claim := λ _ _ vms, Ok vms;
     Release := λ _ _, None;
     KeyFunc := λ ovm,
       Ok (Namespace (OVM_ObjectMeta ovm) +:+ "/" +:+ Name (OVM_ObjectMeta ovm));
     IsFinal := λ vm,
       bool_decide (Phase (VM_Status vm) = "Succeeded")
       || bool_decide (Phase (VM_Status vm) = "Failed");
     LabelSelectorAsSelector := sampleSelector;
     OfflineVirtualMachineGroupVersionKind := gvkOVM;
     Now := 1000%nat |}.

Definition holding (ovm : OfflineVirtualMachine)
  : string → Result (option OfflineVirtualMachine) :=
  λ key, if bool_decide (key = "default/p") then Ok (Some ovm) else Ok None.

(** A store whose lookup fails. *)
Definition failingStore : string → Result (option OfflineVirtualMachine) :=
  λ _, Err "store unavailable".

Definition runningCondition : OfflineVirtualMachineCondition :=
  {| CondType := OfflineVirtualMachineRunning; CondStatus := ConditionTrue;
     LastProbeTime := 0%nat; LastTransitionTime := 1000%nat;
     Reason := "Created by OVM p"; Message := "Created by OVM p" |}.

Definition failureCondition (reason message : string)
  : OfflineVirtualMachineCondition :=
  {| CondType := OfflineVirtualMachineFailure; CondStatus := ConditionTrue;
     LastProbeTime := 0%nat; LastTransitionTime := 1000%nat;
     Reason := reason; Message := message |}.

(** The selector that [selectorP] parses to. *)
Definition selectorOfP : labels_Selector :=
  match sampleSelector selectorP with
  | Ok selector => selector
  | Err _ => λ _, false
  end.

(** Parents that validation rejects. *)
Definition parentNoTemplate : OfflineVirtualMachine :=
  {| OVM_ObjectMeta := metaOf "default" "p" "u1" ∅;
     OVM_Spec := {| Running := true; Template := None;
                    Selector := Some selectorP |};
     OVM_Status := {| Conditions := [] |} |}.

Definition parentNoSelector : OfflineVirtualMachine :=
  {| OVM_ObjectMeta := metaOf "default" "p" "u1" ∅;
     OVM_Spec := {| Running := true; Template := Some templateP;
                    Selector := None |};
     OVM_Status := {| Conditions := [] |} |}.

Definition parentBadOperator : OfflineVirtualMachine :=
  {| OVM_ObjectMeta := metaOf "default" "p" "u1" ∅;
     OVM_Spec := {| Running := true; Template := Some templateP;
                    Selector := Some {| MatchLabels := appP;
                      MatchExpressions :=
                        [ {| ReqKey := "app"; ReqOperator := "Near";
                             ReqValues := [] |} ] |} |};
     OVM_Status := {| Conditions := [] |} |}.

Definition parentNoLabels : OfflineVirtualMachine :=
  {| OVM_ObjectMeta := metaOf "default" "p" "u1" ∅;
     OVM_Spec := {| Running := true;
                    Template := Some {| Tpl_ObjectMeta := zeroObjectMeta;
                                        Tpl_Spec := {| Domain := "domain" |} |};
                    Selector := Some selectorP |};
     OVM_Status := {| Conditions := [] |} |}.

Definition parentMismatch : OfflineVirtualMachine :=
  {| OVM_ObjectMeta := metaOf "default" "p" "u1" ∅;
     OVM_Spec := {| Running := true; Template := Some templateP;
                    Selector := Some {| MatchLabels := <["app" := "q"]> ∅;
                                        MatchExpressions := [] |} |};
     OVM_Status := {| Conditions := [] |} |}.

(** The clusters of the scenarios. *)
Definition child1 : VirtualMachine := ownedBy (parentP true []) "c1" "uc1".
Definition child2 : VirtualMachine := ownedBy (parentP true []) "c2" "uc2".

Definition clusterStart : Cluster :=
  cluster (holding (parentP true [])) [] None None.

Definition clusterStop : Cluster :=
  cluster (holding (parentP false [runningCondition])) [child1] None None.

Definition clusterCreateFails : Cluster :=
  cluster (holding (parentP true [])) [] (Some "quota exceeded") None.

Definition clusterDeleteFails : Cluster :=
  cluster (holding (parentP false [runningCondition])) [child1] None
          (Some "timeout").

Definition clusterTwoChildren : Cluster :=
  cluster (holding (parentP true [])) [child1; child2] None None.

Definition clusterStoreDown : Cluster :=
  cluster failingStore [] None None.

End Scenarios.

(** ** The controller's event handlers *)
Module WatchHandlers.
Import Watch.

(** What the informers deliver to [deleteVirtualMachine]: a VM, a
    [cache.DeletedFinalStateUnknown] tombstone around some object, or an
    object of another type. *)
Inductive Object :=
| VMObject (vm : VirtualMachine)
| DeletedFinalStateUnknown (key : string) (obj : Object)
| OtherObject.

(** What a handler does, in program order: [c.Queue.Add],
    [c.expectations.CreationObserved], [c.expectations.DeletionObserved]. *)
Inductive Notice :=
| QueueAdd (key : string)
| ObservedCreation (ovmKey : string)
| ObservedDeletion (ovmKey vmKey : string).

(** What the handlers read beyond the [Cluster]: helpers of the
    [controller] package, of [reflect] and of the apimachinery library,
    and the parent informer's namespace index. *)
Record HandlerDeps := {
  (** [controller.GetControllerOf] *)
  GetControllerOf : VirtualMachine → option OwnerReference;
  (** [c.vmOVMInformer.GetIndexer().ByIndex(cache.NamespaceIndex, namespace)] *)
  OVM_ByIndex : string → Result (list OfflineVirtualMachine);
  (** [reflect.DeepEqual] on two label maps; it tells a nil map from an
      empty one *)
  LabelsDeepEqual : gmap string string → gmap string string → bool;
  (** [metav1.LabelSelectorAsSelector(nil)] *)
  SelectorOfNil : Result labels_Selector
}.

#[global] Instance OwnerReference_eq_dec : EqDecision OwnerReference.
Proof. solve_decision. Defined.

(** [filterReadyVMs], over [vm.IsReady()]. *)
Definition filterReadyVMs (IsReady : VirtualMachine → bool)
    (vms : list VirtualMachine) : list VirtualMachine :=
  List.filter (λ vm, IsReady vm) vms.

Section Handlers.

Variable c : Cluster.
Variable d : HandlerDeps.

(** [resolveControllerRef] *)
Definition resolveControllerRef (namespace : string)
    (controllerRef : OwnerReference) : option OfflineVirtualMachine :=
  if bool_decide (RefKind controllerRef ≠
                  Kind (OfflineVirtualMachineGroupVersionKind c))
  then None
  else
    match GetByKey c (namespace +:+ "/" +:+ RefName controllerRef) with
    | Err err => None
    | Ok None => None
    | Ok (Some ovm) =>
      if bool_decide (UID (OVM_ObjectMeta ovm) ≠ RefUID controllerRef)
      then None
      else Some ovm
    end.

(** [listControllerFromNamespace] *)
Definition listControllerFromNamespace (namespace : string)
  : Result (list OfflineVirtualMachine) :=
  match OVM_ByIndex d namespace with
  | Err err => Err err
  | Ok objs => Ok (foldl (λ ovms obj, ovms ++ [obj]) [] objs)
  end.

(** [v1.LabelSelectorAsSelector(ovm.Spec.Selector)] on the nilable
    pointer. *)
Definition selectorOf (ovm : OfflineVirtualMachine) : Result labels_Selector :=
  match Selector (OVM_Spec ovm) with
  | None => SelectorOfNil d
  | Some specSelector => LabelSelectorAsSelector c specSelector
  end.

(** The body of the loop of [getMatchingControllers]. *)
Definition appendMatching (vm : VirtualMachine)
    (ovms : list OfflineVirtualMachine) (ovm : OfflineVirtualMachine)
  : list OfflineVirtualMachine :=
  match selectorOf ovm with
  | Err err => ovms
  | Ok selector =>
    if Matches selector (Labels (VM_ObjectMeta vm)) then ovms ++ [ovm]
    else ovms
  end.

(** [getMatchingControllers] *)
Definition getMatchingControllers (vm : VirtualMachine)
  : list OfflineVirtualMachine :=
  match listControllerFromNamespace (Namespace (VM_ObjectMeta vm)) with
  | Err err => []
  | Ok controllers => foldl (appendMatching vm) [] controllers
  end.

(** [enqueueOvm].  A failing key function is logged and the key it
    returned, the empty one, is added all the same. *)
Definition enqueueOvm (ovm : OfflineVirtualMachine) : list Notice :=
  match KeyFunc c ovm with
  | Ok key => [QueueAdd key]
  | Err err => [QueueAdd ""]
  end.

(** [addOvm], [deleteOvm], [updateOvm] *)
Definition addOvm (obj : OfflineVirtualMachine) : list Notice := enqueueOvm obj.

Definition deleteOvm (obj : OfflineVirtualMachine) : list Notice := enqueueOvm obj.

Definition updateOvm (old curr : OfflineVirtualMachine) : list Notice :=
  enqueueOvm curr.

(** [deleteVirtualMachine] once [vm] is at hand. *)
Definition deleteResolved (vm : VirtualMachine) : list Notice :=
  match GetControllerOf d vm with
  | None => []
  | Some controllerRef =>
    match resolveControllerRef (Namespace (VM_ObjectMeta vm)) controllerRef with
    | None => []
    | Some ovm =>
      match KeyFunc c ovm with
      | Err err => []
      | Ok ovmKey =>
        ObservedDeletion ovmKey (VirtualMachineKey vm) :: enqueueOvm ovm
      end
    end
  end.

(** [deleteVirtualMachine]: a tombstone is opened once. *)
Definition deleteVirtualMachine (obj : Object) : list Notice :=
  match obj with
  | VMObject vm => deleteResolved vm
  | DeletedFinalStateUnknown _ (VMObject vm) => deleteResolved vm
  | DeletedFinalStateUnknown _ _ => []
  | OtherObject => []
  end.

(** Enqueueing every element of a slice. *)
Definition enqueueAll (ovms : list OfflineVirtualMachine) : list Notice :=
  foldl (λ log ovm, log ++ enqueueOvm ovm) [] ovms.

(** [addVirtualMachine] *)
Definition addVirtualMachine (vm : VirtualMachine) : list Notice :=
  if negb (isNil (DeletionTimestamp (VM_ObjectMeta vm)))
  then deleteVirtualMachine (VMObject vm)
  else
    match GetControllerOf d vm with
    | Some controllerRef =>
      match resolveControllerRef (Namespace (VM_ObjectMeta vm)) controllerRef with
      | None => []
      | Some ovm =>
        match KeyFunc c ovm with
        | Err err => []
        | Ok ovmKey => ObservedCreation ovmKey :: enqueueOvm ovm
        end
      end
    | None =>
      let ovms := getMatchingControllers vm in
      if (length ovms =? 0)%nat then [] else enqueueAll ovms
    end.

(** [updateVirtualMachine] *)
Definition updateVirtualMachine (oldVM curVM : VirtualMachine) : list Notice :=
  if bool_decide (ResourceVersion (VM_ObjectMeta curVM) =
                  ResourceVersion (VM_ObjectMeta oldVM))
  then []
  else
    let labelChanged :=
      negb (LabelsDeepEqual d (Labels (VM_ObjectMeta curVM))
                              (Labels (VM_ObjectMeta oldVM))) in
    if negb (isNil (DeletionTimestamp (VM_ObjectMeta curVM)))
    then
      deleteVirtualMachine (VMObject curVM) ++
      (if labelChanged then deleteVirtualMachine (VMObject oldVM) else [])
    else
      let curControllerRef := GetControllerOf d curVM in
      let oldControllerRef := GetControllerOf d oldVM in
      let controllerRefChanged :=
        negb (bool_decide (curControllerRef = oldControllerRef)) in
      (match oldControllerRef with
       | Some oldRef =>
         if controllerRefChanged then
           match resolveControllerRef (Namespace (VM_ObjectMeta oldVM)) oldRef with
           | Some rs => enqueueOvm rs
           | None => []
           end
         else []
       | None => []
       end) ++
      match curControllerRef with
      | Some curRef =>
        match resolveControllerRef (Namespace (VM_ObjectMeta curVM)) curRef with
        | None => []
        | Some rs => enqueueOvm rs
        end
      | None =>
        if labelChanged || controllerRefChanged then
          let rss := getMatchingControllers curVM in
          if (length rss =? 0)%nat then [] else enqueueAll rss
        else []
      end.

End Handlers.

End WatchHandlers.

(** ** More of the specification's vocabulary *)
Module MoreSpec.
Import Watch WatchSpec WatchHandlers.


(** Every observation in a handler's log is followed at once by the
    enqueue of the same parent key. *)
Fixpoint observationsEnqueued (log : list Notice) : bool :=
  match log with
  | [] => true
  | ObservedCreation ovmKey :: rest
  | ObservedDeletion ovmKey _ :: rest =>
    match rest with
    | QueueAdd key :: _ => bool_decide (key = ovmKey) && observationsEnqueued rest
    | _ => false
    end
  | QueueAdd _ :: rest => observationsEnqueued rest
  end.

Definition isObservation (n : Notice) : bool :=
  match n with
  | QueueAdd _ => false
  | _ => true
  end.



(** The parent's selector parses and matches the VM's labels. *)
Definition selects (c : Cluster) (d : HandlerDeps)
    (vm : VirtualMachine) (ovm : OfflineVirtualMachine) : bool :=
  match selectorOf c d ovm with
  | Ok selector => Matches selector (Labels (VM_ObjectMeta vm))
  | Err _ => false
  end.

(** The controller reference that [controller.GetControllerOf] finds: the
    first owner reference marked as controller. *)
Fixpoint firstController (refs : list OwnerReference) : option OwnerReference :=
  match refs with
  | [] => None
  | ref :: rest =>
    match RefController ref with
    | Some true => Some ref
    | _ => firstController rest
    end
  end.

(** The conditions the status synthesizer does not manage. *)
Definition foreignConditions (ovm : OfflineVirtualMachine)
  : list OfflineVirtualMachineCondition :=
  filter (λ cnd, CondType cnd ≠ OfflineVirtualMachineRunning ∧
                 CondType cnd ≠ OfflineVirtualMachineFailure)
         (Conditions (OVM_Status ovm)).

(** Both comparisons of [updateStatus] match. *)
Definition inSync (ovm : OfflineVirtualMachine) (createErr : option error) : bool :=
  Bool.eqb (negb (isNil createErr)) (hasCondition ovm OfflineVirtualMachineFailure)
  && Bool.eqb (Running (OVM_Spec ovm)) (hasCondition ovm OfflineVirtualMachineRunning).

(** The parent as one pass of [updateStatus] leaves it: as it was when
    both comparisons match, mutated and sent to the API server otherwise. *)
Definition statusPass (c : Cluster) (ovm : OfflineVirtualMachine)
    (vm : option VirtualMachine) (createErr : option error)
  : OfflineVirtualMachine :=
  if inSync ovm createErr then ovm else synthesize c ovm vm createErr.

(** The API calls of the scaling step. *)
Definition isApiCall (e : Effect) : bool :=
  match e with
  | VMCreate _ _ | VMDelete _ _ => true
  | _ => false
  end.

(** What a reconcile of a parent in the store can do: adopt, scale, record
    events, release, write the status. *)
Definition isReconcileEffect (e : Effect) : bool :=
  match e with
  | DeleteExpectations _ => false
  | QueueAddRateLimited _ | QueueForget _ | QueueDone _ => false
  | _ => true
  end.

(** [execute] past the adoption call, with the claimed children at hand. *)
Definition afterClaim (c : Cluster) (key : string) (OVM : OfflineVirtualMachine)
    (claimed : list VirtualMachine) : Go (option error) :=
  if (1 <? length claimed)%nat then ret None
  else
    let vm := if (length claimed =? 1)%nat then head claimed else None in
    bind (if SatisfiedExpectations c key
             && isNil (DeletionTimestamp (OVM_ObjectMeta OVM))
          then startStop c OVM vm
          else ret None)
      (λ createErr,
         if negb (isNil (DeletionTimestamp (OVM_ObjectMeta OVM)))
            && HasFinalizer OVM FinalizerOrphanDependents
         then orphan c OVM claimed
         else updateStatus c (DeepCopy OVM) vm createErr).

(** The ways a reconcile can go. *)
Inductive ExecutePath (c : Cluster) (key : string) : Go (option error) → Prop :=
| LookupFailed err :
    GetByKey c key = Err err →
    ExecutePath c key (Returns None, [])
| ParentMissing :
    GetByKey c key = Ok None →
    ExecutePath c key (Returns None, [DeleteExpectations key])
| ParentInvalid OVM :
    GetByKey c key = Ok (Some OVM) →
    invalidParent c OVM →
    ExecutePath c key (Returns None, [])
| ListFailed OVM template selector err :
    GetByKey c key = Ok (Some OVM) →
    validParent c OVM template selector →
    ByIndex c (Namespace (OVM_ObjectMeta OVM)) = Err err →
    ExecutePath c key (Returns (Some err), [])
| ClaimFailed OVM template selector listed err :
    GetByKey c key = Ok (Some OVM) →
    validParent c OVM template selector →
    ByIndex c (Namespace (OVM_ObjectMeta OVM)) = Ok listed →
    Claim c OVM selector (filterActiveVMs c listed) = Err err →
    ExecutePath c key
      (Returns (Some err), [ClaimVirtualMachines OVM (filterActiveVMs c listed)])
| Claimed OVM template selector listed claimed :
    GetByKey c key = Ok (Some OVM) →
    validParent c OVM template selector →
    ByIndex c (Namespace (OVM_ObjectMeta OVM)) = Ok listed →
    Claim c OVM selector (filterActiveVMs c listed) = Ok claimed →
    ExecutePath c key
      (bind (emit (ClaimVirtualMachines OVM (filterActiveVMs c listed)))
            (λ _, afterClaim c key OVM claimed)).

Definition isRelease (e : Effect) : bool :=
  match e with
  | ReleaseVirtualMachine _ _ => true
  | _ => false
  end.

End MoreSpec.

(** ** More concrete inputs *)
Module MoreScenarios.
Import Services Watch WatchHandlers MoreSpec Scenarios.

Definition deps (ovms : list OfflineVirtualMachine) : HandlerDeps :=
  {| GetControllerOf := λ vm, firstController (OwnerReferences (VM_ObjectMeta vm));
     OVM_ByIndex := λ _, Ok ovms;
     LabelsDeepEqual := λ l1 l2, bool_decide (l1 = l2);
     SelectorOfNil := Ok (λ _, false) |}.

(** An orphan with the labels of [parentP]. *)
Definition orphanVM : VirtualMachine :=
  {| VM_ObjectMeta := metaOf "default" "c3" "uc3" appP;
     VM_Spec := {| Domain := "domain" |};
     VM_Status := {| Phase := "Running" |} |}.

(** [child1] with a deletion timestamp. *)
Definition dyingChild : VirtualMachine :=
  {| VM_ObjectMeta :=
       {| Name := "c1"; GenerateName := ""; Namespace := "default"; UID := "uc1";
          ResourceVersion := "2"; Labels := appP;
          OwnerReferences := OwnerReferences (VM_ObjectMeta child1);
          DeletionTimestamp := Some 2000%nat; Finalizers := [] |};
     VM_Spec := {| Domain := "domain" |};
     VM_Status := {| Phase := "Running" |} |}.

(** A parent that is being deleted and carries the orphan finalizer. *)
Definition parentOrphaning : OfflineVirtualMachine :=
  {| OVM_ObjectMeta :=
       {| Name := "p"; GenerateName := ""; Namespace := "default"; UID := "u1";
          ResourceVersion := "1"; Labels := ∅; OwnerReferences := [];
          DeletionTimestamp := Some 2000%nat;
          Finalizers := [FinalizerOrphanDependents] |};
     OVM_Spec := {| Running := true; Template := Some templateP;
                    Selector := Some selectorP |};
     OVM_Status := {| Conditions := [runningCondition] |} |}.

Definition clusterOrphaning : Cluster :=
  cluster (holding parentOrphaning) [child1] None None.

(** Expectations are outstanding. *)
Definition clusterWaiting : Cluster :=
  {| Queue_Get := ("default/p", false);
     GetByKey := holding (parentP true []);
     ByIndex := λ _, Ok [];
     SatisfiedExpectations := λ _, false;
     Create := Create clusterStart;
     Delete := Delete clusterStart;
     Update := Update clusterStart;
     Claim := Claim clusterStart;
     Release := Release clusterStart;
     KeyFunc := KeyFunc clusterStart;
     IsFinal := IsFinal clusterStart;
     LabelSelectorAsSelector := sampleSelector;
     OfflineVirtualMachineGroupVersionKind := gvkOVM;
     Now := 1000%nat |}.

(** The store is empty. *)
Definition clusterEmpty : Cluster :=
  cluster (λ _, Ok None) [] None None.

(** A condition of a type the controller does not manage. *)
Definition pausedCondition : OfflineVirtualMachineCondition :=
  {| CondType := "Paused"; CondStatus := ConditionTrue;
     LastProbeTime := 0%nat; LastTransitionTime := 500%nat;
     Reason := "user"; Message := "paused by user" |}.

(** Releasing [c2] fails. *)
Definition clusterReleaseFails : Cluster :=
  {| Queue_Get := ("default/p", false);
     GetByKey := holding parentOrphaning;
     ByIndex := λ _, Ok [child1; child2];
     SatisfiedExpectations := λ _, true;
     Create := Create clusterStart;
     Delete := Delete clusterStart;
     Update := Update clusterStart;
     Claim := Claim clusterStart;
     Release := λ _ vm,
       if bool_decide (Name (VM_ObjectMeta vm) = "c2") then Some "conflict"
       else None;
     KeyFunc := KeyFunc clusterStart;
     IsFinal := IsFinal clusterStart;
     LabelSelectorAsSelector := sampleSelector;
     OfflineVirtualMachineGroupVersionKind := gvkOVM;
     Now := 1000%nat |}.

(** A running parent that carries both managed conditions. *)
Definition parentRecovering : OfflineVirtualMachine :=
  parentP true [runningCondition; failureCondition "FailedCreate" "quota exceeded"].

(** The child of [parentP] as the informer delivers it after the create. *)
Definition deliveredChild : VirtualMachine :=
  {| VM_ObjectMeta :=
       {| Name := "p"; GenerateName := "p"; Namespace := "default"; UID := "uc9";
          ResourceVersion := "7"; Labels := appP;
          OwnerReferences := [OvmOwnerRef clusterStart (parentP true [])];
          DeletionTimestamp := None; Finalizers := [] |};
     VM_Spec := {| Domain := "domain" |};
     VM_Status := {| Phase := "Pending" |} |}.

Definition vmiBA : VirtualMachineInstance :=
  {| Interfaces := [bound "eth1" "macvtap"; bound "eth0" "passt"] |}.

Definition vmiMixed : VirtualMachineInstance :=
  {| Interfaces := [unbound "eth0"; bound "eth1" "passt"; unbound "eth2";
                    bound "eth3" "macvtap"] |}.

End MoreScenarios.

(** ** Properties of the sidecar resolver *)
Module ServicesFacts.
Import Services ServicesSpec.

Lemma prefix_refl (s : string) : String.prefix s s = true.
Proof.
  induction s as [|c s IH]; simpl; [done|].
  destruct (Ascii.ascii_dec c c); [done | congruence].
Qed.

Lemma index_self (s : string) : is_Some (String.index 0 s s).
Proof.
  destruct s as [|c s]; [by eexists|].
  cbn [String.index]. rewrite prefix_refl. by eexists.
Qed.

Lemma index_append (pre s : string) : is_Some (String.index 0 s (pre +:+ s)).
Proof.
  induction pre as [|c pre [n Hn]]; [apply index_self|].
  change (String c pre +:+ s) with (String c (pre +:+ s)).
  cbn [String.index]. rewrite Hn.
  destruct (String.prefix s (String c (pre +:+ s))); by eexists.
Qed.

Lemma mentions_notFound (name : string) : mentions name (notFound name) = true.
Proof.
  unfold mentions, notFound.
  by destruct (index_append "couldn't find configuration for network bindining: " name)
    as [n ->].
Qed.

Lemma declaredNames_cons_None iface rest :
  Binding iface = None → declaredNames (iface :: rest) = declaredNames rest.
Proof. unfold declaredNames. simpl. by intros ->. Qed.

Lemma declaredNames_cons_Some iface b rest :
  Binding iface = Some b →
  declaredNames (iface :: rest) = Name b :: declaredNames rest.
Proof. unfold declaredNames. simpl. by intros ->. Qed.

Lemma elem_of_declaredNames ifaces name :
  name ∈ declaredNames ifaces ↔
  ∃ iface b, iface ∈ ifaces ∧ Binding iface = Some b ∧ Name b = name.
Proof.
  unfold declaredNames. rewrite list_elem_of_omap. split.
  - intros (iface & Hin & Hb). destruct (Binding iface) as [b|] eqn:E; [|done].
    simpl in Hb. injection Hb as <-. eauto.
  - intros (iface & b & Hin & Hb & <-). exists iface. by rewrite Hb.
Qed.

Lemma collectBindings_spec config ifaces m :
  collectBindings config ifaces m =
  match firstUnknown config ifaces with
  | Some name => Err (notFound name)
  | None => Ok (insertAll config (declaredNames ifaces) m)
  end.
Proof.
  revert m. induction ifaces as [|iface rest IH]; intros m; [done|].
  cbn [collectBindings]. destruct (Binding iface) as [b|] eqn:Hb.
  - unfold firstUnknown. rewrite (declaredNames_cons_Some _ b) by done.
    cbn [list_find]. destruct (decide (¬ resolves config (Name b))) as [Hn|Hy].
    + unfold resolves, catalogLookup in Hn. simpl.
      destruct (bindingCatalog config) as [catalog|]; simpl in *; [|done].
      by rewrite bool_decide_eq_false_2.
    + apply dec_stable in Hy. unfold resolves, catalogLookup in Hy.
      assert (Hp : pluginOf config (Name b) =
                   default zeroPlugin (bindingCatalog config ≫= (.!! Name b))) by done.
      destruct (bindingCatalog config) as [catalog|]; simpl in *;
        [|by destruct Hy].
      rewrite bool_decide_eq_true_2 by done. simpl.
      rewrite IH. unfold firstUnknown.
      destruct (list_find _ (declaredNames rest)) as [[i x]|]; simpl; [done|].
      unfold insertAll. simpl. by rewrite Hp.
  - unfold firstUnknown. rewrite declaredNames_cons_None by done. apply IH.
Qed.

Lemma lookup_insertAll config names m k :
  insertAll config names m !! k =
  if decide (k ∈ names) then Some (pluginOf config k) else m !! k.
Proof.
  revert m. induction names as [|n names IH]; intros m.
  - by rewrite decide_False by apply not_elem_of_nil.
  - unfold insertAll in *. cbn [foldl]. rewrite IH.
    destruct (decide (k ∈ names)) as [Hin|Hnin].
    + by rewrite decide_True by (by right).
    + destruct (decide (k = n)) as [->|Hne].
      * rewrite decide_True by left. by rewrite lookup_insert_eq.
      * rewrite decide_False by (rewrite elem_of_cons; tauto).
        by rewrite lookup_insert_ne.
Qed.

Lemma insertAll_to_list config names :
  map_to_list (insertAll config names ∅) ≡ₚ
  (λ name, (name, pluginOf config name)) <$> remove_dups names.
Proof.
  set (l := (λ name, (name, pluginOf config name)) <$> remove_dups names).
  assert (Hfst : l.*1 = remove_dups names).
  { unfold l. rewrite <-list_fmap_compose. apply list_fmap_id. }
  assert (Hnd : NoDup (l.*1)) by (rewrite Hfst; apply NoDup_remove_dups).
  rewrite <-(map_to_list_to_map l) by done. f_equiv.
  apply map_eq. intros k. rewrite lookup_insertAll, lookup_empty.
  destruct (decide (k ∈ names)) as [Hin|Hnin].
  - symmetry. apply elem_of_list_to_map; [done|].
    unfold l. apply list_elem_of_fmap. exists k. split; [done|].
    by apply elem_of_remove_dups.
  - symmetry. apply not_elem_of_list_to_map. rewrite Hfst.
    by rewrite elem_of_remove_dups.
Qed.

Lemma foldl_appendSidecar acc entries :
  foldl appendSidecar acc entries =
  acc ++ ((λ e : string * InterfaceBindingPlugin, {| Image := SidecarImage e.2 |}) <$>
          filter (λ e, SidecarImage e.2 ≠ "") entries).
Proof.
  revert acc. induction entries as [|e entries IH]; intros acc; simpl.
  - by rewrite app_nil_r.
  - rewrite IH, filter_cons. unfold appendSidecar.
    destruct (decide (SidecarImage e.2 ≠ "")) as [Hne|He].
    + rewrite bool_decide_eq_true_2 by done. by rewrite <-app_assoc.
    + by rewrite bool_decide_eq_false_2 by done.
Qed.

Lemma firstUnknown_None config ifaces :
  firstUnknown config ifaces = None ↔
  Forall (resolves config) (declaredNames ifaces).
Proof.
  unfold firstUnknown. rewrite fmap_None, list_find_None.
  apply Forall_iff. intros name. split; [apply dec_stable | by intros ? ?].
Qed.

Lemma firstUnknown_Some config ifaces name :
  firstUnknown config ifaces = Some name →
  name ∈ declaredNames ifaces ∧ ¬ resolves config name.
Proof.
  unfold firstUnknown. intros H. apply fmap_Some in H as ([i x] & Hfind & ->).
  apply list_find_Some in Hfind as (Hl & Hx & _). split; [|done].
  by eapply list_elem_of_lookup_2.
Qed.

Lemma sidecars_of_entries config (names : list string) :
  (λ e : string * InterfaceBindingPlugin, {| Image := SidecarImage e.2 |}) <$>
    filter (λ e : string * InterfaceBindingPlugin, SidecarImage e.2 ≠ "")
           ((λ name, (name, pluginOf config name)) <$> names) =
  (λ name, {| Image := SidecarImage (pluginOf config name) |}) <$>
    filter (λ name, SidecarImage (pluginOf config name) ≠ "") names.
Proof.
  induction names as [|n names IH]; [done|].
  rewrite fmap_cons, !filter_cons. simpl.
  destruct (decide (SidecarImage (pluginOf config n) ≠ "")); simpl;
    [f_equal|]; exact IH.
Qed.

Lemma resolver_of_resolved rangeMap vmi config :
  Forall (resolves config) (declaredNames (Interfaces vmi)) →
  NetBindingPluginSidecarList rangeMap vmi config =
  Ok ((λ e : string * InterfaceBindingPlugin, {| Image := SidecarImage e.2 |}) <$>
      filter (λ e : string * InterfaceBindingPlugin, SidecarImage e.2 ≠ "")
        (rangeMap (insertAll config (declaredNames (Interfaces vmi)) ∅))).
Proof.
  intros Hall. apply firstUnknown_None in Hall.
  unfold NetBindingPluginSidecarList.
  by rewrite collectBindings_spec, Hall, foldl_appendSidecar.
Qed.

Lemma resolver_of_unknown rangeMap vmi config name :
  firstUnknown config (Interfaces vmi) = Some name →
  NetBindingPluginSidecarList rangeMap vmi config = Err (notFound name).
Proof.
  intros Hfirst. unfold NetBindingPluginSidecarList.
  by rewrite collectBindings_spec, Hfirst.
Qed.

(** C8 (as amended).  A VMI that declares a binding name with no catalog
    entry, the catalog being possibly absent altogether, gets an error and
    no sidecar list; the message names the first declared binding, in
    interface order, that the catalog lacks. *)
Theorem unknown_binding_is_an_error rangeMap vmi config iface b :
  iface ∈ Interfaces vmi →
  Binding iface = Some b →
  ¬ resolves config (Name b) →
  ∃ name,
    firstUnknown config (Interfaces vmi) = Some name ∧
    name ∈ declaredNames (Interfaces vmi) ∧
    ¬ resolves config name ∧
    NetBindingPluginSidecarList rangeMap vmi config = Err (notFound name) ∧
    mentions name (notFound name) = true.
Proof.
  intros Hin Hb Hun.
  destruct (firstUnknown config (Interfaces vmi)) as [name|] eqn:Hfirst.
  - exists name. destruct (firstUnknown_Some _ _ _ Hfirst) as [Hdecl Hno].
    repeat split; [done..| |].
    + by apply resolver_of_unknown.
    + apply mentions_notFound.
  - apply firstUnknown_None in Hfirst. rewrite Forall_forall in Hfirst.
    destruct Hun. apply Hfirst, elem_of_declaredNames. eauto.
Qed.

(** When a single binding name is unknown, it is the one reported. *)
Lemma sole_unknown_binding_is_named rangeMap vmi config name :
  name ∈ declaredNames (Interfaces vmi) →
  ¬ resolves config name →
  (∀ other, other ∈ declaredNames (Interfaces vmi) →
            ¬ resolves config other → other = name) →
  NetBindingPluginSidecarList rangeMap vmi config = Err (notFound name).
Proof.
  intros Hdecl Hno Hsole.
  destruct (firstUnknown config (Interfaces vmi)) as [first|] eqn:Hfirst.
  - destruct (firstUnknown_Some _ _ _ Hfirst) as [Hd Hn].
    rewrite <-(Hsole first Hd Hn). by apply resolver_of_unknown.
  - apply firstUnknown_None in Hfirst. rewrite Forall_forall in Hfirst.
    destruct Hno. by apply Hfirst.
Qed.

(** C9.  When every declared binding name resolves, the resolver returns,
    in some order, one sidecar for each distinct declared name whose
    catalog entry has a non-empty image, and nothing for an empty image. *)
Theorem sidecars_one_per_distinct_binding rangeMap vmi config :
  RangeOrder rangeMap →
  Forall (resolves config) (declaredNames (Interfaces vmi)) →
  ∃ sidecars,
    NetBindingPluginSidecarList rangeMap vmi config = Ok sidecars ∧
    sidecars ≡ₚ specSidecars vmi config ∧
    Forall (λ sidecar, Image sidecar ≠ "") sidecars.
Proof.
  intros Hrange Hall. eexists. split; [by apply resolver_of_resolved|].
  assert (Hperm :
    (λ e : string * InterfaceBindingPlugin, {| Image := SidecarImage e.2 |}) <$>
      filter (λ e : string * InterfaceBindingPlugin, SidecarImage e.2 ≠ "")
        (rangeMap (insertAll config (declaredNames (Interfaces vmi)) ∅))
    ≡ₚ specSidecars vmi config).
  { rewrite (Hrange _), insertAll_to_list, sidecars_of_entries. done. }
  split; [done|].
  apply Forall_forall. intros sidecar Hin.
  apply list_elem_of_fmap in Hin as (e & -> & He).
  by apply list_elem_of_filter in He as [? _].
Qed.

(** The number of sidecars is the number of distinct declared names with
    an image: two names that share an image give two sidecars. *)
Lemma sidecars_counted_by_name rangeMap vmi config sidecars :
  RangeOrder rangeMap →
  Forall (resolves config) (declaredNames (Interfaces vmi)) →
  NetBindingPluginSidecarList rangeMap vmi config = Ok sidecars →
  length sidecars =
  length (filter (λ name, SidecarImage (pluginOf config name) ≠ "")
                 (remove_dups (declaredNames (Interfaces vmi)))).
Proof.
  intros Hrange Hall Hres.
  rewrite resolver_of_resolved in Hres by done. injection Hres as <-.
  rewrite (Hrange _), insertAll_to_list, sidecars_of_entries.
  by rewrite length_fmap.
Qed.

(** C10.  A VMI none of whose interfaces declares a binding gets the empty
    sidecar list and no error, whatever the configuration holds. *)
Theorem no_binding_no_sidecar rangeMap vmi config :
  RangeOrder rangeMap →
  Forall (λ iface, Binding iface = None) (Interfaces vmi) →
  NetBindingPluginSidecarList rangeMap vmi config = Ok [].
Proof.
  intros Hrange Hnone.
  assert (Hnames : declaredNames (Interfaces vmi) = []).
  { induction Hnone as [|iface rest Hb _ IH]; [done|].
    by rewrite declaredNames_cons_None. }
  rewrite resolver_of_resolved by (rewrite Hnames; constructor).
  rewrite Hnames. unfold insertAll. simpl.
  assert (Hempty : rangeMap ∅ = []).
  { apply Permutation_nil_r. by rewrite (Hrange ∅), map_to_list_empty. }
  by rewrite Hempty.
Qed.

End ServicesFacts.

(** ** The sidecar resolver on concrete inputs *)
Module ServicesChecks.
Import Services ServicesSpec ServicesFacts Scenarios.

Lemma RangeOrder_map_to_list : RangeOrder map_to_list.
Proof. intros m. reflexivity. Defined.

(** Scenario 7: [passt] ships an image, [macvtap] ships none. *)
Example scenario7 :
  NetBindingPluginSidecarList map_to_list vmiAB configAB
  = Ok [ {| Image := "img-a" |} ].
Proof. vm_compute. reflexivity. Qed.

(** Scenario 7, second half: [macvtap] is absent from the catalog. *)
Example scenario7_unknown :
  NetBindingPluginSidecarList map_to_list vmiAB configA
  = Err "couldn't find configuration for network bindining: macvtap".
Proof. vm_compute. reflexivity. Qed.

(** Uniqueness is by name: one name on two interfaces gives one sidecar,
    two names with one image give two. *)
Example one_name_twice :
  NetBindingPluginSidecarList map_to_list vmiAA configAB
  = Ok [ {| Image := "img-a" |} ].
Proof. vm_compute. reflexivity. Qed.

Example two_names_one_image :
  NetBindingPluginSidecarList map_to_list vmiAB configShared
  = Ok [ {| Image := "img" |}; {| Image := "img" |} ].
Proof. vm_compute. reflexivity. Qed.

Lemma unknown_binding_is_an_error_witness :
  ∃ name,
    firstUnknown configA (Interfaces vmiAB) = Some name ∧
    name ∈ declaredNames (Interfaces vmiAB) ∧
    ¬ resolves configA name ∧
    NetBindingPluginSidecarList map_to_list vmiAB configA = Err (notFound name) ∧
    mentions name (notFound name) = true.
Proof.
  apply (unknown_binding_is_an_error map_to_list vmiAB configA
           (bound "eth1" "macvtap") {| Name := "macvtap" |}).
  - right. left.
  - reflexivity.
  - vm_compute. intros [plugin Hplugin]. discriminate Hplugin.
Defined.

(** With no catalog both [passt] and [macvtap] are unknown, and the message
    names [passt] alone. *)
Lemma second_unknown_binding_not_mentioned :
  ¬ reportsEveryUnknown map_to_list vmiAB configNone.
Proof.
  intros Hclaim.
  destruct (Hclaim (bound "eth1" "macvtap") {| Name := "macvtap" |})
    as (msg & Hmsg & Hmentions).
  - right. left.
  - reflexivity.
  - vm_compute. intros [plugin Hplugin]. discriminate Hplugin.
  - vm_compute in Hmsg. injection Hmsg as <-.
    vm_compute in Hmentions. discriminate Hmentions.
Qed.

Lemma sidecars_one_per_distinct_binding_witness :
  ∃ sidecars,
    NetBindingPluginSidecarList map_to_list vmiAB configAB = Ok sidecars ∧
    sidecars ≡ₚ specSidecars vmiAB configAB ∧
    Forall (λ sidecar, Image sidecar ≠ "") sidecars.
Proof.
  apply (sidecars_one_per_distinct_binding map_to_list vmiAB configAB).
  - exact RangeOrder_map_to_list.
  - apply Forall_cons. split; [vm_compute; by eexists|].
    apply Forall_cons. split; [vm_compute; by eexists|].
    apply Forall_nil_2.
Defined.

Lemma no_binding_no_sidecar_witness :
  NetBindingPluginSidecarList map_to_list vmiPlain configNone = Ok [].
Proof.
  apply (no_binding_no_sidecar map_to_list vmiPlain configNone).
  - exact RangeOrder_map_to_list.
  - apply Forall_cons. split; [reflexivity|].
    apply Forall_cons. split; [reflexivity|].
    apply Forall_nil_2.
Defined.

End ServicesChecks.

(** ** Properties of the controller *)
Module WatchFacts.
Import Watch WatchSpec.
Local Open Scope go_scope.

(** *** Status conditions *)

Lemma removeConditionLoop_filter todo conds cond :
  removeConditionLoop todo conds cond =
  conds ++ filter (λ cnd, CondType cnd ≠ cond) todo.
Proof.
  revert conds. induction todo as [|cnd todo IH]; intros conds; simpl.
  - by rewrite app_nil_r.
  - rewrite filter_cons. destruct (decide (CondType cnd = cond)) as [Heq|Hne].
    + rewrite bool_decide_eq_true_2 by done.
      rewrite decide_False by (by intros Hn). apply IH.
    + rewrite bool_decide_eq_false_2 by done.
      rewrite decide_True by done. rewrite IH. by rewrite <-app_assoc.
Qed.

Lemma hasConditionIn_false conds cond :
  hasConditionIn conds cond = false →
  filter (λ cnd, CondType cnd = cond) conds = [].
Proof.
  induction conds as [|cnd conds IH]; simpl; [done|].
  rewrite filter_cons. destruct (decide (CondType cnd = cond)) as [Heq|Hne].
  - by rewrite bool_decide_eq_true_2.
  - rewrite bool_decide_eq_false_2 by done. apply IH.
Qed.

Lemma hasConditionIn_true conds cond :
  hasConditionIn conds cond = true ↔ cond ∈ CondType <$> conds.
Proof.
  induction conds as [|cnd conds IH]; simpl.
  - split; [done | by intros ?%elem_of_nil].
  - rewrite elem_of_cons. destruct (decide (CondType cnd = cond)) as [Heq|Hne].
    + rewrite bool_decide_eq_true_2 by done. split; [by left | done].
    + rewrite bool_decide_eq_false_2 by done. rewrite IH.
      split; [by right | by intros [?|?]].
Qed.

Lemma countCondition_removed ovm cond other :
  countCondition (removeCondition ovm cond) other =
  if decide (other = cond) then 0 else countCondition ovm other.
Proof.
  unfold countCondition, removeCondition. simpl.
  rewrite removeConditionLoop_filter. simpl.
  induction (Conditions (OVM_Status ovm)) as [|cnd conds IH].
  - by destruct (decide (other = cond)).
  - rewrite !filter_cons.
    destruct (decide (CondType cnd ≠ cond)) as [Hne|Heq].
    + rewrite filter_cons.
      destruct (decide (CondType cnd = other)) as [<-|Hno]; simpl; rewrite IH.
      * by rewrite !decide_False by done.
      * done.
    + apply dec_stable in Heq. rewrite IH.
      destruct (decide (other = cond)) as [->|Hoc]; [done|].
      by rewrite decide_False by congruence.
Qed.

Lemma countCondition_appended ovm cnd other :
  countCondition (setConditions ovm (Conditions (OVM_Status ovm) ++ [cnd])) other =
  countCondition ovm other + (if decide (CondType cnd = other) then 1 else 0).
Proof.
  unfold countCondition. simpl.
  rewrite filter_app, length_app, filter_cons, filter_nil.
  by destruct (decide (CondType cnd = other)).
Qed.

Lemma countCondition_absent ovm cond :
  hasCondition ovm cond = false → countCondition ovm cond = 0.
Proof.
  unfold hasCondition, countCondition. intros H.
  by rewrite hasConditionIn_false.
Qed.

Lemma processFailure_counts c ovm createErr cond :
  (countCondition ovm cond ≤ 1)%nat →
  (countCondition (processFailure c ovm createErr) cond ≤ 1)%nat.
Proof.
  intros Hle. unfold processFailure.
  destruct createErr as [err|];
    destruct (hasCondition ovm OfflineVirtualMachineFailure) eqn:Hhas;
    simpl; try done.
  - rewrite countCondition_appended. simpl.
    destruct (decide (OfflineVirtualMachineFailure = cond)) as [<-|Hne]; [|lia].
    rewrite countCondition_absent by done. lia.
  - rewrite countCondition_removed. case_decide; lia.
Qed.

(** [processRunning] leaves at most one Running condition whatever it
    starts from, and touches no condition of another type. *)
Lemma processRunning_counts c ovm vm createErr cond :
  (countCondition ovm cond ≤ 1)%nat ∨ cond = OfflineVirtualMachineRunning →
  (countCondition (processRunning c ovm vm createErr) cond ≤ 1)%nat.
Proof.
  intros Hle. unfold processRunning.
  destruct (Running (OVM_Spec ovm) && isNil createErr
            && negb (hasCondition ovm OfflineVirtualMachineRunning)) eqn:Hif.
  - apply andb_true_iff in Hif as [_ Hhas]. apply negb_true_iff in Hhas.
    rewrite countCondition_appended. simpl.
    destruct (decide (OfflineVirtualMachineRunning = cond)) as [<-|Hne].
    + rewrite countCondition_absent by done. lia.
    + destruct Hle as [Hle| ->]; [lia | done].
  - rewrite countCondition_removed.
    destruct (decide (cond = OfflineVirtualMachineRunning)) as [->|Hne]; [lia|].
    by destruct Hle.
Qed.

Lemma synthesize_unique c ovm vm createErr :
  uniqueConditions ovm → uniqueConditions (synthesize c ovm vm createErr).
Proof.
  intros Huniq cond. unfold synthesize.
  apply processRunning_counts. left. apply processFailure_counts, Huniq.
Qed.

(** C7.  If the parent carries at most one condition of each type, then
    after [processFailure] and [processRunning] it carries at most one
    Running condition and at most one Failure condition. *)
Theorem conditions_stay_unique c ovm vm createErr :
  uniqueConditions ovm →
  (countCondition (processRunning c (processFailure c ovm createErr) vm createErr)
     OfflineVirtualMachineRunning ≤ 1)%nat ∧
  (countCondition (processRunning c (processFailure c ovm createErr) vm createErr)
     OfflineVirtualMachineFailure ≤ 1)%nat.
Proof.
  intros Huniq. split; apply (synthesize_unique c ovm vm createErr Huniq).
Qed.

(** Without the premise the Failure bound is lost: a second Failure
    condition survives a pass that reports a new error. *)
Lemma processFailure_keeps_duplicates c ovm err :
  hasCondition ovm OfflineVirtualMachineFailure = true →
  processFailure c ovm (Some err) = ovm.
Proof. unfold processFailure. by intros ->. Qed.

(** *** The status synthesizer *)

Lemma processFailure_frame c ovm createErr :
  OVM_Spec (processFailure c ovm createErr) = OVM_Spec ovm ∧
  OVM_ObjectMeta (processFailure c ovm createErr) = OVM_ObjectMeta ovm.
Proof.
  unfold processFailure.
  by destruct createErr, (hasCondition ovm OfflineVirtualMachineFailure).
Qed.

Lemma processRunning_frame c ovm vm createErr :
  OVM_Spec (processRunning c ovm vm createErr) = OVM_Spec ovm ∧
  OVM_ObjectMeta (processRunning c ovm vm createErr) = OVM_ObjectMeta ovm.
Proof.
  unfold processRunning.
  by destruct (Running (OVM_Spec ovm) && isNil createErr
               && negb (hasCondition ovm OfflineVirtualMachineRunning)).
Qed.

Lemma synthesize_frame c ovm vm createErr :
  OVM_Spec (synthesize c ovm vm createErr) = OVM_Spec ovm ∧
  OVM_ObjectMeta (synthesize c ovm vm createErr) = OVM_ObjectMeta ovm.
Proof.
  unfold synthesize.
  destruct (processRunning_frame c (processFailure c ovm createErr) vm createErr)
    as [-> ->].
  apply processFailure_frame.
Qed.

(** What [updateStatus] does, case by case. *)
Lemma updateStatus_cases c ovm vm createErr :
  updateStatus c ovm vm createErr =
  let ovm' := synthesize c ovm vm createErr in
  let stoppedMatch :=
    Bool.eqb (Running (OVM_Spec ovm)) (hasCondition ovm OfflineVirtualMachineRunning) in
  if Bool.eqb (negb (isNil createErr)) (hasCondition ovm OfflineVirtualMachineFailure)
     && stoppedMatch
  then (Returns None, [])
  else
    match Update c (Namespace (OVM_ObjectMeta ovm')) ovm' with
    | Err err => (Returns (Some err), [OVMUpdate (Namespace (OVM_ObjectMeta ovm')) ovm'])
    | Ok _ =>
      (Returns None,
       OVMUpdate (Namespace (OVM_ObjectMeta ovm')) ovm' ::
       if stoppedMatch then []
       else if Running (OVM_Spec ovm')
       then [Eventf ovm' EventTypeNormal SuccessfulPausedReplicaSetReason "Running"]
       else [Eventf ovm' EventTypeNormal SuccessfulResumedReplicaSetReason "Stopped"])
    end.
Proof.
  unfold updateStatus, synthesize. cbv zeta.
  destruct (Bool.eqb (negb (isNil createErr)) _ && _); [done|].
  destruct (Update c _ _); [|done].
  destruct (Bool.eqb (Running (OVM_Spec ovm)) _); [done|].
  by destruct (Running (OVM_Spec (processRunning c _ vm createErr))).
Qed.

(** The only object [updateStatus] sends to the API server. *)
Lemma updateStatus_written c ovm vm createErr namespace written :
  OVMUpdate namespace written ∈ effects (updateStatus c ovm vm createErr) →
  written = synthesize c ovm vm createErr.
Proof.
  rewrite updateStatus_cases. cbv zeta. unfold effects.
  destruct (_ && _); [by intros ?%elem_of_nil|].
  assert (Hrest : ∀ rest,
    Forall (λ e, isStatusWrite e = false) rest →
    OVMUpdate namespace written ∈
      OVMUpdate (Namespace (OVM_ObjectMeta (synthesize c ovm vm createErr)))
                (synthesize c ovm vm createErr) :: rest →
    written = synthesize c ovm vm createErr).
  { intros rest Hall [Heq|Hin]%elem_of_cons; [congruence|].
    rewrite Forall_forall in Hall. by apply Hall in Hin. }
  destruct (Update c _ _) as [reply|err]; simpl; apply Hrest.
  - destruct (Bool.eqb _ _); [constructor|].
    destruct (Running _); by repeat constructor.
  - constructor.
Qed.

(** C6.  When the Running condition agrees with [spec.running] and the
    Failure condition agrees with the presence of a create error,
    [updateStatus] issues no call at all; and any parent it does send to
    the API server has the spec and the metadata of the parent it was
    given. *)
Theorem updateStatus_writes_status_only c ovm vm createErr :
  (Running (OVM_Spec ovm) = hasCondition ovm OfflineVirtualMachineRunning →
   negb (isNil createErr) = hasCondition ovm OfflineVirtualMachineFailure →
   updateStatus c ovm vm createErr = (Returns None, [])) ∧
  (∀ namespace written,
     OVMUpdate namespace written ∈ effects (updateStatus c ovm vm createErr) →
     OVM_Spec written = OVM_Spec ovm ∧
     OVM_ObjectMeta written = OVM_ObjectMeta ovm).
Proof.
  split.
  - intros Hrunning Hfailure. rewrite updateStatus_cases. cbv zeta.
    by rewrite <-Hrunning, <-Hfailure, !eqb_reflx.
  - intros namespace written Hin.
    rewrite (updateStatus_written c ovm vm createErr namespace written Hin).
    apply synthesize_frame.
Qed.

(** When one of the two comparisons fails the write is issued. *)
Lemma updateStatus_writes c ovm vm createErr :
  Running (OVM_Spec ovm) ≠ hasCondition ovm OfflineVirtualMachineRunning ∨
  negb (isNil createErr) ≠ hasCondition ovm OfflineVirtualMachineFailure →
  OVMUpdate (Namespace (OVM_ObjectMeta ovm)) (synthesize c ovm vm createErr)
  ∈ effects (updateStatus c ovm vm createErr).
Proof.
  intros Hstale. rewrite updateStatus_cases. cbv zeta.
  destruct (synthesize_frame c ovm vm createErr) as [_ ->].
  assert (Bool.eqb (negb (isNil createErr))
            (hasCondition ovm OfflineVirtualMachineFailure)
          && Bool.eqb (Running (OVM_Spec ovm))
               (hasCondition ovm OfflineVirtualMachineRunning) = false) as ->.
  { apply andb_false_iff. destruct Hstale as [Hne|Hne]; [right|left];
      apply eqb_false_iff; done. }
  destruct (Update c _ _); left.
Qed.

(** The parent that is written has at most one condition of each type. *)
Lemma updateStatus_writes_unique_conditions
    c ovm vm createErr namespace written :
  uniqueConditions ovm →
  OVMUpdate namespace written ∈ effects (updateStatus c ovm vm createErr) →
  uniqueConditions written.
Proof.
  intros Huniq Hin.
  rewrite (updateStatus_written c ovm vm createErr namespace written Hin).
  by apply synthesize_unique.
Qed.

(** *** The start/stop executor *)

Lemma nonempty_length (s : string) :
  (0 <? String.length s)%nat = bool_decide (s ≠ "").
Proof. by destruct s. Qed.

Lemma getVirtualMachineBaseName_Some ovm template :
  Template (OVM_Spec ovm) = Some template →
  getVirtualMachineBaseName ovm = ret (baseName ovm template).
Proof.
  intros Htpl. unfold getVirtualMachineBaseName, baseName. rewrite Htpl. simpl.
  rewrite !nonempty_length.
  destruct (bool_decide (Name (Tpl_ObjectMeta template) ≠ "")); [done|].
  by destruct (bool_decide (GenerateName (Tpl_ObjectMeta template) ≠ "")).
Qed.

(** What [startStop] does, case by case. *)
Lemma startStop_cases c ovm vm :
  startStop c ovm vm =
  let namespace := Namespace (OVM_ObjectMeta ovm) in
  match KeyFunc c ovm with
  | Err _ => (Returns None, [])
  | Ok ovmKey =>
    if Running (OVM_Spec ovm) then
      match vm with
      | Some _ => (Returns None, [])
      | None =>
        match Template (OVM_Spec ovm) with
        | None => (Panics, [ExpectCreations ovmKey 1])
        | Some template =>
          let child := newChild c ovm template (baseName ovm template) in
          match Create c namespace child with
          | Err err =>
            (Returns (Some err),
             [ExpectCreations ovmKey 1; VMCreate namespace child;
              CreationObserved ovmKey;
              Eventf ovm EventTypeWarning FailedCreateVirtualMachineReason
                ("Error creating virtual machine: " +:+ err)])
          | Ok created =>
            (Returns None,
             [ExpectCreations ovmKey 1; VMCreate namespace child;
              Eventf ovm EventTypeNormal SuccessfulCreateVirtualMachineReason
                ("Created virtual machine: " +:+ Name (VM_ObjectMeta created))])
          end
        end
      end
    else
      match vm with
      | None => (Returns None, [])
      | Some child =>
        let name := Name (VM_ObjectMeta child) in
        match Delete c namespace name with
        | Some err =>
          (Returns (Some err),
           [ExpectDeletions ovmKey [VirtualMachineKey child];
            VMDelete namespace name;
            DeletionObserved ovmKey (VirtualMachineKey child);
            Eventf ovm EventTypeWarning FailedDeleteVirtualMachineReason
              ("Error deleting virtual machine " +:+ name +:+ ": " +:+ err)])
        | None =>
          (Returns None,
           [ExpectDeletions ovmKey [VirtualMachineKey child];
            VMDelete namespace name;
            Eventf ovm EventTypeNormal SuccessfulDeleteVirtualMachineReason
              ("Deleted virtual machine: " +:+ UID (VM_ObjectMeta child))])
        end
      end
  end.
Proof.
  unfold startStop. cbv zeta. destruct (KeyFunc c ovm) as [ovmKey|]; [|done].
  destruct (Running (OVM_Spec ovm)) eqn:Hrun; simpl.
  - destruct vm as [child|]; [done|]. unfold startBlock.
    destruct (Template (OVM_Spec ovm)) as [template|] eqn:Htpl.
    + rewrite (getVirtualMachineBaseName_Some ovm template Htpl). simpl.
      unfold newChild. simpl.
      by destruct (Create c _ _).
    + unfold getVirtualMachineBaseName. by rewrite Htpl.
  - destruct vm as [child|]; [|done]. unfold stopBlock. simpl.
    by destruct (Delete c _ _).
Qed.

Local Arguments newChild : simpl never.
Local Arguments VirtualMachineKey : simpl never.

(** Splitting a log around one of its entries. *)
Ltac split_log :=
  repeat match goal with
         | H : _ = ?pre ++ _ :: _ |- _ =>
           is_var pre; destruct pre; simplify_eq/=
         end.

(** C3.  Around every create and every delete that [startStop] issues: the
    expectation is recorded just before the call; when the call fails the
    expectation is taken back, a warning event with reason FailedCreate or
    FailedDelete is recorded, and the error is returned. *)
Theorem expectations_bracket_api_calls c ovm vm :
  (∀ pre namespace child post,
     effects (startStop c ovm vm) = pre ++ VMCreate namespace child :: post →
     ∃ ovmKey,
       KeyFunc c ovm = Ok ovmKey ∧
       pre = [ExpectCreations ovmKey 1] ∧
       match Create c namespace child with
       | Err err =>
         post = [CreationObserved ovmKey;
                 Eventf ovm EventTypeWarning FailedCreateVirtualMachineReason
                   ("Error creating virtual machine: " +:+ err)] ∧
         outcome (startStop c ovm vm) = Returns (Some err)
       | Ok created =>
         post = [Eventf ovm EventTypeNormal SuccessfulCreateVirtualMachineReason
                   ("Created virtual machine: " +:+ Name (VM_ObjectMeta created))] ∧
         outcome (startStop c ovm vm) = Returns None
       end) ∧
  (∀ pre namespace name post,
     effects (startStop c ovm vm) = pre ++ VMDelete namespace name :: post →
     ∃ ovmKey child,
       KeyFunc c ovm = Ok ovmKey ∧
       vm = Some child ∧
       name = Name (VM_ObjectMeta child) ∧
       pre = [ExpectDeletions ovmKey [VirtualMachineKey child]] ∧
       match Delete c namespace name with
       | Some err =>
         post = [DeletionObserved ovmKey (VirtualMachineKey child);
                 Eventf ovm EventTypeWarning FailedDeleteVirtualMachineReason
                   ("Error deleting virtual machine " +:+ name +:+ ": " +:+ err)] ∧
         outcome (startStop c ovm vm) = Returns (Some err)
       | None =>
         post = [Eventf ovm EventTypeNormal SuccessfulDeleteVirtualMachineReason
                   ("Deleted virtual machine: " +:+ UID (VM_ObjectMeta child))] ∧
         outcome (startStop c ovm vm) = Returns None
       end).
Proof.
  rewrite startStop_cases. cbv zeta.
  destruct (KeyFunc c ovm) as [ovmKey|keyErr];
    [|split; intros pre ???; simpl; intros H; split_log].
  destruct (Running (OVM_Spec ovm)).
  - destruct vm as [child|];
      [split; intros pre ???; simpl; intros H; split_log|].
    destruct (Template (OVM_Spec ovm)) as [template|];
      [|split; intros pre ???; simpl; intros H; split_log].
    destruct (Create c _ _) as [created|err] eqn:Hcreate;
      (split; intros pre ???; simpl; intros H; split_log);
      exists ovmKey; rewrite Hcreate; done.
  - destruct vm as [child|];
      [|split; intros pre ???; simpl; intros H; split_log].
    destruct (Delete c _ _) as [err|] eqn:Hdelete;
      (split; intros pre ???; simpl; intros H; split_log);
      exists ovmKey, child; rewrite Hdelete; done.
Qed.

(** C5.  A child that [startStop] sends to the API server is built only
    for a running parent with no child; it has exactly one owner
    reference, to the parent's name and UID, of the parent kind, with
    [Controller] and [BlockOwnerDeletion] true, and it has the template's
    labels. *)
Theorem created_child_is_owned c ovm vm namespace child :
  VMCreate namespace child ∈ effects (startStop c ovm vm) →
  Running (OVM_Spec ovm) = true ∧
  vm = None ∧
  (∃ template,
     Template (OVM_Spec ovm) = Some template ∧
     Labels (VM_ObjectMeta child) = Labels (Tpl_ObjectMeta template)) ∧
  ∃ ref,
    OwnerReferences (VM_ObjectMeta child) = [ref] ∧
    RefKind ref = Kind (OfflineVirtualMachineGroupVersionKind c) ∧
    RefName ref = Name (OVM_ObjectMeta ovm) ∧
    RefUID ref = UID (OVM_ObjectMeta ovm) ∧
    RefController ref = Some true ∧
    RefBlockOwnerDeletion ref = Some true.
Proof.
  rewrite startStop_cases. cbv zeta. unfold effects.
  destruct (KeyFunc c ovm) as [ovmKey|keyErr]; [|by intros ?%elem_of_nil].
  destruct (Running (OVM_Spec ovm)).
  - destruct vm as [existing|]; [by intros ?%elem_of_nil|].
    destruct (Template (OVM_Spec ovm)) as [template|]; simpl.
    + intros Hin.
      assert (child = newChild c ovm template (baseName ovm template)) as ->.
      { destruct (Create c _ _); simpl in Hin;
          repeat (apply elem_of_cons in Hin as [Hin|Hin]; [by simplify_eq|]);
          by apply elem_of_nil in Hin. }
      repeat split; [by exists template|].
      by exists (OvmOwnerRef c ovm).
    + intros Hin.
      repeat (apply elem_of_cons in Hin as [Hin|Hin]; [by simplify_eq|]).
      by apply elem_of_nil in Hin.
  - destruct vm as [existing|]; [|by intros ?%elem_of_nil].
    intros Hin. destruct (Delete c _ _); simpl in Hin;
      repeat (apply elem_of_cons in Hin as [Hin|Hin]; [by simplify_eq|]);
      by apply elem_of_nil in Hin.
Qed.

(** The create is issued: a running parent with a template and no child
    gets one. *)
Lemma startStop_creates c ovm ovmKey template :
  KeyFunc c ovm = Ok ovmKey →
  Running (OVM_Spec ovm) = true →
  Template (OVM_Spec ovm) = Some template →
  VMCreate (Namespace (OVM_ObjectMeta ovm))
           (newChild c ovm template (baseName ovm template))
  ∈ effects (startStop c ovm None).
Proof.
  intros Hkey Hrun Htpl. rewrite startStop_cases. cbv zeta.
  rewrite Hkey, Hrun, Htpl.
  destruct (Create c _ _); right; left.
Qed.

(** *** The reconciler *)

Lemma bind_ret_l {A B} (a : A) (f : A → Go B) : bind (ret a) f = f a.
Proof. unfold bind, ret. by destruct (f a). Qed.

Lemma bind_ret_r {A} (m : Go A) : bind m ret = m.
Proof. destruct m as [[a|] effs]; simpl; by rewrite ?app_nil_r. Qed.

Lemma bind_assoc {A B C} (m : Go A) (f : A → Go B) (g : B → Go C) :
  bind (bind m f) g = bind m (λ a, bind (f a) g).
Proof.
  destruct m as [[a|] effs]; simpl; [|done].
  destruct (f a) as [[b|] effs']; simpl; [|done].
  destruct (g b) as [out effs'']. by rewrite app_assoc.
Qed.

Lemma listVMsFromNamespace_ByIndex c namespace :
  listVMsFromNamespace c namespace = ByIndex c namespace.
Proof.
  unfold listVMsFromNamespace. destruct (ByIndex c namespace) as [objs|]; [|done].
  f_equal. assert (H : ∀ acc, foldl (λ vms obj, vms ++ [obj]) acc objs = acc ++ objs).
  { induction objs as [|obj objs IH]; intros acc; simpl.
    - by rewrite app_nil_r.
    - by rewrite IH, <-app_assoc. }
  apply H.
Qed.

Lemma invalidSpec_false c OVM template selector :
  validParent c OVM template selector → invalidSpec OVM = false.
Proof.
  intros (Htpl & Hlabels & specSelector & Hsel & _).
  unfold invalidSpec. rewrite Htpl, Hsel.
  apply Nat.eqb_neq. intros Hsize. by apply map_size_empty_iff in Hsize.
Qed.

(** [Execute] re-queues the key exactly when [execute] returns an error. *)
Lemma Execute_cases c :
  Execute c =
  let '(key, quit) := Queue_Get c in
  if quit then (Returns false, [])
  else
    match execute c key with
    | (Returns (Some _), effs) =>
      (Returns true, effs ++ [QueueAddRateLimited key; QueueDone key])
    | (Returns None, effs) =>
      (Returns true, effs ++ [QueueForget key; QueueDone key])
    | (Panics, effs) => (Panics, effs ++ [QueueDone key])
    end.
Proof.
  unfold Execute. destruct (Queue_Get c) as [key [|]]; [done|].
  destruct (execute c key) as [[[err|]|] effs]; simpl;
    by rewrite <-?app_assoc.
Qed.

(** A failing lookup of the parent ends the reconcile with nil. *)
Lemma execute_lookup_error c key err :
  GetByKey c key = Err err → execute c key = (Returns None, []).
Proof. unfold execute. by intros ->. Qed.

(** A failing list of the children is returned. *)
Lemma execute_list_error c key OVM template selector err :
  GetByKey c key = Ok (Some OVM) →
  validParent c OVM template selector →
  ByIndex c (Namespace (OVM_ObjectMeta OVM)) = Err err →
  execute c key = (Returns (Some err), []).
Proof.
  intros Hget Hvalid Hlist. unfold execute.
  rewrite Hget, (invalidSpec_false c OVM template selector Hvalid).
  destruct Hvalid as (Htpl & Hlabels & specSelector & Hsel & Hparse & Hmatch).
  rewrite Hsel. simpl. rewrite Hparse, Htpl. simpl. rewrite Hmatch. simpl.
  by rewrite listVMsFromNamespace_ByIndex, Hlist.
Qed.

(** A failing adoption is returned. *)
Lemma execute_claim_error c key OVM template selector listed err :
  GetByKey c key = Ok (Some OVM) →
  validParent c OVM template selector →
  ByIndex c (Namespace (OVM_ObjectMeta OVM)) = Ok listed →
  Claim c OVM selector (filterActiveVMs c listed) = Err err →
  execute c key =
  (Returns (Some err), [ClaimVirtualMachines OVM (filterActiveVMs c listed)]).
Proof.
  intros Hget Hvalid Hlist Hclaim. unfold execute.
  rewrite Hget, (invalidSpec_false c OVM template selector Hvalid).
  destruct Hvalid as (Htpl & Hlabels & specSelector & Hsel & Hparse & Hmatch).
  rewrite Hsel. simpl. rewrite Hparse, Htpl. simpl. rewrite Hmatch. simpl.
  rewrite listVMsFromNamespace_ByIndex, Hlist. simpl. by rewrite Hclaim.
Qed.

(** The reconcile of a valid parent once adoption has answered. *)
Lemma execute_claimed c key OVM template selector listed claimed :
  GetByKey c key = Ok (Some OVM) →
  validParent c OVM template selector →
  ByIndex c (Namespace (OVM_ObjectMeta OVM)) = Ok listed →
  Claim c OVM selector (filterActiveVMs c listed) = Ok claimed →
  execute c key =
  (emit (ClaimVirtualMachines OVM (filterActiveVMs c listed));;
   if (1 <? length claimed)%nat then ret None
   else
     let vm := if (length claimed =? 1)%nat then head claimed else None in
     let* createErr :=
       (if SatisfiedExpectations c key
           && isNil (DeletionTimestamp (OVM_ObjectMeta OVM))
        then startStop c OVM vm
        else ret None) in
     if negb (isNil (DeletionTimestamp (OVM_ObjectMeta OVM)))
        && HasFinalizer OVM FinalizerOrphanDependents
     then orphan c OVM claimed
     else updateStatus c (DeepCopy OVM) vm createErr).
Proof.
  intros Hget Hvalid Hlist Hclaim. unfold execute.
  rewrite Hget, (invalidSpec_false c OVM template selector Hvalid).
  destruct Hvalid as (Htpl & Hlabels & specSelector & Hsel & Hparse & Hmatch).
  rewrite Hsel. simpl. rewrite Hparse, Htpl. simpl. rewrite Hmatch. simpl.
  rewrite listVMsFromNamespace_ByIndex, Hlist. simpl. rewrite Hclaim.
  by destruct (if (1 <? length claimed)%nat then _ else _) as [out effs].
Qed.

(** C1 (as amended).  With more than one claimed child the reconcile of a
    valid parent ends right after adoption: the adoption call is its only
    effect, so neither the scaling step nor the status update runs. *)
Theorem many_children_end_the_reconcile
    c key OVM template selector listed claimed :
  GetByKey c key = Ok (Some OVM) →
  validParent c OVM template selector →
  ByIndex c (Namespace (OVM_ObjectMeta OVM)) = Ok listed →
  Claim c OVM selector (filterActiveVMs c listed) = Ok claimed →
  (1 < length claimed)%nat →
  effects (execute c key) = [ClaimVirtualMachines OVM (filterActiveVMs c listed)] ∧
  Forall (λ e, isScaling e = false) (effects (execute c key)) ∧
  Forall (λ e, isStatusWrite e = false) (effects (execute c key)).
Proof.
  intros Hget Hvalid Hlist Hclaim Hmany.
  rewrite (execute_claimed c key OVM template selector listed claimed) by done.
  apply Nat.ltb_lt in Hmany. rewrite Hmany. simpl.
  repeat split; by repeat constructor.
Qed.

(** What that reconcile returns: the [err] variable, nil at that point. *)
Lemma many_children_return_nil c key OVM template selector listed claimed :
  GetByKey c key = Ok (Some OVM) →
  validParent c OVM template selector →
  ByIndex c (Namespace (OVM_ObjectMeta OVM)) = Ok listed →
  Claim c OVM selector (filterActiveVMs c listed) = Ok claimed →
  (1 < length claimed)%nat →
  outcome (execute c key) = Returns None.
Proof.
  intros Hget Hvalid Hlist Hclaim Hmany.
  rewrite (execute_claimed c key OVM template selector listed claimed) by done.
  apply Nat.ltb_lt in Hmany. by rewrite Hmany.
Qed.

(** C4.  A parent whose template or selector is missing, whose selector
    does not parse, whose template labels are empty, or whose selector does
    not match the template labels: the reconcile returns nil and has no
    effect (no adoption, no scaling, no status update), and [Execute]
    forgets the key instead of re-queueing it. *)
Theorem invalid_parent_is_dropped c key OVM :
  GetByKey c key = Ok (Some OVM) →
  invalidParent c OVM →
  execute c key = (Returns None, []) ∧
  (Queue_Get c = (key, false) →
   Execute c = (Returns true, [QueueForget key; QueueDone key])).
Proof.
  intros Hget Hinvalid.
  assert (Hexecute : execute c key = (Returns None, [])).
  { unfold execute. rewrite Hget.
    destruct (invalidSpec OVM) eqn:Hspec; [done|].
    unfold invalidSpec in Hspec.
    destruct (Template (OVM_Spec OVM)) as [template|] eqn:Htpl; [|done].
    destruct (Selector (OVM_Spec OVM)) as [specSelector|] eqn:Hsel; [|done].
    apply Nat.eqb_neq in Hspec. simpl.
    destruct Hinvalid as [H|H|s err Hs Hparse|t Ht Hempty|t s selector Ht Hs Hparse Hno];
      simplify_eq.
    - by rewrite Hparse.
    - destruct Hspec. rewrite Hempty. apply map_size_empty.
    - rewrite Hparse. simpl. by rewrite Hno. }
  split; [done|]. intros Hqueue.
  by rewrite Execute_cases, Hqueue, Hexecute.
Qed.

End WatchFacts.

(** ** The controller on concrete inputs *)
Module WatchChecks.
Import Watch WatchSpec WatchFacts Scenarios.

Lemma parentP_valid running conds listed createErr deleteErr :
  validParent (cluster (holding (parentP running conds)) listed createErr deleteErr)
              (parentP running conds) templateP selectorOfP.
Proof.
  split; [reflexivity|]. split; [apply insert_non_empty|].
  exists selectorP. split; [reflexivity|]. split; reflexivity.
Defined.

(** Scenario 1, start from zero: one child is created, owned by the
    parent, and the parent gains the Running condition. *)
Example scenario_start_from_zero :
  execute clusterStart "default/p" =
  (Returns None,
   [ClaimVirtualMachines (parentP true []) [];
    ExpectCreations "default/p" 1;
    VMCreate "default" (newChild clusterStart (parentP true []) templateP "p");
    Eventf (parentP true []) "Normal" "SuccessfulCreate"
           "Created virtual machine: p";
    OVMUpdate "default" (parentP true [runningCondition]);
    Eventf (parentP true [runningCondition]) "Normal"
           SuccessfulPausedReplicaSetReason "Running"]).
Proof. vm_compute. reflexivity. Qed.

(** Scenario 2, stop running: the child is deleted and the parent loses
    the Running condition. *)
Example scenario_stop_running :
  execute clusterStop "default/p" =
  (Returns None,
   [ClaimVirtualMachines (parentP false [runningCondition]) [child1];
    ExpectDeletions "default/p" ["default/c1"];
    VMDelete "default" "c1";
    Eventf (parentP false [runningCondition]) "Normal" "SuccessfulDelete"
           "Deleted virtual machine: uc1";
    OVMUpdate "default" (parentP false []);
    Eventf (parentP false []) "Normal"
           SuccessfulResumedReplicaSetReason "Stopped"]).
Proof. vm_compute. reflexivity. Qed.

(** Scenario 5, create failure: the expectation is taken back and the
    Failure condition appears.  [execute] returns what [updateStatus]
    returns, so after a status write that succeeds the key is forgotten. *)
Example scenario_create_failure :
  Execute clusterCreateFails =
  (Returns true,
   [ClaimVirtualMachines (parentP true []) [];
    ExpectCreations "default/p" 1;
    VMCreate "default" (newChild clusterStart (parentP true []) templateP "p");
    CreationObserved "default/p";
    Eventf (parentP true []) "Warning" "FailedCreate"
           "Error creating virtual machine: quota exceeded";
    OVMUpdate "default"
      (parentP true [failureCondition "FailedCreate" "quota exceeded"]);
    Eventf (parentP true [failureCondition "FailedCreate" "quota exceeded"])
           "Normal" SuccessfulPausedReplicaSetReason "Running";
    QueueForget "default/p";
    QueueDone "default/p"]).
Proof. vm_compute. reflexivity. Qed.

(** The five ways to be rejected by validation. *)
Example rejected_parents :
  Forall (λ OVM, execute (cluster (holding OVM) [child1] None None) "default/p"
                 = (Returns None, []))
    [parentNoTemplate; parentNoSelector; parentBadOperator; parentNoLabels;
     parentMismatch].
Proof. repeat constructor. Qed.

(** A failing list of the children is returned and the key re-queued. *)
Example list_error_is_requeued :
  let c := {| Queue_Get := ("default/p", false);
              GetByKey := holding (parentP true []);
              ByIndex := λ _, Err "index unavailable";
              SatisfiedExpectations := SatisfiedExpectations clusterStart;
              Create := Create clusterStart;
              Delete := Delete clusterStart;
              Update := Update clusterStart;
              Claim := Claim clusterStart;
              Release := Release clusterStart;
              KeyFunc := KeyFunc clusterStart;
              IsFinal := IsFinal clusterStart;
              LabelSelectorAsSelector := sampleSelector;
              OfflineVirtualMachineGroupVersionKind := gvkOVM;
              Now := 1000%nat |} in
  Execute c =
  (Returns true, [QueueAddRateLimited "default/p"; QueueDone "default/p"]).
Proof. vm_compute. reflexivity. Qed.

(** C2 (at the failing input).  The store fails the lookup of
    [default/p]: [execute] returns nil, and [Execute] forgets the key
    where a returned error would have re-queued it. *)
Theorem lookup_error_is_dropped :
  GetByKey clusterStoreDown "default/p" = Err "store unavailable" ∧
  execute clusterStoreDown "default/p" = (Returns None, []) ∧
  Execute clusterStoreDown =
  (Returns true, [QueueForget "default/p"; QueueDone "default/p"]).
Proof. repeat split. Qed.

Lemma many_children_end_the_reconcile_witness :
  effects (execute clusterTwoChildren "default/p")
  = [ClaimVirtualMachines (parentP true [])
       (filterActiveVMs clusterTwoChildren [child1; child2])] ∧
  Forall (λ e, isScaling e = false)
         (effects (execute clusterTwoChildren "default/p")) ∧
  Forall (λ e, isStatusWrite e = false)
         (effects (execute clusterTwoChildren "default/p")).
Proof.
  apply (many_children_end_the_reconcile clusterTwoChildren "default/p"
           (parentP true []) templateP selectorOfP
           [child1; child2] [child1; child2]).
  - reflexivity.
  - apply parentP_valid.
  - reflexivity.
  - reflexivity.
  - simpl. lia.
Defined.

(** Two children are claimed and the parent's status is stale (it runs
    and has no Running condition): the status update of section 4.6 would
    write, the reconcile does not. *)
Lemma many_children_skip_the_status_update :
  ¬ skipsScalingButUpdatesStatus clusterTwoChildren "default/p".
Proof.
  intros Hclaim.
  destruct (Hclaim (parentP true []) templateP selectorOfP
              [child1; child2] [child1; child2]) as [vm Hvm].
  - reflexivity.
  - apply parentP_valid.
  - reflexivity.
  - reflexivity.
  - simpl. lia.
  - vm_compute in Hvm. discriminate Hvm.
Qed.

Lemma expectations_bracket_api_calls_witness :
  (∃ ovmKey,
     KeyFunc clusterCreateFails (parentP true []) = Ok ovmKey ∧
     [ExpectCreations "default/p" 1] = [ExpectCreations ovmKey 1] ∧
     match Create clusterCreateFails "default"
             (newChild clusterCreateFails (parentP true []) templateP "p") with
     | Err err =>
       [CreationObserved "default/p";
        Eventf (parentP true []) "Warning" "FailedCreate"
               "Error creating virtual machine: quota exceeded"]
       = [CreationObserved ovmKey;
          Eventf (parentP true []) EventTypeWarning
                 FailedCreateVirtualMachineReason
                 ("Error creating virtual machine: " +:+ err)] ∧
       outcome (startStop clusterCreateFails (parentP true []) None)
       = Returns (Some err)
     | Ok created =>
       [CreationObserved "default/p";
        Eventf (parentP true []) "Warning" "FailedCreate"
               "Error creating virtual machine: quota exceeded"]
       = [Eventf (parentP true []) EventTypeNormal
                 SuccessfulCreateVirtualMachineReason
                 ("Created virtual machine: " +:+ Name (VM_ObjectMeta created))] ∧
       outcome (startStop clusterCreateFails (parentP true []) None)
       = Returns None
     end) ∧
  (∃ ovmKey child,
     KeyFunc clusterDeleteFails (parentP false [runningCondition]) = Ok ovmKey ∧
     Some child1 = Some child ∧
     "c1" = Name (VM_ObjectMeta child) ∧
     [ExpectDeletions "default/p" ["default/c1"]]
     = [ExpectDeletions ovmKey [VirtualMachineKey child]] ∧
     match Delete clusterDeleteFails "default" "c1" with
     | Some err =>
       [DeletionObserved "default/p" "default/c1";
        Eventf (parentP false [runningCondition]) "Warning" "FailedDelete"
               "Error deleting virtual machine c1: timeout"]
       = [DeletionObserved ovmKey (VirtualMachineKey child);
          Eventf (parentP false [runningCondition]) EventTypeWarning
                 FailedDeleteVirtualMachineReason
                 ("Error deleting virtual machine " +:+ "c1" +:+ ": " +:+ err)] ∧
       outcome (startStop clusterDeleteFails (parentP false [runningCondition])
                          (Some child1))
       = Returns (Some err)
     | None =>
       [DeletionObserved "default/p" "default/c1";
        Eventf (parentP false [runningCondition]) "Warning" "FailedDelete"
               "Error deleting virtual machine c1: timeout"]
       = [Eventf (parentP false [runningCondition]) EventTypeNormal
                 SuccessfulDeleteVirtualMachineReason
                 ("Deleted virtual machine: " +:+ UID (VM_ObjectMeta child))] ∧
       outcome (startStop clusterDeleteFails (parentP false [runningCondition])
                          (Some child1))
       = Returns None
     end).
Proof.
  split.
  - apply (proj1 (expectations_bracket_api_calls clusterCreateFails
                    (parentP true []) None)
             [ExpectCreations "default/p" 1] "default"
             (newChild clusterCreateFails (parentP true []) templateP "p")
             [CreationObserved "default/p";
              Eventf (parentP true []) "Warning" "FailedCreate"
                     "Error creating virtual machine: quota exceeded"]).
    reflexivity.
  - apply (proj2 (expectations_bracket_api_calls clusterDeleteFails
                    (parentP false [runningCondition]) (Some child1))
             [ExpectDeletions "default/p" ["default/c1"]] "default" "c1"
             [DeletionObserved "default/p" "default/c1";
              Eventf (parentP false [runningCondition]) "Warning" "FailedDelete"
                     "Error deleting virtual machine c1: timeout"]).
    reflexivity.
Defined.

Lemma invalid_parent_is_dropped_witness :
  execute (cluster (holding parentMismatch) [child1] None None) "default/p"
  = (Returns None, []) ∧
  (Queue_Get (cluster (holding parentMismatch) [child1] None None)
   = ("default/p", false) →
   Execute (cluster (holding parentMismatch) [child1] None None)
   = (Returns true, [QueueForget "default/p"; QueueDone "default/p"])).
Proof.
  apply (invalid_parent_is_dropped
           (cluster (holding parentMismatch) [child1] None None)
           "default/p" parentMismatch).
  - reflexivity.
  - apply (SelectorMismatch _ _ templateP
             {| MatchLabels := <["app" := "q"]> ∅; MatchExpressions := [] |}
             (match sampleSelector {| MatchLabels := <["app" := "q"]> ∅;
                                      MatchExpressions := [] |} with
              | Ok selector => selector
              | Err _ => λ _, false
              end)); reflexivity.
Defined.

Lemma created_child_is_owned_witness :
  Running (OVM_Spec (parentP true [])) = true ∧
  (None : option VirtualMachine) = None ∧
  (∃ template,
     Template (OVM_Spec (parentP true [])) = Some template ∧
     Labels (VM_ObjectMeta (newChild clusterStart (parentP true []) templateP "p"))
     = Labels (Tpl_ObjectMeta template)) ∧
  ∃ ref,
    OwnerReferences
      (VM_ObjectMeta (newChild clusterStart (parentP true []) templateP "p"))
    = [ref] ∧
    RefKind ref = Kind (OfflineVirtualMachineGroupVersionKind clusterStart) ∧
    RefName ref = Name (OVM_ObjectMeta (parentP true [])) ∧
    RefUID ref = UID (OVM_ObjectMeta (parentP true [])) ∧
    RefController ref = Some true ∧
    RefBlockOwnerDeletion ref = Some true.
Proof.
  apply (created_child_is_owned clusterStart (parentP true []) None "default"
           (newChild clusterStart (parentP true []) templateP "p")).
  right. left.
Defined.

Lemma updateStatus_writes_status_only_witness :
  updateStatus clusterStart (parentP true [runningCondition]) None None
  = (Returns None, []) ∧
  OVM_Spec (parentP true [runningCondition]) = OVM_Spec (parentP true []) ∧
  OVM_ObjectMeta (parentP true [runningCondition])
  = OVM_ObjectMeta (parentP true []).
Proof.
  split.
  - apply (proj1 (updateStatus_writes_status_only clusterStart
                    (parentP true [runningCondition]) None None));
      reflexivity.
  - apply (proj2 (updateStatus_writes_status_only clusterStart
                    (parentP true []) None None)
             "default" (parentP true [runningCondition])).
    left.
Defined.

Lemma conditions_stay_unique_witness :
  (countCondition
     (processRunning clusterStart
        (processFailure clusterStart (parentP true [runningCondition])
           (Some "quota exceeded"))
        None (Some "quota exceeded"))
     OfflineVirtualMachineRunning ≤ 1)%nat ∧
  (countCondition
     (processRunning clusterStart
        (processFailure clusterStart (parentP true [runningCondition])
           (Some "quota exceeded"))
        None (Some "quota exceeded"))
     OfflineVirtualMachineFailure ≤ 1)%nat.
Proof.
  apply (conditions_stay_unique clusterStart (parentP true [runningCondition])
           None (Some "quota exceeded")).
  intros cond. unfold countCondition. simpl.
  rewrite filter_cons, filter_nil.
  destruct (decide (CondType runningCondition = cond)); simpl; lia.
Defined.

End WatchChecks.

(** ** More properties of the status synthesizer *)
Module StatusFacts.
Import Watch WatchSpec WatchFacts MoreSpec.

Lemma hasConditionIn_app conds cnd cond :
  hasConditionIn (conds ++ [cnd]) cond =
  hasConditionIn conds cond || bool_decide (CondType cnd = cond).
Proof.
  induction conds as [|c0 conds IH]; simpl.
  - by destruct (bool_decide (CondType cnd = cond)).
  - by destruct (bool_decide (CondType c0 = cond)).
Qed.

Lemma hasConditionIn_filter conds removed cond :
  hasConditionIn (filter (λ cnd, CondType cnd ≠ removed) conds) cond =
  hasConditionIn conds cond && bool_decide (cond ≠ removed).
Proof.
  induction conds as [|c0 conds IH]; simpl; [done|].
  rewrite filter_cons.
  destruct (decide (CondType c0 ≠ removed)) as [Hne|Heq]; simpl.
  - destruct (decide (CondType c0 = cond)) as [<-|Hother].
    + rewrite !bool_decide_eq_true_2 by done. done.
    + rewrite (bool_decide_eq_false_2 (CondType c0 = cond)) by done. apply IH.
  - apply dec_stable in Heq. rewrite IH.
    destruct (decide (CondType c0 = cond)) as [<-|Hother].
    + rewrite (bool_decide_eq_false_2 (CondType c0 ≠ removed)) by (by intros ?).
      by rewrite !andb_false_r.
    + by rewrite (bool_decide_eq_false_2 (CondType c0 = cond)).
Qed.

Lemma hasCondition_removed ovm removed cond :
  hasCondition (removeCondition ovm removed) cond =
  hasCondition ovm cond && bool_decide (cond ≠ removed).
Proof.
  unfold hasCondition, removeCondition. simpl.
  rewrite removeConditionLoop_filter. simpl. apply hasConditionIn_filter.
Qed.

(** X1.  Removing the conditions of one type leaves no condition of that
    type and keeps the presence of every other type; removing them a
    second time changes nothing. *)
Theorem removeCondition_hasCondition ovm removed cond :
  hasCondition (removeCondition ovm removed) cond
  = hasCondition ovm cond && bool_decide (cond ≠ removed) ∧
  removeCondition (removeCondition ovm removed) removed
  = removeCondition ovm removed.
Proof.
  split; [apply hasCondition_removed|].
  assert (Hagain : ∀ conds : list OfflineVirtualMachineCondition,
    filter (λ cnd, CondType cnd ≠ removed)
           (filter (λ cnd, CondType cnd ≠ removed) conds)
    = filter (λ cnd, CondType cnd ≠ removed) conds).
  { induction conds as [|cnd conds IH]; [done|].
    rewrite (filter_cons _ cnd conds).
    destruct (decide (CondType cnd ≠ removed)); [|exact IH].
    rewrite filter_cons, decide_True by done. by rewrite IH. }
  unfold removeCondition. simpl.
  rewrite !removeConditionLoop_filter. simpl. by rewrite Hagain.
Qed.

Lemma hasCondition_appended ovm cnd cond :
  hasCondition (setConditions ovm (Conditions (OVM_Status ovm) ++ [cnd])) cond =
  hasCondition ovm cond || bool_decide (CondType cnd = cond).
Proof. unfold hasCondition. simpl. apply hasConditionIn_app. Qed.

Lemma processFailure_hasCondition c ovm createErr cond :
  hasCondition (processFailure c ovm createErr) cond =
  if decide (cond = OfflineVirtualMachineFailure)
  then negb (isNil createErr)
  else hasCondition ovm cond.
Proof.
  unfold processFailure.
  destruct createErr as [err|];
    destruct (hasCondition ovm OfflineVirtualMachineFailure) eqn:Hhas; simpl.
  - by destruct (decide (cond = OfflineVirtualMachineFailure)) as [->|].
  - rewrite hasCondition_appended. simpl.
    destruct (decide (cond = OfflineVirtualMachineFailure)) as [->|Hne].
    + by rewrite bool_decide_eq_true_2, orb_true_r.
    + by rewrite bool_decide_eq_false_2, orb_false_r.
  - rewrite hasCondition_removed.
    destruct (decide (cond = OfflineVirtualMachineFailure)) as [->|Hne].
    + rewrite bool_decide_eq_false_2 by (by intros ?). apply andb_false_r.
    + rewrite bool_decide_eq_true_2 by done. apply andb_true_r.
  - by destruct (decide (cond = OfflineVirtualMachineFailure)) as [->|].
Qed.

Lemma processRunning_hasCondition c ovm vm createErr cond :
  hasCondition (processRunning c ovm vm createErr) cond =
  if decide (cond = OfflineVirtualMachineRunning)
  then Running (OVM_Spec ovm) && isNil createErr
       && negb (hasCondition ovm OfflineVirtualMachineRunning)
  else hasCondition ovm cond.
Proof.
  unfold processRunning.
  destruct (Running (OVM_Spec ovm) && isNil createErr
            && negb (hasCondition ovm OfflineVirtualMachineRunning)) eqn:Hif.
  - rewrite hasCondition_appended. simpl.
    destruct (decide (cond = OfflineVirtualMachineRunning)) as [->|Hne].
    + by rewrite bool_decide_eq_true_2, orb_true_r.
    + by rewrite bool_decide_eq_false_2, orb_false_r.
  - rewrite hasCondition_removed.
    destruct (decide (cond = OfflineVirtualMachineRunning)) as [->|Hne].
    + rewrite bool_decide_eq_false_2 by (by intros ?). apply andb_false_r.
    + rewrite bool_decide_eq_true_2 by done. apply andb_true_r.
Qed.

Lemma synthesize_managed c ovm vm createErr :
  hasCondition (synthesize c ovm vm createErr) OfflineVirtualMachineFailure
  = negb (isNil createErr) ∧
  hasCondition (synthesize c ovm vm createErr) OfflineVirtualMachineRunning
  = Running (OVM_Spec ovm) && isNil createErr
    && negb (hasCondition ovm OfflineVirtualMachineRunning).
Proof.
  unfold synthesize. split.
  - rewrite processRunning_hasCondition, decide_False by done.
    by rewrite processFailure_hasCondition, decide_True.
  - rewrite processRunning_hasCondition, decide_True by done.
    destruct (processFailure_frame c ovm createErr) as [-> _].
    by rewrite processFailure_hasCondition, decide_False.
Qed.

(** X2.  What the two mutations leave behind: a Failure condition exactly
    when there is an error; a Running condition exactly when the parent
    runs, there is no error, and it had no Running condition before; and
    the presence of any other type as it was. *)
Theorem synthesize_hasCondition c ovm vm createErr :
  hasCondition (synthesize c ovm vm createErr) OfflineVirtualMachineFailure
  = negb (isNil createErr) ∧
  hasCondition (synthesize c ovm vm createErr) OfflineVirtualMachineRunning
  = Running (OVM_Spec ovm) && isNil createErr
    && negb (hasCondition ovm OfflineVirtualMachineRunning) ∧
  ∀ cond, cond ≠ OfflineVirtualMachineRunning →
          cond ≠ OfflineVirtualMachineFailure →
          hasCondition (synthesize c ovm vm createErr) cond = hasCondition ovm cond.
Proof.
  unfold synthesize. repeat split.
  - rewrite processRunning_hasCondition, decide_False by done.
    by rewrite processFailure_hasCondition, decide_True.
  - rewrite processRunning_hasCondition, decide_True by done.
    destruct (processFailure_frame c ovm createErr) as [-> _].
    by rewrite processFailure_hasCondition, decide_False.
  - intros cond Hr Hf.
    rewrite processRunning_hasCondition, decide_False by done.
    by rewrite processFailure_hasCondition, decide_False.
Qed.

Lemma filter_foreign_app (conds : list OfflineVirtualMachineCondition) cnd :
  CondType cnd = OfflineVirtualMachineRunning ∨
  CondType cnd = OfflineVirtualMachineFailure →
  filter (λ cnd, CondType cnd ≠ OfflineVirtualMachineRunning ∧
                 CondType cnd ≠ OfflineVirtualMachineFailure) (conds ++ [cnd])
  = filter (λ cnd, CondType cnd ≠ OfflineVirtualMachineRunning ∧
                   CondType cnd ≠ OfflineVirtualMachineFailure) conds.
Proof.
  intros Hmanaged. rewrite filter_app, filter_cons, filter_nil.
  rewrite decide_False by (intros [? ?]; destruct Hmanaged; done).
  apply app_nil_r.
Qed.

Lemma filter_foreign_removed (conds : list OfflineVirtualMachineCondition) removed :
  removed = OfflineVirtualMachineRunning ∨
  removed = OfflineVirtualMachineFailure →
  filter (λ cnd, CondType cnd ≠ OfflineVirtualMachineRunning ∧
                 CondType cnd ≠ OfflineVirtualMachineFailure)
         (filter (λ cnd, CondType cnd ≠ removed) conds)
  = filter (λ cnd, CondType cnd ≠ OfflineVirtualMachineRunning ∧
                   CondType cnd ≠ OfflineVirtualMachineFailure) conds.
Proof.
  intros Hmanaged. induction conds as [|c0 conds IH]; [done|].
  rewrite (filter_cons _ c0 conds).
  destruct (decide (CondType c0 ≠ removed)) as [Hne|Heq].
  - rewrite !filter_cons, IH. done.
  - apply dec_stable in Heq. rewrite IH, filter_cons.
    rewrite decide_False; [done|].
    intros [? ?]; destruct Hmanaged; congruence.
Qed.

Lemma foreignConditions_removed ovm removed :
  removed = OfflineVirtualMachineRunning ∨
  removed = OfflineVirtualMachineFailure →
  foreignConditions (removeCondition ovm removed) = foreignConditions ovm.
Proof.
  intros Hmanaged. unfold foreignConditions, removeCondition. simpl.
  rewrite removeConditionLoop_filter. simpl.
  by apply filter_foreign_removed.
Qed.

(** X3.  Conditions of a type other than Running and Failure pass through
    the two mutations unchanged and in their order. *)
Theorem synthesize_keeps_foreign_conditions c ovm vm createErr :
  foreignConditions (synthesize c ovm vm createErr) = foreignConditions ovm.
Proof.
  unfold synthesize.
  transitivity (foreignConditions (processFailure c ovm createErr)).
  - unfold processRunning. destruct (_ && _ && _).
    + unfold foreignConditions. simpl. apply filter_foreign_app. by left.
    + apply foreignConditions_removed. by left.
  - unfold processFailure.
    destruct createErr as [err|];
      destruct (hasCondition ovm OfflineVirtualMachineFailure); simpl; try done.
    + unfold foreignConditions. simpl. apply filter_foreign_app. by right.
    + apply foreignConditions_removed. by right.
Qed.

(** X4.  Recovery drops the Running condition: a running parent that has
    both a Running and a Failure condition and meets no error is written
    back with neither. *)
Theorem recovery_drops_running_condition c ovm vm :
  Running (OVM_Spec ovm) = true →
  hasCondition ovm OfflineVirtualMachineRunning = true →
  hasCondition ovm OfflineVirtualMachineFailure = true →
  OVMUpdate (Namespace (OVM_ObjectMeta ovm)) (synthesize c ovm vm None)
    ∈ effects (updateStatus c ovm vm None) ∧
  hasCondition (synthesize c ovm vm None) OfflineVirtualMachineRunning = false ∧
  hasCondition (synthesize c ovm vm None) OfflineVirtualMachineFailure = false.
Proof.
  intros Hrun Hhas Hfail.
  destruct (synthesize_managed c ovm vm None) as (Hf & Hr).
  split; [|split].
  - apply updateStatus_writes. right. rewrite Hfail. done.
  - rewrite Hr, Hhas. by rewrite andb_false_r.
  - by rewrite Hf.
Qed.

Lemma updateStatus_inSync c ovm vm createErr :
  inSync ovm createErr = true →
  updateStatus c ovm vm createErr = (Returns None, []).
Proof.
  intros Hsync. rewrite updateStatus_cases. cbv zeta.
  unfold inSync in Hsync. by rewrite Hsync.
Qed.

(** A pass that is not in sync sends [statusPass] to the API server. *)
Lemma updateStatus_sends_statusPass c ovm vm createErr :
  inSync ovm createErr = false →
  OVMUpdate (Namespace (OVM_ObjectMeta ovm)) (statusPass c ovm vm createErr)
    ∈ effects (updateStatus c ovm vm createErr).
Proof.
  intros Hsync. unfold statusPass. rewrite Hsync.
  apply updateStatus_writes. unfold inSync in Hsync.
  apply andb_false_iff in Hsync as [H|H]; apply eqb_false_iff in H; auto.
Qed.

(** X5.  Without errors the status settles within two passes: after two
    passes of [updateStatus] a third finds both comparisons matching and
    issues no call. *)
Theorem status_settles_in_two_passes c ovm vm1 vm2 vm3 :
  updateStatus c (statusPass c (statusPass c ovm vm1 None) vm2 None) vm3 None
  = (Returns None, []).
Proof.
  apply updateStatus_inSync.
  unfold statusPass at 2.
  destruct (inSync ovm None) eqn:Hsync0.
  { unfold statusPass. by rewrite Hsync0. }
  unfold statusPass.
  destruct (inSync (synthesize c ovm vm1 None) None) eqn:Hsync1; [done|].
  set (once := synthesize c ovm vm1 None) in *.
  destruct (synthesize_managed c ovm vm1 None) as (Hf1 & Hr1).
  destruct (synthesize_managed c once vm2 None) as (Hf2 & Hr2).
  destruct (synthesize_frame c ovm vm1 None) as [Hspec1 _].
  destruct (synthesize_frame c once vm2 None) as [Hspec2 _].
  fold once in Hf1, Hr1, Hspec1.
  unfold inSync in *. rewrite Hf2, Hr2, Hspec2. simpl.
  rewrite Hf1, Hr1, Hspec1 in Hsync1. simpl in Hsync1.
  rewrite Hr1, Hspec1.
  destruct (Running (OVM_Spec ovm)); simpl in *; [|done].
  by destruct (hasCondition ovm OfflineVirtualMachineRunning).
Qed.

(** X6.  A running parent whose create keeps failing does not settle:
    after a pass that wrote the status with an error, the next pass that
    meets an error is out of sync again and writes again. *)
Theorem failing_running_parent_is_rewritten c ovm vm1 vm2 err1 err2 :
  Running (OVM_Spec ovm) = true →
  inSync ovm (Some err1) = false →
  inSync (statusPass c ovm vm1 (Some err1)) (Some err2) = false ∧
  OVMUpdate (Namespace (OVM_ObjectMeta ovm))
            (statusPass c (statusPass c ovm vm1 (Some err1)) vm2 (Some err2))
    ∈ effects (updateStatus c (statusPass c ovm vm1 (Some err1)) vm2 (Some err2)).
Proof.
  intros Hrun Hsync.
  assert (Hnext : inSync (statusPass c ovm vm1 (Some err1)) (Some err2) = false).
  { unfold statusPass. rewrite Hsync.
    destruct (synthesize_managed c ovm vm1 (Some err1)) as (_ & Hr).
    destruct (synthesize_frame c ovm vm1 (Some err1)) as [Hspec _].
    unfold inSync. rewrite Hspec, Hr, Hrun. cbn [isNil andb].
    apply andb_false_r. }
  split; [done|].
  assert (Hmeta : OVM_ObjectMeta (statusPass c ovm vm1 (Some err1))
                  = OVM_ObjectMeta ovm).
  { unfold statusPass. rewrite Hsync. apply synthesize_frame. }
  rewrite <-Hmeta. by apply updateStatus_sends_statusPass.
Qed.

End StatusFacts.

(** ** More properties of the start/stop executor and of the reconciler *)
Module ReconcileFacts.
Import Watch WatchSpec WatchFacts MoreSpec.
Local Open Scope go_scope.

Local Arguments newChild : simpl never.
Local Arguments VirtualMachineKey : simpl never.

(** Membership in a log that is written out. *)
Ltac in_log H :=
  repeat (apply elem_of_cons in H as [H|H]; [simplify_eq|]);
  try (by apply elem_of_nil in H).

(** X7.  [startStop] acts only on a mismatch between [spec.running] and
    the presence of a child: when they agree it has no effect and returns
    nil; otherwise it issues at most one API call, and a delete only for
    the child of a stopped parent, in the parent's namespace. *)
Theorem startStop_acts_on_mismatch_only c ovm vm :
  (Running (OVM_Spec ovm) = negb (isNil vm) →
   startStop c ovm vm = (Returns None, [])) ∧
  (length (filter (λ e, isApiCall e = true) (effects (startStop c ovm vm))) ≤ 1)%nat ∧
  (∀ namespace name,
     VMDelete namespace name ∈ effects (startStop c ovm vm) →
     Running (OVM_Spec ovm) = false ∧
     namespace = Namespace (OVM_ObjectMeta ovm) ∧
     ∃ child, vm = Some child ∧ name = Name (VM_ObjectMeta child)).
Proof.
  rewrite startStop_cases. cbv zeta. unfold effects.
  destruct (KeyFunc c ovm) as [ovmKey|keyErr].
  2:{ split; [done|]. split; [simpl; lia|]. by intros ?? ?%elem_of_nil. }
  destruct (Running (OVM_Spec ovm)), vm as [child|]; simpl.
  - split; [done|]. split; [simpl; lia|]. by intros ?? ?%elem_of_nil.
  - destruct (Template (OVM_Spec ovm)) as [template|];
      [destruct (Create c _ _)|];
      (split; [done|]); (split; [simpl; lia|]);
      intros namespace name Hin; in_log Hin.
  - destruct (Delete c _ _);
      (split; [done|]); (split; [simpl; lia|]);
      intros namespace name Hin; in_log Hin; eauto.
  - split; [done|]. split; [simpl; lia|]. by intros ?? ?%elem_of_nil.
Qed.

Lemma baseName_nonempty ovm template :
  Name (OVM_ObjectMeta ovm) ≠ "" → baseName ovm template ≠ "".
Proof.
  intros Hname. unfold baseName.
  destruct (decide (Name (Tpl_ObjectMeta template) ≠ "")) as [H1|H1].
  - by rewrite bool_decide_eq_true_2.
  - rewrite (bool_decide_eq_false_2 _ H1).
    destruct (decide (GenerateName (Tpl_ObjectMeta template) ≠ "")) as [H2|H2].
    + by rewrite bool_decide_eq_true_2.
    + by rewrite (bool_decide_eq_false_2 _ H2).
Qed.

(** X8.  The child that [startStop] creates: the request goes to the
    parent's namespace; name and generateName are both the base name
    (template name, else template generateName, else parent name), which
    is not empty when the parent's name is not; the spec is the template's;
    the namespace written in the child is the template's, not the
    parent's. *)
Theorem created_child_shape c ovm vm namespace child :
  VMCreate namespace child ∈ effects (startStop c ovm vm) →
  namespace = Namespace (OVM_ObjectMeta ovm) ∧
  ∃ template,
    Template (OVM_Spec ovm) = Some template ∧
    Name (VM_ObjectMeta child) = baseName ovm template ∧
    GenerateName (VM_ObjectMeta child) = baseName ovm template ∧
    (Name (OVM_ObjectMeta ovm) ≠ "" → Name (VM_ObjectMeta child) ≠ "") ∧
    VM_Spec child = Tpl_Spec template ∧
    Namespace (VM_ObjectMeta child) = Namespace (Tpl_ObjectMeta template).
Proof.
  rewrite startStop_cases. cbv zeta. unfold effects.
  destruct (KeyFunc c ovm) as [ovmKey|keyErr]; [|by intros ?%elem_of_nil].
  destruct (Running (OVM_Spec ovm)), vm as [existing|]; simpl;
    try (by intros ?%elem_of_nil).
  - destruct (Template (OVM_Spec ovm)) as [template|]; simpl.
    + intros Hin.
      assert (namespace = Namespace (OVM_ObjectMeta ovm) ∧
              child = newChild c ovm template (baseName ovm template))
        as [-> ->].
      { destruct (Create c _ _); simpl in Hin; in_log Hin; done. }
      split; [done|]. exists template. repeat split.
      intros Hname. by apply baseName_nonempty.
    + intros Hin. in_log Hin.
  - intros Hin. destruct (Delete c _ _); simpl in Hin; in_log Hin.
Qed.

(** The kinds of effect each step can have. *)
Lemma startStop_effect_kinds c ovm vm :
  Forall (λ e, isReconcileEffect e = true ∧ isStatusWrite e = false
               ∧ isRelease e = false)
         (effects (startStop c ovm vm)).
Proof.
  rewrite startStop_cases. cbv zeta. unfold effects.
  destruct (KeyFunc c ovm); [|constructor].
  destruct (Running (OVM_Spec ovm)), vm; simpl; [constructor| | |constructor].
  - destruct (Template (OVM_Spec ovm)); [destruct (Create c _ _)|];
      simpl; by repeat constructor.
  - destruct (Delete c _ _); simpl; by repeat constructor.
Qed.

Lemma updateStatus_effect_kinds c ovm vm createErr :
  Forall (λ e, isReconcileEffect e = true ∧ isScaling e = false
               ∧ isRelease e = false)
         (effects (updateStatus c ovm vm createErr)).
Proof.
  rewrite updateStatus_cases. cbv zeta. unfold effects.
  destruct (_ && _); [constructor|].
  destruct (Update c _ _); simpl; [|by repeat constructor].
  destruct (Bool.eqb _ _); [by repeat constructor|].
  destruct (Running _); by repeat constructor.
Qed.

Lemma releaseAll_cases c ovm vms :
  releaseAll c ovm vms =
  (Returns (omap (Release c ovm) vms), ReleaseVirtualMachine ovm <$> vms).
Proof.
  induction vms as [|vm vms IH]; [done|].
  cbn [releaseAll]. rewrite IH.
  destruct (Release c ovm vm) eqn:Hrel; simpl; rewrite ?Hrel, ?app_nil_r; done.
Qed.

Lemma orphan_cases c ovm vms :
  orphan c ovm vms =
  (Returns (head (omap (Release c ovm) vms)), ReleaseVirtualMachine ovm <$> vms).
Proof. unfold orphan. rewrite releaseAll_cases. simpl. by rewrite app_nil_r. Qed.

(** X9.  [orphan] asks for the release of every child it is given, once
    each, and of nothing else; it returns nil exactly when every release
    succeeds, and otherwise the error of one of the releases. *)
Theorem orphan_releases_every_child c ovm vms :
  effects (orphan c ovm vms) ≡ₚ ReleaseVirtualMachine ovm <$> vms ∧
  (outcome (orphan c ovm vms) = Returns None ↔
   Forall (λ vm, Release c ovm vm = None) vms) ∧
  (∀ err, outcome (orphan c ovm vms) = Returns (Some err) →
          ∃ vm, vm ∈ vms ∧ Release c ovm vm = Some err).
Proof.
  rewrite orphan_cases. unfold effects, outcome. simpl.
  split; [done|]. split.
  - split.
    + intros Hnone. injection Hnone as Hhead.
      apply Forall_forall. intros vm Hin.
      destruct (Release c ovm vm) as [err|] eqn:Hrel; [|done].
      assert (err ∈ omap (Release c ovm) vms)
        by (apply list_elem_of_omap; eauto).
      destruct (omap (Release c ovm) vms); [by apply elem_of_nil in H | done].
    + intros Hall. f_equal.
      induction Hall as [|vm rest Hvm _ IH]; [done|].
      simpl. by rewrite Hvm.
  - intros err Hsome. injection Hsome as Hhead.
    assert (Hin : err ∈ omap (Release c ovm) vms).
    { destruct (omap (Release c ovm) vms); simplify_eq/=. left. }
    apply list_elem_of_omap in Hin as (vm & Hin & Hrel). eauto.
Qed.

(** Every reconcile goes one of six ways. *)
Lemma execute_path c key : ExecutePath c key (execute c key).
Proof.
  destruct (GetByKey c key) as [[OVM|]|err] eqn:Hget.
  - destruct (invalidSpec OVM) eqn:Hspec.
    { assert (Hinv : invalidParent c OVM).
      { unfold invalidSpec in Hspec.
        destruct (Template (OVM_Spec OVM)) as [template|] eqn:Htpl;
          [|by apply TemplateMissing].
        destruct (Selector (OVM_Spec OVM)) as [sel|] eqn:Hsel;
          [|by apply SelectorMissing].
        apply Nat.eqb_eq, map_size_empty_iff in Hspec.
        by apply (TemplateLabelsEmpty c OVM template). }
      replace (execute c key) with (Returns (None : option error), @nil Effect).
      - by apply (ParentInvalid c key OVM).
      - unfold execute. by rewrite Hget, Hspec. }
    pose proof Hspec as Hspec'. unfold invalidSpec in Hspec'.
    destruct (Template (OVM_Spec OVM)) as [template|] eqn:Htpl; [|done].
    destruct (Selector (OVM_Spec OVM)) as [sel|] eqn:Hsel; [|done].
    apply Nat.eqb_neq in Hspec'.
    assert (Hlabels : Labels (Tpl_ObjectMeta template) ≠ ∅).
    { intros Hempty. apply Hspec'. rewrite Hempty. apply map_size_empty. }
    destruct (LabelSelectorAsSelector c sel) as [selector|perr] eqn:Hparse.
    2:{ replace (execute c key) with (Returns (None : option error), @nil Effect).
        - apply (ParentInvalid c key OVM); [done|].
          by apply (SelectorUnparsable c OVM sel perr).
        - unfold execute. rewrite Hget, Hspec, Hsel. simpl. by rewrite Hparse. }
    destruct (Matches selector (Labels (Tpl_ObjectMeta template))) eqn:Hmatch.
    2:{ replace (execute c key) with (Returns (None : option error), @nil Effect).
        - apply (ParentInvalid c key OVM); [done|].
          by apply (SelectorMismatch c OVM template sel selector).
        - unfold execute. rewrite Hget, Hspec, Hsel. simpl.
          rewrite Hparse, Htpl. simpl. by rewrite Hmatch. }
    assert (Hvalid : validParent c OVM template selector).
    { split; [done|]. split; [done|]. by exists sel. }
    destruct (ByIndex c (Namespace (OVM_ObjectMeta OVM))) as [listed|lerr] eqn:Hlist.
    2:{ rewrite (execute_list_error c key OVM template selector lerr) by done.
        by apply (ListFailed c key OVM template selector). }
    destruct (Claim c OVM selector (filterActiveVMs c listed))
      as [claimed|cerr] eqn:Hclaim.
    + rewrite (execute_claimed c key OVM template selector listed claimed) by done.
      by apply (Claimed c key OVM template selector listed claimed).
    + rewrite (execute_claim_error c key OVM template selector listed cerr) by done.
      by apply (ClaimFailed c key OVM template selector listed).
  - replace (execute c key)
      with (Returns (None : option error), [DeleteExpectations key]).
    + by apply ParentMissing.
    + unfold execute. by rewrite Hget.
  - rewrite (execute_lookup_error c key err Hget). by apply (LookupFailed c key err).
Qed.

(** Effects and outcome of a sequence. *)
Lemma effects_bind {A B} (m : Go A) (f : A → Go B) :
  effects (bind m f) =
  effects m ++ match outcome m with
               | Returns a => effects (f a)
               | Panics => []
               end.
Proof.
  destruct m as [[a|] effs]; unfold effects, outcome; simpl.
  - by destruct (f a).
  - by rewrite app_nil_r.
Qed.

Lemma outcome_bind {A B} (m : Go A) (f : A → Go B) :
  outcome (bind m f) =
  match outcome m with
  | Returns a => outcome (f a)
  | Panics => Panics
  end.
Proof.
  destruct m as [[a|] effs]; unfold outcome; simpl; [|done].
  by destruct (f a).
Qed.

Lemma Forall_effects_bind {A B} (P : Effect → Prop) (m : Go A) (f : A → Go B) :
  Forall P (effects m) → (∀ a, Forall P (effects (f a))) →
  Forall P (effects (bind m f)).
Proof.
  intros Hm Hf. rewrite effects_bind. apply Forall_app. split; [done|].
  destruct (outcome m); [apply Hf | constructor].
Qed.

Lemma startStop_returns c ovm vm template :
  Template (OVM_Spec ovm) = Some template →
  ∃ err, outcome (startStop c ovm vm) = Returns err.
Proof.
  intros Htpl. rewrite startStop_cases. cbv zeta. rewrite Htpl.
  destruct (KeyFunc c ovm); [|by eexists].
  destruct (Running (OVM_Spec ovm)), vm; simpl; try (by eexists).
  - destruct (Create c _ _); by eexists.
  - destruct (Delete c _ _); by eexists.
Qed.

Lemma updateStatus_returns c ovm vm createErr :
  ∃ err, outcome (updateStatus c ovm vm createErr) = Returns err.
Proof.
  rewrite updateStatus_cases. cbv zeta.
  destruct (_ && _); [by eexists|].
  destruct (Update c _ _); by eexists.
Qed.

Lemma afterClaim_returns c key OVM claimed template :
  Template (OVM_Spec OVM) = Some template →
  ∃ err, outcome (afterClaim c key OVM claimed) = Returns err.
Proof.
  intros Htpl. unfold afterClaim.
  destruct (1 <? length claimed)%nat; [by eexists|].
  rewrite outcome_bind.
  set (vm := if (length claimed =? 1)%nat then head claimed else None).
  assert (Hscale : ∃ createErr,
    outcome (if SatisfiedExpectations c key
                && isNil (DeletionTimestamp (OVM_ObjectMeta OVM))
             then startStop c OVM vm else ret None) = Returns createErr).
  { destruct (_ && _); [by apply (startStop_returns c OVM vm template) | by eexists]. }
  destruct Hscale as [createErr ->].
  destruct (_ && _).
  - rewrite orphan_cases. by eexists.
  - apply updateStatus_returns.
Qed.

Lemma execute_not_Panics c key : outcome (execute c key) ≠ Panics.
Proof.
  assert (∃ err, outcome (execute c key) = Returns err) as [err ->]; [|done].
  destruct (execute_path c key) as
    [err Hget|Hget|OVM Hget Hinv|OVM template selector err Hget Hvalid Hlist
    |OVM template selector listed err Hget Hvalid Hlist Hclaim
    |OVM template selector listed claimed Hget Hvalid Hlist Hclaim];
    try (by eexists).
  rewrite outcome_bind. simpl.
  destruct Hvalid as [Htpl _].
  by apply (afterClaim_returns c key OVM claimed template).
Qed.

(** X10.  [execute] never panics: the nil dereferences of [startStop] are
    out of reach behind the validation of the parent, so every reconcile
    returns nil or an error, and [Execute] returns as well. *)
Theorem execute_never_panics c key :
  (∃ err, outcome (execute c key) = Returns err) ∧
  (∃ more, outcome (Execute c) = Returns more).
Proof.
  split.
  - pose proof (execute_not_Panics c key) as Hreturns.
    destruct (outcome (execute c key)) as [err|]; [by exists err | done].
  - rewrite Execute_cases. destruct (Queue_Get c) as [queued quit].
    destruct quit; [by eexists|].
    pose proof (execute_not_Panics c queued) as Hreturns.
    destruct (execute c queued) as [[[err|]|] effs]; [by eexists..|done].
Qed.

(** [startStop] alone does panic: a running parent without template and
    without child, after the expectation is recorded. *)
Lemma startStop_panics_without_template c ovm ovmKey :
  KeyFunc c ovm = Ok ovmKey →
  Running (OVM_Spec ovm) = true →
  Template (OVM_Spec ovm) = None →
  startStop c ovm None = (Panics, [ExpectCreations ovmKey 1]).
Proof.
  intros Hkey Hrun Htpl. rewrite startStop_cases. cbv zeta.
  by rewrite Hkey, Hrun, Htpl.
Qed.

(** X11.  [Execute] on a key it was handed: it returns true; its log is
    the reconcile's log followed by [Forget] and [Done] when the reconcile
    returned nil, and by [AddRateLimited] and [Done] when it returned an
    error. *)
Theorem Execute_settles_the_key c key :
  Queue_Get c = (key, false) →
  outcome (Execute c) = Returns true ∧
  ((outcome (execute c key) = Returns None ∧
    effects (Execute c)
    = effects (execute c key) ++ [QueueForget key; QueueDone key]) ∨
   (∃ err, outcome (execute c key) = Returns (Some err) ∧
      effects (Execute c)
      = effects (execute c key) ++ [QueueAddRateLimited key; QueueDone key])).
Proof.
  intros Hqueue. rewrite Execute_cases, Hqueue.
  pose proof (execute_not_Panics c key) as Hreturns.
  destruct (execute c key) as [[[err|]|] effs]; [| |done];
    unfold outcome, effects; simpl; (split; [done|]).
  - right. by exists err.
  - by left.
Qed.

Lemma afterClaim_effect_kinds c key OVM claimed :
  Forall (λ e, isReconcileEffect e = true) (effects (afterClaim c key OVM claimed)).
Proof.
  unfold afterClaim. destruct (1 <? length claimed)%nat; [constructor|].
  apply Forall_effects_bind.
  - destruct (_ && _); [|constructor].
    eapply Forall_impl; [apply startStop_effect_kinds|]. by intros e (? & _).
  - intros createErr. destruct (_ && _).
    + rewrite orphan_cases. unfold effects. simpl.
      apply Forall_fmap, Forall_forall. by intros vm _.
    + eapply Forall_impl; [apply updateStatus_effect_kinds|]. by intros e (? & _).
Qed.

(** X12.  [execute] drops the expectations of a key exactly when the
    store holds no parent under it, and it never touches the queue. *)
Theorem expectations_dropped_for_missing_parent_only c key :
  (∀ dropped,
     DeleteExpectations dropped ∈ effects (execute c key) ↔
     GetByKey c key = Ok None ∧ dropped = key) ∧
  Forall (λ e, match e with
               | QueueAddRateLimited _ | QueueForget _ | QueueDone _ => False
               | _ => True
               end) (effects (execute c key)).
Proof.
  destruct (execute_path c key) as
    [err Hget|Hget|OVM Hget Hinv|OVM template selector err Hget Hvalid Hlist
    |OVM template selector listed err Hget Hvalid Hlist Hclaim
    |OVM template selector listed claimed Hget Hvalid Hlist Hclaim];
    unfold effects; simpl.
  - split; [|constructor]. intros dropped. rewrite Hget.
    split; [by intros ?%elem_of_nil | by intros [? _]].
  - split; [|by repeat constructor]. intros dropped. split.
    + intros Hin. in_log Hin. done.
    + intros [_ ->]. left.
  - split; [|constructor]. intros dropped. rewrite Hget.
    split; [by intros ?%elem_of_nil | by intros [? _]].
  - split; [|constructor]. intros dropped. rewrite Hget.
    split; [by intros ?%elem_of_nil | by intros [? _]].
  - split; [|by repeat constructor]. intros dropped. rewrite Hget. split.
    + intros Hin. in_log Hin.
    + by intros [? _].
  - pose proof (afterClaim_effect_kinds c key OVM claimed) as Hkinds.
    destruct (afterClaim c key OVM claimed) as [out effs].
    unfold effects in Hkinds. simpl in *. rewrite Forall_forall in Hkinds.
    split.
    + intros dropped. rewrite Hget. split; [|by intros [? _]].
      intros [Heq|Hin]%elem_of_cons; [done|]. by apply Hkinds in Hin.
    + constructor; [done|]. apply Forall_forall. intros e He.
      apply Hkinds in He. by destruct e.
Qed.

(** X13.  While expectations are outstanding, or while the parent is being
    deleted, a reconcile creates and deletes no child and records no
    expectation. *)
Theorem no_scaling_while_waiting_or_deleting c key :
  SatisfiedExpectations c key = false ∨
  (∃ OVM, GetByKey c key = Ok (Some OVM) ∧
          isNil (DeletionTimestamp (OVM_ObjectMeta OVM)) = false) →
  Forall (λ e, isScaling e = false) (effects (execute c key)).
Proof.
  intros Hwait.
  destruct (execute_path c key) as
    [err Hget|Hget|OVM Hget Hinv|OVM template selector err Hget Hvalid Hlist
    |OVM template selector listed err Hget Hvalid Hlist Hclaim
    |OVM template selector listed claimed Hget Hvalid Hlist Hclaim];
    try (unfold effects; simpl; by repeat constructor).
  apply Forall_effects_bind; [unfold effects; simpl; by repeat constructor|].
  intros _. unfold afterClaim.
  destruct (1 <? length claimed)%nat; [constructor|].
  assert (SatisfiedExpectations c key
          && isNil (DeletionTimestamp (OVM_ObjectMeta OVM)) = false) as ->.
  { destruct Hwait as [->|(OVM' & Hget' & Hdel)]; [done|].
    rewrite Hget in Hget'. injection Hget' as <-. rewrite Hdel.
    apply andb_false_r. }
  rewrite bind_ret_l. destruct (_ && _).
  - rewrite orphan_cases. unfold effects. simpl.
    apply Forall_fmap, Forall_forall. by intros vm _.
  - eapply Forall_impl; [apply updateStatus_effect_kinds|]. by intros e (_ & ? & _).
Qed.

(** X14.  A failed create or delete does not fail the reconcile: for a
    valid parent that is not being deleted, once the children are listed
    and claimed, the reconcile returns what the status update returns, and
    nil whenever the API server accepts the status. *)
Theorem scaling_error_is_not_returned
    c key OVM template selector listed claimed :
  GetByKey c key = Ok (Some OVM) →
  validParent c OVM template selector →
  ByIndex c (Namespace (OVM_ObjectMeta OVM)) = Ok listed →
  Claim c OVM selector (filterActiveVMs c listed) = Ok claimed →
  DeletionTimestamp (OVM_ObjectMeta OVM) = None →
  (∀ namespace ovm, ∃ reply, Update c namespace ovm = Ok reply) →
  outcome (execute c key) = Returns None.
Proof.
  intros Hget Hvalid Hlist Hclaim Hdel Hupdate.
  rewrite (execute_claimed c key OVM template selector listed claimed) by done.
  rewrite outcome_bind. simpl.
  destruct (1 <? length claimed)%nat; [done|].
  rewrite outcome_bind. rewrite Hdel. simpl.
  set (vm := if (length claimed =? 1)%nat then head claimed else None).
  destruct Hvalid as [Htpl _].
  assert (Hscale : ∃ createErr,
    outcome (if SatisfiedExpectations c key && true
             then startStop c OVM vm else ret None) = Returns createErr).
  { destruct (_ && _); [by apply (startStop_returns c OVM vm template) | by eexists]. }
  destruct Hscale as [createErr ->].
  rewrite updateStatus_cases. cbv zeta.
  destruct (_ && _); [done|].
  destruct (Hupdate (Namespace (OVM_ObjectMeta (synthesize c (DeepCopy OVM) vm createErr)))
                    (synthesize c (DeepCopy OVM) vm createErr)) as [reply ->].
  done.
Qed.

(** X15.  A parent that is being deleted under the orphan finalizer: the
    reconcile writes no status and scales nothing; after adoption it
    releases the claimed child when there is at most one, and releases
    nothing when there are more. *)
Theorem orphaning_parent_releases c key OVM template selector listed claimed :
  GetByKey c key = Ok (Some OVM) →
  validParent c OVM template selector →
  ByIndex c (Namespace (OVM_ObjectMeta OVM)) = Ok listed →
  Claim c OVM selector (filterActiveVMs c listed) = Ok claimed →
  isNil (DeletionTimestamp (OVM_ObjectMeta OVM)) = false →
  HasFinalizer OVM FinalizerOrphanDependents = true →
  effects (execute c key)
  = ClaimVirtualMachines OVM (filterActiveVMs c listed) ::
    (if (1 <? length claimed)%nat then []
     else ReleaseVirtualMachine OVM <$> claimed) ∧
  outcome (execute c key)
  = Returns (if (1 <? length claimed)%nat then None
             else head (omap (Release c OVM) claimed)).
Proof.
  intros Hget Hvalid Hlist Hclaim Hdel Hfin.
  rewrite (execute_claimed c key OVM template selector listed claimed) by done.
  rewrite effects_bind, outcome_bind. simpl.
  destruct (1 <? length claimed)%nat; [done|].
  rewrite Hdel, Hfin, andb_false_r. cbn [negb andb].
  rewrite bind_ret_l, orphan_cases. done.
Qed.

End ReconcileFacts.

(** ** Properties of the event handlers *)
Module HandlersFacts.
Import Watch WatchSpec WatchFacts WatchHandlers MoreSpec.

Local Arguments VirtualMachineKey : simpl never.

Lemma resolveControllerRef_iff c namespace controllerRef ovm :
  resolveControllerRef c namespace controllerRef = Some ovm ↔
  RefKind controllerRef = Kind (OfflineVirtualMachineGroupVersionKind c) ∧
  GetByKey c (namespace +:+ "/" +:+ RefName controllerRef) = Ok (Some ovm) ∧
  UID (OVM_ObjectMeta ovm) = RefUID controllerRef.
Proof.
  unfold resolveControllerRef.
  destruct (decide (RefKind controllerRef =
                    Kind (OfflineVirtualMachineGroupVersionKind c))) as [Hkind|Hkind].
  - rewrite bool_decide_eq_false_2 by (by intros ?).
    destruct (GetByKey c _) as [[found|]|err];
      [|split; [done | by intros (_ & ? & _)]..].
    destruct (decide (UID (OVM_ObjectMeta found) = RefUID controllerRef))
      as [Huid|Huid].
    + rewrite bool_decide_eq_false_2 by (by intros ?). split.
      * intros [= <-]. done.
      * intros (_ & [= <-] & _). done.
    + rewrite bool_decide_eq_true_2 by done. split; [done|].
      intros (_ & [= <-] & ?). done.
  - rewrite bool_decide_eq_true_2 by done. split; [done | by intros (? & _)].
Qed.

(** X16.  [resolveControllerRef] finds a parent exactly when the reference
    is of the parent kind, the store holds a parent under the namespace
    and the referenced name, and that parent has the referenced UID; a
    parent that took over the name with another UID is not found. *)
Theorem resolveControllerRef_spec c namespace controllerRef ovm :
  (resolveControllerRef c namespace controllerRef = Some ovm ↔
   RefKind controllerRef = Kind (OfflineVirtualMachineGroupVersionKind c) ∧
   GetByKey c (namespace +:+ "/" +:+ RefName controllerRef) = Ok (Some ovm) ∧
   UID (OVM_ObjectMeta ovm) = RefUID controllerRef) ∧
  (GetByKey c (namespace +:+ "/" +:+ RefName controllerRef) = Ok (Some ovm) →
   UID (OVM_ObjectMeta ovm) ≠ RefUID controllerRef →
   resolveControllerRef c namespace controllerRef = None).
Proof.
  split; [apply resolveControllerRef_iff|].
  intros Hget Huid.
  destruct (resolveControllerRef c namespace controllerRef) as [found|] eqn:Hres;
    [|done].
  apply resolveControllerRef_iff in Hres as (_ & Hfound & Hsame).
  rewrite Hget in Hfound. injection Hfound as <-. done.
Qed.

Lemma listControllerFromNamespace_ByIndex d namespace :
  listControllerFromNamespace d namespace = OVM_ByIndex d namespace.
Proof.
  unfold listControllerFromNamespace.
  destruct (OVM_ByIndex d namespace) as [objs|]; [|done].
  f_equal.
  assert (H : ∀ acc, foldl (λ ovms obj, ovms ++ [obj]) acc objs = acc ++ objs).
  { induction objs as [|obj objs IH]; intros acc; simpl.
    - by rewrite app_nil_r.
    - by rewrite IH, <-app_assoc. }
  apply H.
Qed.

Lemma foldl_appendMatching c d vm acc controllers :
  foldl (appendMatching c d vm) acc controllers =
  acc ++ filter (λ ovm, selects c d vm ovm = true) controllers.
Proof.
  revert acc. induction controllers as [|ovm controllers IH]; intros acc; simpl.
  - by rewrite app_nil_r.
  - rewrite IH, filter_cons. unfold appendMatching, selects.
    destruct (selectorOf c d ovm) as [selector|]; simpl.
    + destruct (Matches selector _); simpl; [by rewrite <-app_assoc | done].
    + done.
Qed.

(** X17.  [getMatchingControllers] returns the parents of the VM's
    namespace whose selector parses and matches the VM's labels, in the
    order of the cache, and none when the cache cannot be listed. *)
Theorem getMatchingControllers_spec c d vm :
  getMatchingControllers c d vm =
  match OVM_ByIndex d (Namespace (VM_ObjectMeta vm)) with
  | Ok controllers => filter (λ ovm, selects c d vm ovm = true) controllers
  | Err _ => []
  end.
Proof.
  unfold getMatchingControllers. rewrite listControllerFromNamespace_ByIndex.
  destruct (OVM_ByIndex d _); [|done]. apply foldl_appendMatching.
Qed.

Lemma enqueueAll_bind c ovms : enqueueAll c ovms = ovms ≫= enqueueOvm c.
Proof.
  unfold enqueueAll.
  assert (H : ∀ acc, foldl (λ log ovm, log ++ enqueueOvm c ovm) acc ovms
                     = acc ++ (ovms ≫= enqueueOvm c)).
  { induction ovms as [|ovm ovms IH]; intros acc; simpl.
    - by rewrite app_nil_r.
    - rewrite IH. by rewrite <-app_assoc. }
  apply H.
Qed.

Lemma enqueueOvm_cases c ovm :
  ∃ key, enqueueOvm c ovm = [QueueAdd key].
Proof. unfold enqueueOvm. destruct (KeyFunc c ovm); by eexists. Qed.

Lemma enqueueOvm_key c ovm ovmKey :
  KeyFunc c ovm = Ok ovmKey → enqueueOvm c ovm = [QueueAdd ovmKey].
Proof. unfold enqueueOvm. by intros ->. Qed.

(** The matching parents, when there are any. *)
Lemma enqueue_matching c d vm :
  (if (length (getMatchingControllers c d vm) =? 0)%nat then []
   else enqueueAll c (getMatchingControllers c d vm))
  = getMatchingControllers c d vm ≫= enqueueOvm c.
Proof.
  rewrite enqueueAll_bind. by destruct (getMatchingControllers c d vm).
Qed.

(** What [deleteResolved] does, case by case. *)
Lemma deleteResolved_cases c d vm :
  deleteResolved c d vm = [] ∨
  ∃ controllerRef ovm ovmKey,
    GetControllerOf d vm = Some controllerRef ∧
    resolveControllerRef c (Namespace (VM_ObjectMeta vm)) controllerRef = Some ovm ∧
    KeyFunc c ovm = Ok ovmKey ∧
    deleteResolved c d vm
    = [ObservedDeletion ovmKey (VirtualMachineKey vm); QueueAdd ovmKey].
Proof.
  unfold deleteResolved.
  destruct (GetControllerOf d vm) as [controllerRef|]; [|by left].
  destruct (resolveControllerRef c _ controllerRef) as [ovm|] eqn:Hres; [|by left].
  destruct (KeyFunc c ovm) as [ovmKey|] eqn:Hkey; [|by left].
  right. exists controllerRef, ovm, ovmKey. repeat split; [done..|].
  by rewrite (enqueueOvm_key c ovm ovmKey).
Qed.


Lemma observationsEnqueued_app log1 log2 :
  observationsEnqueued log1 = true → observationsEnqueued log2 = true →
  observationsEnqueued (log1 ++ log2) = true.
Proof.
  intros H1 H2. induction log1 as [|n log1 IH]; [done|].
  destruct n as [key|ovmKey|ovmKey vmKey]; simpl in *.
  - by apply IH.
  - destruct log1 as [|[key| |] rest]; try done.
    apply andb_true_iff in H1 as [Hkey Hrest]. simpl. rewrite Hkey. simpl.
    by apply IH.
  - destruct log1 as [|[key| |] rest]; try done.
    apply andb_true_iff in H1 as [Hkey Hrest]. simpl. rewrite Hkey. simpl.
    by apply IH.
Qed.

Lemma observationsEnqueued_bind c ovms :
  observationsEnqueued (ovms ≫= enqueueOvm c) = true.
Proof.
  induction ovms as [|ovm ovms IH]; [done|].
  change ((ovm :: ovms) ≫= enqueueOvm c)
    with (enqueueOvm c ovm ++ (ovms ≫= enqueueOvm c)).
  by destruct (enqueueOvm_cases c ovm) as [key ->].
Qed.

Lemma observationsEnqueued_delete c d obj :
  observationsEnqueued (deleteVirtualMachine c d obj) = true.
Proof.
  assert (Hvm : ∀ vm, observationsEnqueued (deleteResolved c d vm) = true).
  { intros vm. destruct (deleteResolved_cases c d vm)
      as [->|(ref & ovm & ovmKey & _ & _ & _ & ->)]; [done|].
    simpl. by rewrite bool_decide_eq_true_2. }
  destruct obj as [vm|key [vm|?|]|]; simpl; by try apply Hvm.
Qed.

Lemma observationsEnqueued_resolved c controller namespace :
  observationsEnqueued
    (match resolveControllerRef c namespace controller with
     | Some rs => enqueueOvm c rs
     | None => []
     end) = true.
Proof.
  destruct (resolveControllerRef c namespace controller) as [rs|]; [|done].
  by destruct (enqueueOvm_cases c rs) as [key ->].
Qed.

(** What [addVirtualMachine] does, case by case. *)
Lemma addVirtualMachine_cases c d vm :
  addVirtualMachine c d vm =
  if isNil (DeletionTimestamp (VM_ObjectMeta vm)) then
    match GetControllerOf d vm with
    | Some controllerRef =>
      match resolveControllerRef c (Namespace (VM_ObjectMeta vm)) controllerRef with
      | Some ovm =>
        match KeyFunc c ovm with
        | Ok ovmKey => [ObservedCreation ovmKey; QueueAdd ovmKey]
        | Err _ => []
        end
      | None => []
      end
    | None => getMatchingControllers c d vm ≫= enqueueOvm c
    end
  else deleteResolved c d vm.
Proof.
  unfold addVirtualMachine.
  destruct (isNil (DeletionTimestamp (VM_ObjectMeta vm))); simpl; [|done].
  destruct (GetControllerOf d vm) as [controllerRef|]; [|apply enqueue_matching].
  destruct (resolveControllerRef c _ controllerRef) as [ovm|]; [|done].
  destruct (KeyFunc c ovm) as [ovmKey|] eqn:Hkey; [|done].
  by rewrite (enqueueOvm_key c ovm ovmKey).
Qed.

(** What [updateVirtualMachine] does, case by case. *)
Lemma updateVirtualMachine_cases c d oldVM curVM :
  updateVirtualMachine c d oldVM curVM =
  if bool_decide (ResourceVersion (VM_ObjectMeta curVM) =
                  ResourceVersion (VM_ObjectMeta oldVM))
  then []
  else
    let labelChanged :=
      negb (LabelsDeepEqual d (Labels (VM_ObjectMeta curVM))
                              (Labels (VM_ObjectMeta oldVM))) in
    if isNil (DeletionTimestamp (VM_ObjectMeta curVM)) then
      let controllerRefChanged :=
        negb (bool_decide (GetControllerOf d curVM = GetControllerOf d oldVM)) in
      (match GetControllerOf d oldVM with
       | Some oldRef =>
         if controllerRefChanged then
           match resolveControllerRef c (Namespace (VM_ObjectMeta oldVM)) oldRef with
           | Some rs => enqueueOvm c rs
           | None => []
           end
         else []
       | None => []
       end) ++
      match GetControllerOf d curVM with
      | Some curRef =>
        match resolveControllerRef c (Namespace (VM_ObjectMeta curVM)) curRef with
        | Some rs => enqueueOvm c rs
        | None => []
        end
      | None =>
        if labelChanged || controllerRefChanged
        then getMatchingControllers c d curVM ≫= enqueueOvm c
        else []
      end
    else
      deleteResolved c d curVM ++
      (if labelChanged then deleteResolved c d oldVM else []).
Proof.
  unfold updateVirtualMachine. cbv zeta.
  destruct (bool_decide (ResourceVersion _ = _)); [done|].
  destruct (isNil (DeletionTimestamp (VM_ObjectMeta curVM))); simpl; [|done].
  f_equal. destruct (GetControllerOf d curVM) as [curRef|].
  - by destruct (resolveControllerRef c _ curRef).
  - destruct (_ || _); [apply enqueue_matching | done].
Qed.

(** X19.  Whenever a VM handler observes a creation or a deletion for a
    parent, its next step enqueues that parent. *)
Theorem observations_are_enqueued c d :
  (∀ vm, observationsEnqueued (addVirtualMachine c d vm) = true) ∧
  (∀ obj, observationsEnqueued (deleteVirtualMachine c d obj) = true) ∧
  (∀ oldVM curVM,
     observationsEnqueued (updateVirtualMachine c d oldVM curVM) = true).
Proof.
  assert (Hdel : ∀ vm, observationsEnqueued (deleteResolved c d vm) = true)
    by (intros vm; apply (observationsEnqueued_delete c d (VMObject vm))).
  split; [|split].
  - intros vm. rewrite addVirtualMachine_cases.
    destruct (isNil _); [|apply Hdel].
    destruct (GetControllerOf d vm) as [ref|];
      [|apply observationsEnqueued_bind].
    destruct (resolveControllerRef c _ ref) as [ovm|]; [|done].
    destruct (KeyFunc c ovm); [|done]. simpl. by rewrite bool_decide_eq_true_2.
  - apply observationsEnqueued_delete.
  - intros oldVM curVM. rewrite updateVirtualMachine_cases. cbv zeta.
    destruct (bool_decide _); [done|].
    destruct (isNil _).
    + apply observationsEnqueued_app.
      * destruct (GetControllerOf d oldVM) as [oldRef|]; [|done].
        destruct (negb _); [apply observationsEnqueued_resolved | done].
      * destruct (GetControllerOf d curVM) as [curRef|].
        -- apply observationsEnqueued_resolved.
        -- destruct (_ || _); [apply observationsEnqueued_bind | done].
    + apply observationsEnqueued_app; [apply Hdel|].
      destruct (negb _); [apply Hdel | done].
Qed.

Lemma elem_of_enqueueOvm c ovm n :
  n ∈ enqueueOvm c ovm → ∃ key, n = QueueAdd key.
Proof.
  destruct (enqueueOvm_cases c ovm) as [key ->].
  intros ->%list_elem_of_singleton. by exists key.
Qed.

Lemma elem_of_enqueued c ovms n :
  n ∈ ovms ≫= enqueueOvm c →
  ∃ ovm key, ovm ∈ ovms ∧ n = QueueAdd key ∧ enqueueOvm c ovm = [QueueAdd key].
Proof.
  intros (ovm & Hn & Hovm)%list_elem_of_bind.
  destruct (enqueueOvm_cases c ovm) as [key Hkey]. rewrite Hkey in Hn.
  apply list_elem_of_singleton in Hn. by exists ovm, key.
Qed.

Lemma elem_of_deleteResolved c d vm n :
  n ∈ deleteResolved c d vm →
  ∃ controllerRef ovm ovmKey,
    GetControllerOf d vm = Some controllerRef ∧
    resolveControllerRef c (Namespace (VM_ObjectMeta vm)) controllerRef = Some ovm ∧
    KeyFunc c ovm = Ok ovmKey ∧
    (n = ObservedDeletion ovmKey (VirtualMachineKey vm) ∨ n = QueueAdd ovmKey).
Proof.
  destruct (deleteResolved_cases c d vm)
    as [->|(controllerRef & ovm & ovmKey & Hget & Hres & Hkey & ->)].
  - by intros ?%elem_of_nil.
  - intros Hin. exists controllerRef, ovm, ovmKey. repeat split; [done..|].
    apply elem_of_cons in Hin as [->|Hin]; [by left|].
    apply list_elem_of_singleton in Hin as ->. by right.
Qed.

(** X20.  [addVirtualMachine] observes a creation exactly for a VM that is
    not being deleted and whose controller reference resolves to a parent
    with a key; an orphan, or a VM that shows up pending deletion, never
    counts as a creation. *)
Theorem creation_observed_for_live_controlled_vm c d vm ovmKey :
  ObservedCreation ovmKey ∈ addVirtualMachine c d vm ↔
  DeletionTimestamp (VM_ObjectMeta vm) = None ∧
  ∃ controllerRef ovm,
    GetControllerOf d vm = Some controllerRef ∧
    resolveControllerRef c (Namespace (VM_ObjectMeta vm)) controllerRef = Some ovm ∧
    KeyFunc c ovm = Ok ovmKey.
Proof.
  rewrite addVirtualMachine_cases. split.
  - destruct (DeletionTimestamp (VM_ObjectMeta vm)) as [t|]; simpl.
    { intros Hin. apply elem_of_deleteResolved in Hin
        as (? & ? & ? & _ & _ & _ & [?|?]); done. }
    destruct (GetControllerOf d vm) as [controllerRef|].
    + destruct (resolveControllerRef c _ controllerRef) as [ovm|] eqn:Hres;
        [|by intros ?%elem_of_nil].
      destruct (KeyFunc c ovm) as [key|] eqn:Hkey; [|by intros ?%elem_of_nil].
      intros Hin. apply elem_of_cons in Hin as [[= ->]|Hin].
      * split; [done|]. by exists controllerRef, ovm.
      * by apply list_elem_of_singleton in Hin.
    + intros Hin. by apply elem_of_enqueued in Hin as (? & ? & _ & ? & _).
  - intros (-> & controllerRef & ovm & -> & -> & ->). simpl. left.
Qed.

(** X21.  [updateVirtualMachine] ignores an update that keeps the resource
    version; it never observes a creation; and it observes a deletion only
    when the current VM is being deleted, for the current VM or for the
    old one. *)
Theorem update_observes_deletions_only c d oldVM curVM :
  (ResourceVersion (VM_ObjectMeta curVM) = ResourceVersion (VM_ObjectMeta oldVM) →
   updateVirtualMachine c d oldVM curVM = []) ∧
  (∀ ovmKey, ObservedCreation ovmKey ∉ updateVirtualMachine c d oldVM curVM) ∧
  (∀ ovmKey vmKey,
     ObservedDeletion ovmKey vmKey ∈ updateVirtualMachine c d oldVM curVM →
     DeletionTimestamp (VM_ObjectMeta curVM) ≠ None ∧
     (vmKey = VirtualMachineKey curVM ∨ vmKey = VirtualMachineKey oldVM)).
Proof.
  rewrite updateVirtualMachine_cases. cbv zeta.
  split; [by intros ->; rewrite bool_decide_eq_true_2|].
  assert (Hqueue : ∀ n,
    n ∈ (match GetControllerOf d oldVM with
         | Some oldRef =>
           if negb (bool_decide (GetControllerOf d curVM = GetControllerOf d oldVM))
           then match resolveControllerRef c (Namespace (VM_ObjectMeta oldVM)) oldRef with
                | Some rs => enqueueOvm c rs
                | None => []
                end
           else []
         | None => []
         end) ++
        match GetControllerOf d curVM with
        | Some curRef =>
          match resolveControllerRef c (Namespace (VM_ObjectMeta curVM)) curRef with
          | Some rs => enqueueOvm c rs
          | None => []
          end
        | None =>
          if negb (LabelsDeepEqual d (Labels (VM_ObjectMeta curVM))
                                     (Labels (VM_ObjectMeta oldVM)))
             || negb (bool_decide (GetControllerOf d curVM = GetControllerOf d oldVM))
          then getMatchingControllers c d curVM ≫= enqueueOvm c
          else []
        end →
    ∃ key, n = QueueAdd key).
  { intros n [Hin|Hin]%elem_of_app.
    - destruct (GetControllerOf d oldVM) as [oldRef|]; [|by apply elem_of_nil in Hin].
      destruct (negb _); [|by apply elem_of_nil in Hin].
      destruct (resolveControllerRef c _ oldRef); [|by apply elem_of_nil in Hin].
      by apply elem_of_enqueueOvm in Hin.
    - destruct (GetControllerOf d curVM) as [curRef|].
      + destruct (resolveControllerRef c _ curRef); [|by apply elem_of_nil in Hin].
        by apply elem_of_enqueueOvm in Hin.
      + destruct (_ || _); [|by apply elem_of_nil in Hin].
        apply elem_of_enqueued in Hin as (? & key & _ & -> & _). by exists key. }
  destruct (bool_decide (ResourceVersion _ = _)).
  { split; [by intros ? ?%elem_of_nil | by intros ?? ?%elem_of_nil]. }
  destruct (DeletionTimestamp (VM_ObjectMeta curVM)) as [t|]; simpl.
  - split.
    + intros ovmKey [Hin|Hin]%elem_of_app.
      * apply elem_of_deleteResolved in Hin
          as (? & ? & ? & _ & _ & _ & [?|?]); done.
      * destruct (negb (LabelsDeepEqual d _ _)); [|by apply elem_of_nil in Hin].
        apply elem_of_deleteResolved in Hin
          as (? & ? & ? & _ & _ & _ & [?|?]); done.
    + intros ovmKey vmKey Hin. split; [done|].
      apply elem_of_app in Hin as [Hin|Hin].
      * apply elem_of_deleteResolved in Hin
          as (? & ? & ? & _ & _ & _ & [[= _ ->]|?]); [by left | done].
      * destruct (negb (LabelsDeepEqual d _ _)); [|by apply elem_of_nil in Hin].
        apply elem_of_deleteResolved in Hin
          as (? & ? & ? & _ & _ & _ & [[= _ ->]|?]); [by right | done].
  - split.
    + intros ovmKey Hin. by apply Hqueue in Hin as [key ?].
    + intros ovmKey vmKey Hin. by apply Hqueue in Hin as [key ?].
Qed.







(** X23.  The expectation that [startStop] raises is the one the add
    handler lowers: when the created child comes back from the informer in
    the parent's namespace with the owner references it was sent with, and
    the store holds the parent under its namespace and name, the handler
    observes one creation under the key of the expectation and enqueues
    that key. *)
Theorem created_child_lowers_expectation c d ovm vm namespace child delivered :
  VMCreate namespace child ∈ effects (startStop c ovm vm) →
  GetByKey c (Namespace (OVM_ObjectMeta ovm) +:+ "/" +:+ Name (OVM_ObjectMeta ovm))
  = Ok (Some ovm) →
  OwnerReferences (VM_ObjectMeta delivered) = OwnerReferences (VM_ObjectMeta child) →
  Namespace (VM_ObjectMeta delivered) = Namespace (OVM_ObjectMeta ovm) →
  DeletionTimestamp (VM_ObjectMeta delivered) = None →
  GetControllerOf d delivered
  = firstController (OwnerReferences (VM_ObjectMeta delivered)) →
  ∃ ovmKey,
    ExpectCreations ovmKey 1 ∈ effects (startStop c ovm vm) ∧
    addVirtualMachine c d delivered = [ObservedCreation ovmKey; QueueAdd ovmKey].
Proof.
  intros Hin Hstore Hrefs Hns Hlive Hcontroller.
  assert (Hsent : ∃ ovmKey,
    KeyFunc c ovm = Ok ovmKey ∧
    ExpectCreations ovmKey 1 ∈ effects (startStop c ovm vm) ∧
    OwnerReferences (VM_ObjectMeta child) = [OvmOwnerRef c ovm]).
  { revert Hin. rewrite startStop_cases. cbv zeta. unfold effects.
    destruct (KeyFunc c ovm) as [ovmKey|]; [|by intros ?%elem_of_nil].
    destruct (Running (OVM_Spec ovm)), vm as [existing|]; simpl;
      try (by intros ?%elem_of_nil).
    - destruct (Template (OVM_Spec ovm)) as [template|].
      + destruct (Create c _ _); simpl; intros Hin; exists ovmKey;
          (split; [done|]); (split; [left|]);
          repeat (apply elem_of_cons in Hin as [Hin|Hin]; [by simplify_eq|]);
          by apply elem_of_nil in Hin.
      + intros Hin.
        repeat (apply elem_of_cons in Hin as [Hin|Hin]; [by simplify_eq|]).
        by apply elem_of_nil in Hin.
    - intros Hin. destruct (Delete c _ _); simpl in Hin;
        repeat (apply elem_of_cons in Hin as [Hin|Hin]; [by simplify_eq|]);
        by apply elem_of_nil in Hin. }
  destruct Hsent as (ovmKey & Hkey & Hexpect & Hsentrefs).
  exists ovmKey. split; [done|].
  rewrite addVirtualMachine_cases, Hlive, Hcontroller, Hrefs, Hsentrefs. simpl.
  assert (resolveControllerRef c (Namespace (VM_ObjectMeta delivered))
            (OvmOwnerRef c ovm) = Some ovm) as ->.
  { apply resolveControllerRef_iff. rewrite Hns. simpl. done. }
  by rewrite Hkey.
Qed.

End HandlersFacts.

(** ** More properties of the sidecar resolver *)
Module ResolverFacts.
Import Services ServicesSpec ServicesFacts.

Lemma collectBindings_skips_unbound config ifaces m :
  collectBindings config (filter (λ iface, Binding iface ≠ None) ifaces) m
  = collectBindings config ifaces m.
Proof.
  revert m. induction ifaces as [|iface ifaces IH]; intros m; [done|].
  rewrite filter_cons.
  destruct (decide (Binding iface ≠ None)) as [Hbound|Hunbound].
  - cbn [collectBindings]. destruct (Binding iface) as [b|]; [|done].
    destruct (bindingCatalog config) as [catalog|]; simpl; [|done].
    destruct (bool_decide (is_Some (catalog !! Name b))); simpl; [apply IH | done].
  - apply dec_stable in Hunbound. cbn [collectBindings]. rewrite Hunbound.
    apply IH.
Qed.

(** X24.  Interfaces that declare no binding do not count: dropping them
    from the VMI changes neither the sidecars nor the error. *)
Theorem unbound_interfaces_are_ignored rangeMap vmi config :
  NetBindingPluginSidecarList rangeMap
    {| Interfaces := filter (λ iface, Binding iface ≠ None) (Interfaces vmi) |}
    config
  = NetBindingPluginSidecarList rangeMap vmi config.
Proof.
  unfold NetBindingPluginSidecarList. simpl.
  by rewrite collectBindings_skips_unbound.
Qed.

Lemma resolver_ok_resolved rangeMap vmi config sidecars :
  NetBindingPluginSidecarList rangeMap vmi config = Ok sidecars →
  Forall (resolves config) (declaredNames (Interfaces vmi)).
Proof.
  intros Hres. apply firstUnknown_None.
  destruct (firstUnknown config (Interfaces vmi)) as [name|] eqn:Hfirst; [|done].
  by rewrite (resolver_of_unknown rangeMap vmi config name Hfirst) in Hres.
Qed.

Lemma resolver_ok_permutation rangeMap vmi config sidecars :
  RangeOrder rangeMap →
  NetBindingPluginSidecarList rangeMap vmi config = Ok sidecars →
  sidecars ≡ₚ specSidecars vmi config.
Proof.
  intros Hrange Hres.
  pose proof (resolver_ok_resolved rangeMap vmi config sidecars Hres) as Hall.
  rewrite resolver_of_resolved in Hres by done. injection Hres as <-.
  by rewrite (Hrange _), insertAll_to_list, sidecars_of_entries.
Qed.

(** X25.  Every sidecar in the result carries the non-empty image of the
    catalog entry of a binding that some interface of the VMI declares;
    catalog entries that no interface names contribute nothing. *)
Theorem sidecars_come_from_declared_bindings
    rangeMap vmi config sidecars sidecar :
  RangeOrder rangeMap →
  NetBindingPluginSidecarList rangeMap vmi config = Ok sidecars →
  sidecar ∈ sidecars →
  ∃ iface b catalog plugin,
    iface ∈ Interfaces vmi ∧ Binding iface = Some b ∧
    bindingCatalog config = Some catalog ∧
    catalog !! Name b = Some plugin ∧
    Image sidecar = SidecarImage plugin ∧ Image sidecar ≠ "".
Proof.
  intros Hrange Hres Hin.
  pose proof (resolver_ok_resolved rangeMap vmi config sidecars Hres) as Hall.
  rewrite (resolver_ok_permutation rangeMap vmi config sidecars Hrange Hres) in Hin.
  unfold specSidecars in Hin.
  apply list_elem_of_fmap in Hin as (name & -> & Hname).
  apply list_elem_of_filter in Hname as [Himage Hname].
  rewrite elem_of_remove_dups in Hname.
  rewrite Forall_forall in Hall. pose proof (Hall name Hname) as [plugin Hplugin].
  apply elem_of_declaredNames in Hname as (iface & b & Hiface & Hb & <-).
  unfold pluginOf in *. rewrite Hplugin in *. simpl in *.
  unfold catalogLookup in Hplugin.
  destruct (bindingCatalog config) as [catalog|] eqn:Hcat; [|done].
  simpl in Hplugin. by exists iface, b, catalog, plugin.
Qed.

Lemma length_remove_dups_le (names : list string) :
  (length (remove_dups names) ≤ length names)%nat.
Proof.
  induction names as [|n names IH]; simpl; [done|].
  destruct (decide_rel elem_of n names); simpl; lia.
Qed.

Lemma length_declaredNames ifaces :
  (length (declaredNames ifaces) ≤ length ifaces)%nat.
Proof.
  induction ifaces as [|iface ifaces IH]; [done|].
  destruct (Binding iface) as [b|] eqn:Hb.
  - rewrite (declaredNames_cons_Some iface b) by done. simpl. lia.
  - rewrite declaredNames_cons_None by done. simpl. lia.
Qed.

(** X26.  The resolver returns at most one sidecar per interface of the
    VMI. *)
Theorem sidecars_bounded_by_interfaces rangeMap vmi config sidecars :
  RangeOrder rangeMap →
  NetBindingPluginSidecarList rangeMap vmi config = Ok sidecars →
  (length sidecars ≤ length (Interfaces vmi))%nat.
Proof.
  intros Hrange Hres.
  rewrite (resolver_ok_permutation rangeMap vmi config sidecars Hrange Hres).
  unfold specSidecars. rewrite length_fmap.
  etrans; [apply length_filter|].
  etrans; [apply length_remove_dups_le|]. apply length_declaredNames.
Qed.

Lemma remove_dups_Permutation (l k : list string) :
  l ≡ₚ k → remove_dups l ≡ₚ remove_dups k.
Proof.
  intros Hperm. apply NoDup_Permutation; [apply NoDup_remove_dups..|].
  intros x. by rewrite !elem_of_remove_dups, Hperm.
Qed.

(** X27.  Neither the order of the interfaces nor the order in which Go
    visits the map matters: two VMIs with the same interfaces in another
    order both fail or both succeed, and when they succeed their sidecars
    are the same up to order. *)
Theorem resolver_ignores_order rangeMap1 rangeMap2 vmi1 vmi2 config :
  RangeOrder rangeMap1 → RangeOrder rangeMap2 →
  Interfaces vmi1 ≡ₚ Interfaces vmi2 →
  match NetBindingPluginSidecarList rangeMap1 vmi1 config,
        NetBindingPluginSidecarList rangeMap2 vmi2 config with
  | Ok sidecars1, Ok sidecars2 => sidecars1 ≡ₚ sidecars2
  | Err _, Err _ => True
  | _, _ => False
  end.
Proof.
  intros Hrange1 Hrange2 Hperm.
  assert (Hnames : declaredNames (Interfaces vmi1) ≡ₚ declaredNames (Interfaces vmi2))
    by (unfold declaredNames; by rewrite Hperm).
  destruct (firstUnknown config (Interfaces vmi1)) as [name1|] eqn:Hfirst1.
  - rewrite (resolver_of_unknown rangeMap1 vmi1 config name1 Hfirst1).
    destruct (firstUnknown config (Interfaces vmi2)) as [name2|] eqn:Hfirst2.
    + by rewrite (resolver_of_unknown rangeMap2 vmi2 config name2 Hfirst2).
    + apply firstUnknown_None in Hfirst2. rewrite <-Hnames in Hfirst2.
      apply firstUnknown_None in Hfirst2. congruence.
  - pose proof Hfirst1 as Hall1. apply firstUnknown_None in Hall1.
    pose proof Hall1 as Hall2. rewrite Hnames in Hall2.
    rewrite !resolver_of_resolved by done.
    rewrite (Hrange1 _), (Hrange2 _), !insertAll_to_list, !sidecars_of_entries.
    by rewrite (remove_dups_Permutation _ _ Hnames).
Qed.

End ResolverFacts.

(** ** The added properties on concrete inputs *)
Module MoreChecks.
Import Services ServicesSpec ServicesFacts ServicesChecks ResolverFacts.
Import Watch WatchSpec WatchFacts WatchChecks WatchHandlers MoreSpec.
Import StatusFacts ReconcileFacts HandlersFacts Scenarios MoreScenarios.

(** An orphan wakes the parent whose selector matches it. *)
Example orphan_added :
  addVirtualMachine clusterStart (deps [parentP true []; parentMismatch]) orphanVM
  = [QueueAdd "default/p"].
Proof. vm_compute. reflexivity. Qed.

(** A tombstone around a child of [parentP]. *)
Example tombstone_deleted :
  deleteVirtualMachine clusterStart (deps [])
    (DeletedFinalStateUnknown "default/c1" (VMObject child1))
  = [ObservedDeletion "default/p" "default/c1"; QueueAdd "default/p"].
Proof. vm_compute. reflexivity. Qed.

(** A child that starts to be deleted. *)
Example child_dying :
  updateVirtualMachine clusterStart (deps []) child1 dyingChild
  = [ObservedDeletion "default/p" "default/c1"; QueueAdd "default/p"].
Proof. vm_compute. reflexivity. Qed.

(** A foreign condition stays where it was. *)
Example foreign_condition_kept :
  synthesize clusterStart (parentP true [pausedCondition]) None None
  = parentP true [pausedCondition; runningCondition].
Proof. vm_compute. reflexivity. Qed.

Lemma synthesize_hasCondition_witness :
  hasCondition (synthesize clusterStart (parentP true [pausedCondition]) None None)
               "Paused"
  = hasCondition (parentP true [pausedCondition]) "Paused".
Proof.
  apply (proj2 (proj2 (synthesize_hasCondition clusterStart
                         (parentP true [pausedCondition]) None None)) "Paused").
  - discriminate.
  - discriminate.
Defined.

Lemma recovery_drops_running_condition_witness :
  OVMUpdate (Namespace (OVM_ObjectMeta parentRecovering))
            (synthesize clusterStart parentRecovering None None)
    ∈ effects (updateStatus clusterStart parentRecovering None None) ∧
  hasCondition (synthesize clusterStart parentRecovering None None)
               OfflineVirtualMachineRunning = false ∧
  hasCondition (synthesize clusterStart parentRecovering None None)
               OfflineVirtualMachineFailure = false.
Proof.
  apply (recovery_drops_running_condition clusterStart parentRecovering None);
    reflexivity.
Defined.

Lemma failing_running_parent_is_rewritten_witness :
  inSync (statusPass clusterCreateFails (parentP true []) None
            (Some "quota exceeded")) (Some "quota exceeded") = false ∧
  OVMUpdate (Namespace (OVM_ObjectMeta (parentP true [])))
    (statusPass clusterCreateFails
       (statusPass clusterCreateFails (parentP true []) None
          (Some "quota exceeded")) None (Some "quota exceeded"))
    ∈ effects (updateStatus clusterCreateFails
                 (statusPass clusterCreateFails (parentP true []) None
                    (Some "quota exceeded")) None (Some "quota exceeded")).
Proof.
  apply (failing_running_parent_is_rewritten clusterCreateFails (parentP true [])
           None None "quota exceeded" "quota exceeded"); reflexivity.
Defined.

Lemma startStop_acts_on_mismatch_only_witness :
  startStop clusterStart (parentP true []) (Some child1) = (Returns None, []) ∧
  (Running (OVM_Spec (parentP false [])) = false ∧
   "default" = Namespace (OVM_ObjectMeta (parentP false [])) ∧
   ∃ child, Some child1 = Some child ∧ "c1" = Name (VM_ObjectMeta child)).
Proof.
  split.
  - apply (proj1 (startStop_acts_on_mismatch_only clusterStart (parentP true [])
                    (Some child1))).
    reflexivity.
  - apply (proj2 (proj2 (startStop_acts_on_mismatch_only clusterStart
                           (parentP false []) (Some child1)))
             "default" "c1").
    right. left.
Defined.

Lemma created_child_shape_witness :
  "default" = Namespace (OVM_ObjectMeta (parentP true [])) ∧
  ∃ template,
    Template (OVM_Spec (parentP true [])) = Some template ∧
    Name (VM_ObjectMeta (newChild clusterStart (parentP true []) templateP "p"))
    = baseName (parentP true []) template ∧
    GenerateName (VM_ObjectMeta (newChild clusterStart (parentP true []) templateP "p"))
    = baseName (parentP true []) template ∧
    (Name (OVM_ObjectMeta (parentP true [])) ≠ "" →
     Name (VM_ObjectMeta (newChild clusterStart (parentP true []) templateP "p")) ≠ "") ∧
    VM_Spec (newChild clusterStart (parentP true []) templateP "p")
    = Tpl_Spec template ∧
    Namespace (VM_ObjectMeta (newChild clusterStart (parentP true []) templateP "p"))
    = Namespace (Tpl_ObjectMeta template).
Proof.
  apply (created_child_shape clusterStart (parentP true []) None "default"
           (newChild clusterStart (parentP true []) templateP "p")).
  right. left.
Defined.

Lemma orphan_releases_every_child_witness :
  ∃ vm, vm ∈ [child1; child2] ∧
        Release clusterReleaseFails parentOrphaning vm = Some "conflict".
Proof.
  apply (proj2 (proj2 (orphan_releases_every_child clusterReleaseFails
                         parentOrphaning [child1; child2])) "conflict").
  reflexivity.
Defined.

Lemma Execute_settles_the_key_witness :
  outcome (Execute clusterStart) = Returns true ∧
  ((outcome (execute clusterStart "default/p") = Returns None ∧
    effects (Execute clusterStart)
    = effects (execute clusterStart "default/p")
      ++ [QueueForget "default/p"; QueueDone "default/p"]) ∨
   (∃ err, outcome (execute clusterStart "default/p") = Returns (Some err) ∧
      effects (Execute clusterStart)
      = effects (execute clusterStart "default/p")
        ++ [QueueAddRateLimited "default/p"; QueueDone "default/p"])).
Proof.
  apply (Execute_settles_the_key clusterStart "default/p"). reflexivity.
Defined.

Lemma no_scaling_while_waiting_or_deleting_witness :
  Forall (λ e, isScaling e = false) (effects (execute clusterWaiting "default/p")).
Proof.
  apply (no_scaling_while_waiting_or_deleting clusterWaiting "default/p").
  left. reflexivity.
Defined.

Lemma scaling_error_is_not_returned_witness :
  outcome (execute clusterCreateFails "default/p") = Returns None.
Proof.
  apply (scaling_error_is_not_returned clusterCreateFails "default/p"
           (parentP true []) templateP selectorOfP [] []).
  - reflexivity.
  - apply parentP_valid.
  - reflexivity.
  - reflexivity.
  - reflexivity.
  - intros namespace ovm. exists ovm. reflexivity.
Defined.

Lemma parentOrphaning_valid :
  validParent clusterOrphaning parentOrphaning templateP selectorOfP.
Proof.
  split; [reflexivity|]. split; [apply insert_non_empty|].
  exists selectorP. split; [reflexivity|]. split; reflexivity.
Defined.

Lemma orphaning_parent_releases_witness :
  effects (execute clusterOrphaning "default/p")
  = ClaimVirtualMachines parentOrphaning (filterActiveVMs clusterOrphaning [child1]) ::
    (if (1 <? length [child1])%nat then []
     else ReleaseVirtualMachine parentOrphaning <$> [child1]) ∧
  outcome (execute clusterOrphaning "default/p")
  = Returns (if (1 <? length [child1])%nat then None
             else head (omap (Release clusterOrphaning parentOrphaning) [child1])).
Proof.
  apply (orphaning_parent_releases clusterOrphaning "default/p" parentOrphaning
           templateP selectorOfP [child1] [child1]).
  - reflexivity.
  - apply parentOrphaning_valid.
  - reflexivity.
  - reflexivity.
  - reflexivity.
  - reflexivity.
Defined.

Lemma update_observes_deletions_only_witness :
  updateVirtualMachine clusterStart (deps []) child1 child1 = [] ∧
  (DeletionTimestamp (VM_ObjectMeta dyingChild) ≠ None ∧
   ("default/c1" = VirtualMachineKey dyingChild ∨
    "default/c1" = VirtualMachineKey child1)).
Proof.
  split.
  - apply (proj1 (update_observes_deletions_only clusterStart (deps [])
                    child1 child1)).
    reflexivity.
  - apply (proj2 (proj2 (update_observes_deletions_only clusterStart (deps [])
                           child1 dyingChild)) "default/p" "default/c1").
    left.
Defined.


Lemma created_child_lowers_expectation_witness :
  ∃ ovmKey,
    ExpectCreations ovmKey 1 ∈ effects (startStop clusterStart (parentP true []) None) ∧
    addVirtualMachine clusterStart (deps []) deliveredChild
    = [ObservedCreation ovmKey; QueueAdd ovmKey].
Proof.
  apply (created_child_lowers_expectation clusterStart (deps []) (parentP true [])
           None "default"
           (newChild clusterStart (parentP true []) templateP "p") deliveredChild).
  - right. left.
  - reflexivity.
  - reflexivity.
  - reflexivity.
  - reflexivity.
  - reflexivity.
Defined.

Lemma sidecars_come_from_declared_bindings_witness :
  ∃ iface b catalog plugin,
    iface ∈ Interfaces vmiAB ∧ Binding iface = Some b ∧
    bindingCatalog configAB = Some catalog ∧
    catalog !! Services.Name b = Some plugin ∧
    Image {| Image := "img-a" |} = SidecarImage plugin ∧
    Image {| Image := "img-a" |} ≠ "".
Proof.
  apply (sidecars_come_from_declared_bindings map_to_list vmiAB configAB
           [ {| Image := "img-a" |} ] {| Image := "img-a" |}).
  - exact RangeOrder_map_to_list.
  - vm_compute. reflexivity.
  - left.
Defined.

Lemma sidecars_bounded_by_interfaces_witness :
  (length [ {| Image := "img-a" |} ] ≤ length (Interfaces vmiMixed))%nat.
Proof.
  apply (sidecars_bounded_by_interfaces map_to_list vmiMixed configAB
           [ {| Image := "img-a" |} ]).
  - exact RangeOrder_map_to_list.
  - vm_compute. reflexivity.
Defined.

Lemma resolver_ignores_order_witness :
  match NetBindingPluginSidecarList map_to_list vmiAB configAB,
        NetBindingPluginSidecarList map_to_list vmiBA configAB with
  | Ok sidecars1, Ok sidecars2 => sidecars1 ≡ₚ sidecars2
  | Err _, Err _ => True
  | _, _ => False
  end.
Proof.
  apply (resolver_ignores_order map_to_list map_to_list vmiAB vmiBA configAB).
  - exact RangeOrder_map_to_list.
  - exact RangeOrder_map_to_list.
  - apply perm_swap.
Defined.

End MoreChecks.
